(** * validation_interface.py: the session and task-ordering engine

    A shallow embedding of [ValidationManager], of the request handlers
    [index], [validate], [skip] and [progress], of [main] up to the start of
    the server and of the template filter [truncate_at_secret] of
    [validation_interface.py].  Python values that
    come out of [json.load] are embedded as the type [json]; the methods of
    the class are state transformers over the instance and the surrounding
    world (file system, process-wide random generator, clock, stdout), with
    Python exceptions as an explicit error result.  Lists and dicts are
    values there; the module [store] gives them identity, for what depends
    on which objects are shared. *)

From Stdlib Require Import Floats.PrimFloat Numbers.Cyclic.Int63.Uint63.
From stdpp Require Import gmap strings list fin_maps pretty.

Local Open Scope string_scope.
Local Open Scope Z_scope.

(** ** Values *)

(** What [json.load] can return.  Integers are unbounded, floats are IEEE
    doubles, a dict keeps its items in insertion order (keys distinct). *)
Unset Elimination Schemes.
Inductive json : Type :=
| JNull
| JBool (b : bool)
| JNum (z : Z)
| JFloat (f : float)
| JStr (s : string)
| JList (l : list json)
| JObj (d : list (string * json)).
Set Elimination Schemes.

Section json_induction.
Variable P : json → Prop.
Hypothesis Hnull : P JNull.
Hypothesis Hbool : ∀ b, P (JBool b).
Hypothesis Hnum : ∀ z, P (JNum z).
Hypothesis Hfloat : ∀ f, P (JFloat f).
Hypothesis Hstr : ∀ s, P (JStr s).
Hypothesis Hlist : ∀ l, Forall P l → P (JList l).
Hypothesis Hobj : ∀ d, Forall (λ kv, P kv.2) d → P (JObj d).

Fixpoint json_ind (v : json) : P v :=
  match v with
  | JNull => Hnull
  | JBool b => Hbool b
  | JNum z => Hnum z
  | JFloat f => Hfloat f
  | JStr s => Hstr s
  | JList l =>
      Hlist l ((fix go (l : list json) : Forall P l :=
                  match l with
                  | [] => List.Forall_nil _
                  | x :: l' => List.Forall_cons _ _ _ (json_ind x) (go l')
                  end) l)
  | JObj d =>
      Hobj d ((fix go (d : list (string * json)) : Forall (λ kv, P kv.2) d :=
                 match d with
                 | [] => List.Forall_nil _
                 | kv :: d' => List.Forall_cons _ _ _ (json_ind kv.2) (go d')
                 end) d)
  end.
End json_induction.

(** Python exceptions the code can raise.  [ModelLimit] is not a Python
    exception: it marks the few inputs whose behaviour this embedding does
    not reproduce (a float used as a set element or dict key, a number
    stored as the path of the data file). *)
Inductive exn : Type :=
| KeyError
| TypeError
| AttributeError
| IndexError
| FileNotFoundError (msg : string)
| OSError
| JSONDecodeError
| ModelLimit.

Abbreviation result A := (exn + A)%type.

(** Hashable values as [set] and [dict] see them: [True == 1] and
    [False == 0] are the same element. *)
Inductive pykey : Type :=
| KNone
| KInt (z : Z)
| KStr (s : string).

Global Instance pykey_eq_dec : EqDecision pykey.
Proof. solve_decision. Defined.

Global Instance pykey_countable : Countable pykey.
Proof.
  refine (inj_countable'
    (λ k, match k with
          | KNone => inl ()
          | KInt z => inr (inl z)
          | KStr s => inr (inr s)
          end)
    (λ x, match x with
          | inl _ => KNone
          | inr (inl z) => KInt z
          | inr (inr s) => KStr s
          end) _).
  by intros [].
Defined.

(** [hash(v)] together with [==]: the element [v] stands for in a set. *)
Definition py_key (v : json) : result pykey :=
  match v with
  | JNull => inr KNone
  | JBool b => inr (KInt (if b then 1 else 0))
  | JNum z => inr (KInt z)
  | JStr s => inr (KStr s)
  | JFloat _ => inl ModelLimit
  | JList _ | JObj _ => inl TypeError
  end.

(** ** Dicts as insertion-ordered association lists *)

Definition dict := list (string * json).

Fixpoint dict_lookup (k : string) (d : dict) : option json :=
  match d with
  | [] => None
  | (k', v) :: d' => if decide (k = k') then Some v else dict_lookup k d'
  end.

(** [d[k] = v]: an existing key keeps its position, a new key goes last. *)
Fixpoint dict_set (k : string) (v : json) (d : dict) : dict :=
  match d with
  | [] => [(k, v)]
  | (k', v') :: d' =>
      if decide (k = k') then (k, v) :: d' else (k', v') :: dict_set k v d'
  end.

Definition dict_keys (d : dict) : list string := d.*1.

(** ** Dynamic operations *)

Definition py_truthy (v : json) : bool :=
  match v with
  | JNull => false
  | JBool b => b
  | JNum z => negb (z =? 0)
  | JFloat f => negb (PrimFloat.eqb f 0%float)
  | JStr s => negb (String.eqb s "")
  | JList l => match l with [] => false | _ => true end
  | JObj d => match d with [] => false | _ => true end
  end.

Fixpoint is_substring (k s : string) : bool :=
  String.prefix k s ||
  match s with
  | EmptyString => false
  | String _ s' => is_substring k s'
  end.

Definition is_str (k : string) (v : json) : bool :=
  match v with JStr s => String.eqb k s | _ => false end.

(** [k in v] for a string [k]. *)
Definition py_in (k : string) (v : json) : result bool :=
  match v with
  | JObj d => inr (bool_decide (is_Some (dict_lookup k d)))
  | JList l => inr (existsb (is_str k) l)
  | JStr s => inr (is_substring k s)
  | _ => inl TypeError
  end.

(** [v[k]] for a string [k]. *)
Definition py_getitem (v : json) (k : string) : result json :=
  match v with
  | JObj d => match dict_lookup k d with Some x => inr x | None => inl KeyError end
  | _ => inl TypeError
  end.

(** [v.get(k, dflt)]. *)
Definition py_get (v : json) (k : string) (dflt : json) : result json :=
  match v with
  | JObj d => inr (default dflt (dict_lookup k d))
  | _ => inl AttributeError
  end.

(** [len(v)]. *)
Definition py_len (v : json) : result nat :=
  match v with
  | JList l => inr (length l)
  | JObj d => inr (length d)
  | JStr s => inr (String.length s)
  | _ => inl TypeError
  end.

Fixpoint string_chars (s : string) : list json :=
  match s with
  | EmptyString => []
  | String a s' => JStr (String a EmptyString) :: string_chars s'
  end.

(** The items [for x in v] visits. *)
Definition py_iter (v : json) : result (list json) :=
  match v with
  | JList l => inr l
  | JObj d => inr (JStr <$> dict_keys d)
  | JStr s => inr (string_chars s)
  | _ => inl TypeError
  end.

(** [v.copy()]: lists and dicts have it; the copy is shallow, and a value
    is its own copy here. *)
Definition py_copy (v : json) : result json :=
  match v with
  | JList _ | JObj _ => inr v
  | _ => inl AttributeError
  end.

(** [v.items()]. *)
Definition py_items (v : json) : result dict :=
  match v with
  | JObj d => inr d
  | _ => inl AttributeError
  end.

(** [v[k] = x] for a string [k]. *)
Definition py_setitem (v : json) (k : string) (x : json) : result json :=
  match v with
  | JObj d => inr (JObj (dict_set k x d))
  | _ => inl TypeError
  end.

(** [v.append(x)]. *)
Definition py_append (v : json) (x : json) : result json :=
  match v with
  | JList l => inr (JList (l ++ [x]))
  | _ => inl AttributeError
  end.

(** ** The runtime the module runs on

    The parts of the Python runtime the module calls and that are not its
    own code: the Mersenne Twister behind [random], the text of a compound
    value in an f-string, the formatting of [datetime.now()], and
    [pathlib] ([Path p] is the text of [Path(p)], [path_join] is [/] and
    [path_parent] is [.parent]).  [randbelow n] is [Random._randbelow(n)],
    which returns a number below [n]; [rng_seed a] is the generator state
    after [random.seed(a)]. *)
Class Runtime := {
  rng_state : Type;
  rng_seed : json → rng_state;
  randbelow : nat → rng_state → nat * rng_state;
  randbelow_lt : ∀ n g, (0 < n)%nat → ((randbelow n g).1 < n)%nat;
  repr_compound : json → string;
  strftime : Z → string;
  isoformat : Z → string;
  Path : string → string;
  path_join : string → string → string;
  path_parent : string → string;
}.

(** A file holds a JSON document or, after a write that broke off, text
    that [json.load] rejects. *)
Inductive file : Type :=
| FJson (j : json)
| FGarbled.

(** How an attempt at file I/O goes: it works, it fails before the file is
    touched, or (for a write) it fails after the file was truncated. *)
Inductive io_outcome : Type :=
| IoOk
| IoFailOpen
| IoFailWrite.

Section model.
Context `{RT : Runtime}.

(** Everything outside the instance.  [timeline] lists the clock readings
    still to come and [io_plan] the outcomes of the I/O attempts still to
    come (an exhausted list means the clock reads 0, the attempt works). *)
Record world : Type := World {
  fs : gmap string file;
  rng : rng_state;
  stdout : list string;
  timeline : list Z;
  io_plan : list io_outcome;
}.

(** The attributes of a [ValidationManager] instance. *)
Record ValidationManager : Type := Manager {
  data_file : string;
  results_dir : string;
  session_name : json;
  random_seed : json;
  session_id : json;
  session_file : string;
  transitions : json;
  current_transitions : json;
  completed_transitions : gset pykey;
  session_validations : json;
  error_categories : json;
  metadata : json;
  material_lookup : gmap pykey json;
}.

Record state : Type := State { self : ValidationManager; env : world }.

(** ** A state-and-exception monad

    A statement runs on the instance and the world and either completes or
    raises; what it changed before raising stays changed. *)
Definition M (A : Type) : Type := state → state * result A.

Definition ret {A} (a : A) : M A := λ st, (st, inr a).
Definition raise {A} (e : exn) : M A := λ st, (st, inl e).
Definition bind {A B} (m : M A) (k : A → M B) : M B :=
  λ st, match m st with
        | (st', inr a) => k a st'
        | (st', inl e) => (st', inl e)
        end.
Definition lift {A} (r : result A) : M A :=
  match r with inr a => ret a | inl e => raise e end.

Definition get_self : M ValidationManager := λ st, (st, inr (self st)).
Definition set_self (f : ValidationManager → ValidationManager) : M unit :=
  λ st, (State (f (self st)) (env st), inr tt).
Definition get_env : M world := λ st, (st, inr (env st)).
Definition set_env (f : world → world) : M unit :=
  λ st, (State (self st) (f (env st)), inr tt).

(** [for x in l: body(x)]. *)
Fixpoint for_each {A} (l : list A) (body : A → M unit) : M unit :=
  match l with
  | [] => ret tt
  | x :: l' => bind (body x) (λ _, for_each l' body)
  end.

End model.

Declare Scope monad_scope.
Delimit Scope monad_scope with monad.
Notation "x <- m ;; k" := (bind m (λ x, k))
  (at level 100, m at next level, right associativity) : monad_scope.
Notation "m ;; k" := (bind m (λ _, k))
  (at level 100, right associativity) : monad_scope.
Local Open Scope monad_scope.

Section program.
Context `{RT : Runtime}.

(** ** Attribute assignment *)

Definition with_data_file (x : string) (m : ValidationManager) : ValidationManager :=
  Manager x (results_dir m) (session_name m) (random_seed m) (session_id m)
    (session_file m) (transitions m) (current_transitions m)
    (completed_transitions m) (session_validations m) (error_categories m)
    (metadata m) (material_lookup m).
Definition with_results_dir (x : string) (m : ValidationManager) : ValidationManager :=
  Manager (data_file m) x (session_name m) (random_seed m) (session_id m)
    (session_file m) (transitions m) (current_transitions m)
    (completed_transitions m) (session_validations m) (error_categories m)
    (metadata m) (material_lookup m).
Definition with_session_name (x : json) (m : ValidationManager) : ValidationManager :=
  Manager (data_file m) (results_dir m) x (random_seed m) (session_id m)
    (session_file m) (transitions m) (current_transitions m)
    (completed_transitions m) (session_validations m) (error_categories m)
    (metadata m) (material_lookup m).
Definition with_random_seed (x : json) (m : ValidationManager) : ValidationManager :=
  Manager (data_file m) (results_dir m) (session_name m) x (session_id m)
    (session_file m) (transitions m) (current_transitions m)
    (completed_transitions m) (session_validations m) (error_categories m)
    (metadata m) (material_lookup m).
Definition with_session_id (x : json) (m : ValidationManager) : ValidationManager :=
  Manager (data_file m) (results_dir m) (session_name m) (random_seed m) x
    (session_file m) (transitions m) (current_transitions m)
    (completed_transitions m) (session_validations m) (error_categories m)
    (metadata m) (material_lookup m).
Definition with_session_file (x : string) (m : ValidationManager) : ValidationManager :=
  Manager (data_file m) (results_dir m) (session_name m) (random_seed m)
    (session_id m) x (transitions m) (current_transitions m)
    (completed_transitions m) (session_validations m) (error_categories m)
    (metadata m) (material_lookup m).
Definition with_transitions (x : json) (m : ValidationManager) : ValidationManager :=
  Manager (data_file m) (results_dir m) (session_name m) (random_seed m)
    (session_id m) (session_file m) x (current_transitions m)
    (completed_transitions m) (session_validations m) (error_categories m)
    (metadata m) (material_lookup m).
Definition with_current_transitions (x : json) (m : ValidationManager) : ValidationManager :=
  Manager (data_file m) (results_dir m) (session_name m) (random_seed m)
    (session_id m) (session_file m) (transitions m) x
    (completed_transitions m) (session_validations m) (error_categories m)
    (metadata m) (material_lookup m).
Definition with_completed_transitions (x : gset pykey) (m : ValidationManager) : ValidationManager :=
  Manager (data_file m) (results_dir m) (session_name m) (random_seed m)
    (session_id m) (session_file m) (transitions m) (current_transitions m)
    x (session_validations m) (error_categories m)
    (metadata m) (material_lookup m).
Definition with_session_validations (x : json) (m : ValidationManager) : ValidationManager :=
  Manager (data_file m) (results_dir m) (session_name m) (random_seed m)
    (session_id m) (session_file m) (transitions m) (current_transitions m)
    (completed_transitions m) x (error_categories m)
    (metadata m) (material_lookup m).
Definition with_error_categories (x : json) (m : ValidationManager) : ValidationManager :=
  Manager (data_file m) (results_dir m) (session_name m) (random_seed m)
    (session_id m) (session_file m) (transitions m) (current_transitions m)
    (completed_transitions m) (session_validations m) x
    (metadata m) (material_lookup m).
Definition with_metadata (x : json) (m : ValidationManager) : ValidationManager :=
  Manager (data_file m) (results_dir m) (session_name m) (random_seed m)
    (session_id m) (session_file m) (transitions m) (current_transitions m)
    (completed_transitions m) (session_validations m) (error_categories m)
    x (material_lookup m).
Definition with_material_lookup (x : gmap pykey json) (m : ValidationManager) : ValidationManager :=
  Manager (data_file m) (results_dir m) (session_name m) (random_seed m)
    (session_id m) (session_file m) (transitions m) (current_transitions m)
    (completed_transitions m) (session_validations m) (error_categories m)
    (metadata m) x.

Definition with_fs (x : gmap string file) (w : world) : world :=
  World x (rng w) (stdout w) (timeline w) (io_plan w).
Definition with_rng (x : rng_state) (w : world) : world :=
  World (fs w) x (stdout w) (timeline w) (io_plan w).
Definition with_stdout (x : list string) (w : world) : world :=
  World (fs w) (rng w) x (timeline w) (io_plan w).
Definition with_timeline (x : list Z) (w : world) : world :=
  World (fs w) (rng w) (stdout w) x (io_plan w).
Definition with_io_plan (x : list io_outcome) (w : world) : world :=
  World (fs w) (rng w) (stdout w) (timeline w) x.

(** ** Primitives of the world *)

(** [str(v)], as an f-string formats [v]. *)
Definition py_str (v : json) : string :=
  match v with
  | JNull => "None"
  | JBool true => "True"
  | JBool false => "False"
  | JNum z => pretty z
  | JStr s => s
  | _ => repr_compound v
  end.

Definition print (line : string) : M unit :=
  set_env (λ w, with_stdout (stdout w ++ [line]) w).

(** [datetime.datetime.now()]. *)
Definition now : M Z :=
  w <- get_env;;
  match timeline w with
  | [] => ret 0
  | t :: ts => set_env (with_timeline ts);; ret t
  end.

Definition next_io : M io_outcome :=
  w <- get_env;;
  match io_plan w with
  | [] => ret IoOk
  | o :: os => set_env (with_io_plan os);; ret o
  end.

(** [with open(path, 'r') as f: json.load(f)]. *)
Definition read_json (path : string) : M json :=
  o <- next_io;;
  match o with
  | IoOk =>
      w <- get_env;;
      match fs w !! path with
      | None => raise (FileNotFoundError path)
      | Some (FJson j) => ret j
      | Some FGarbled => raise JSONDecodeError
      end
  | _ => raise OSError
  end.

(** [with open(path, 'w') as f: json.dump(j, f, indent=2)]. *)
Definition write_json (path : string) (j : json) : M unit :=
  o <- next_io;;
  match o with
  | IoOk => set_env (λ w, with_fs (<[path := FJson j]> (fs w)) w)
  | IoFailOpen => raise OSError
  | IoFailWrite =>
      set_env (λ w, with_fs (<[path := FGarbled]> (fs w)) w);; raise OSError
  end.

(** [os.path.exists(path)] and [Path.exists()]. *)
Definition path_exists (path : string) : M bool :=
  w <- get_env;; ret (bool_decide (is_Some (fs w !! path))).

(** [Path.mkdir(exist_ok=True)]; directories are not part of [fs]. *)
Definition mkdir (path : string) : M unit :=
  o <- next_io;;
  match o with
  | IoOk => ret tt
  | _ => raise OSError
  end.

(** [random.seed(a)] for a value [a] that is not [None]. *)
Definition random_seed_with (a : json) : M unit :=
  match a with
  | JList _ | JObj _ => raise TypeError
  | _ => set_env (with_rng (rng_seed a))
  end.

Definition random_below (n : nat) : M nat :=
  w <- get_env;;
  let '(j, g) := randbelow n (rng w) in
  set_env (with_rng g);; ret j.

(** ** [random.shuffle]

    CPython's [Random.shuffle]:
    [for i in reversed(range(1, len(x))): j = randbelow(i + 1);
     x[i], x[j] = x[j], x[i]]. *)
Definition swap (x : list json) (i j : nat) : result (list json) :=
  match x !! j, x !! i with
  | Some xj, Some xi => inr (<[j := xi]> (<[i := xj]> x))
  | _, _ => inl IndexError
  end.

Fixpoint shuffle_from (i : nat) (x : list json) : M (list json) :=
  match i with
  | O => ret x
  | S i' =>
      j <- random_below (S i);;
      x' <- lift (swap x i j);;
      shuffle_from i' x'
  end.

(** On a dict or a string of two or more items the first exchange fails,
    after one number was drawn; shorter ones are left as they are. *)
Definition random_shuffle (x : json) : M json :=
  match x with
  | JList l => l' <- shuffle_from (length l - 1) l;; ret (JList l')
  | JObj d =>
      if decide (length d ≤ 1)%nat then ret x
      else random_below (length d);; raise KeyError
  | JStr s =>
      if decide (String.length s ≤ 1)%nat then ret x
      else random_below (String.length s);; raise TypeError
  | _ => raise TypeError
  end.

(** ** [ValidationManager] *)

Definition enumerate {A} (l : list A) : list (nat * A) := imap pair l.

(** [self.transitions.append(t)]. *)
Definition append_transition (t : json) : M unit :=
  m <- get_self;;
  ts <- lift (py_append (transitions m) t);;
  set_self (with_transitions ts).

(** The dict literal [transition = {...}] of [_load_data]. *)
Definition transition_record (gid original : json) (i : nat)
    (action input_materials input_observations prediction : json) : json :=
  JObj [
    ("transition_id", JStr (py_str gid +:+ "_" +:+ pretty i));
    ("original_transition_id", original);
    ("prediction_index", JNum (Z.of_nat i));
    ("action", action);
    ("input_materials", input_materials);
    ("input_observations", input_observations);
    ("prediction", prediction)].

(** The body of [for i, prediction in enumerate(comparison['predictions'])],
    on the pair [ip] of [i] and [prediction]. *)
Definition extract_prediction (comparison : json) (ip : nat * json) : M unit :=
  err <- lift (py_get ip.2 "error" JNull);;
  if py_truthy err then ret tt
  else
    gid <- lift (py_getitem comparison "transition_id");;
    original <- lift (py_getitem comparison "transition_id");;
    action <- lift (py_getitem comparison "action");;
    input_materials <- lift (py_getitem comparison "input_materials");;
    input_observations <- lift (py_getitem comparison "input_observations");;
    append_transition
      (transition_record gid original ip.1 action input_materials
         input_observations ip.2).

(** The body of [for comparison in data['comparisons']]. *)
Definition extract_comparison (comparison : json) : M unit :=
  predictions <- lift (py_getitem comparison "predictions");;
  ps <- lift (py_iter predictions);;
  for_each (enumerate ps) (extract_prediction comparison).

Definition _load_data : M unit :=
  m <- get_self;;
  data <- read_json (data_file m);;
  has <- lift (py_in "comparisons" data);;
  (if has : bool then
     comparisons <- lift (py_getitem data "comparisons");;
     cs <- lift (py_iter comparisons);;
     for_each cs extract_comparison
   else
     ts <- lift (py_get data "transitions" (JList []));;
     set_self (with_transitions ts));;
  md <- lift (py_get data "metadata" (JObj []));;
  set_self (with_metadata md);;
  m <- get_self;;
  n <- lift (py_len (transitions m));;
  print ("Loaded " +:+ pretty n +:+ " transitions for validation").

(** The body shared by the two [for material in ...] loops. *)
Definition add_material (material : json) : M unit :=
  has_barcode <- lift (py_in "barcode" material);;
  has_name <- (if has_barcode : bool then lift (py_in "name" material) else ret false);;
  if has_name : bool then
    name <- lift (py_getitem material "name");;
    barcode <- lift (py_getitem material "barcode");;
    k <- lift (py_key barcode);;
    set_self (λ m, with_material_lookup (<[k := name]> (material_lookup m)) m)
  else ret tt.

(** The body of [for transition in self.transitions]. *)
Definition index_transition (transition : json) : M unit :=
  ims <- lift (py_get transition "input_materials" JNull);;
  (if py_truthy ims then
     ims' <- lift (py_getitem transition "input_materials");;
     l <- lift (py_iter ims');;
     for_each l add_material
   else ret tt);;
  p1 <- lift (py_get transition "prediction" (JObj []));;
  p2 <- lift (py_get p1 "prediction" (JObj []));;
  pred_materials <- lift (py_get p2 "new_materials" (JList []));;
  l <- lift (py_iter pred_materials);;
  for_each l add_material.

Definition _build_material_lookup : M unit :=
  set_self (with_material_lookup ∅);;
  m <- get_self;;
  ts <- lift (py_iter (transitions m));;
  for_each ts index_transition;;
  m <- get_self;;
  print ("Built material lookup table with " +:+ pretty (size (material_lookup m))
         +:+ " entries").

Definition is_none (v : json) : bool :=
  match v with JNull => true | _ => false end.

Definition _randomize_transitions : M unit :=
  m <- get_self;;
  (if is_none (random_seed m) then ret tt
   else
     random_seed_with (random_seed m);;
     print ("Using random seed: " +:+ py_str (random_seed m)
            +:+ " for reproducible order"));;
  c <- lift (py_copy (transitions m));;
  set_self (with_current_transitions c);;
  c' <- random_shuffle c;;
  set_self (with_current_transitions c');;
  n <- lift (py_len c');;
  print ("Randomized order of " +:+ pretty n +:+ " transitions").

Definition _initialize_session_file : M unit :=
  m <- get_self;;
  t <- now;;
  n <- lift (py_len (current_transitions m));;
  write_json (session_file m) (JObj [
    ("session_id", session_id m);
    ("session_name", session_name m);
    ("random_seed", random_seed m);
    ("start_time", JStr (isoformat t));
    ("source_data_file", JStr (data_file m));
    ("total_transitions", JNum (Z.of_nat n));
    ("metadata", metadata m);
    ("error_categories", error_categories m);
    ("validations", JList [])]);;
  print ("Initialized validation session file: " +:+ session_file m).

Definition category (id label description : string) : json :=
  JObj [("id", JStr id); ("label", JStr label); ("description", JStr description)].

Definition default_error_categories : json :=
  JList [
    category "materials_missing" "Missing Expected Materials"
      "Expected materials were not predicted";
    category "materials_incorrect" "Incorrect Material Properties"
      "Material properties don't match expected values";
    category "materials_extra" "Unexpected Materials"
      "Materials predicted that shouldn't exist";
    category "observations_missing" "Missing Expected Observations"
      "Expected observations were not predicted";
    category "observations_incorrect" "Incorrect Observation Values"
      "Observation values don't match expected results";
    category "observations_extra" "Unexpected Observations"
      "Observations predicted that shouldn't occur";
    category "timing_wrong" "Incorrect Timing"
      "Events predicted at wrong time points";
    category "physical_impossible" "Physically Impossible"
      "Predictions violate physical laws or constraints";
    category "reasoning_flawed" "Flawed Reasoning"
      "Logical errors in the model's reasoning";
    category "context_ignored" "Context Ignored"
      "Model ignored important contextual information"].

(** [ValidationManager(data_file, results_dir, session_name, random_seed)]:
    runs on the new instance and leaves it initialised. *)
Definition __init__ (data_file results_dir : string)
    (session_name random_seed : json) : M unit :=
  set_self (with_data_file data_file);;
  let results_dir := Path results_dir in
  set_self (with_results_dir results_dir);;
  mkdir results_dir;;
  t <- now;;
  let timestamp := strftime t in
  set_self (with_session_name session_name);;
  set_self (with_random_seed random_seed);;
  (if py_truthy session_name then
     set_self (with_session_id (JStr (py_str session_name +:+ "_" +:+ timestamp)));;
     set_self (with_session_file (path_join results_dir
       ("validation_session_" +:+ py_str session_name +:+ "_" +:+ timestamp +:+ ".json")))
   else
     set_self (with_session_id (JStr timestamp));;
     set_self (with_session_file (path_join results_dir
       ("validation_session_" +:+ timestamp +:+ ".json"))));;
  set_self (with_transitions (JList []));;
  set_self (with_current_transitions (JList []));;
  set_self (with_completed_transitions ∅);;
  set_self (with_session_validations (JList []));;
  set_self (with_error_categories default_error_categories);;
  _load_data;;
  _build_material_lookup;;
  _randomize_transitions;;
  _initialize_session_file.

(** [self.completed_transitions.add(v)]. *)
Definition add_completed (v : json) : M unit :=
  k <- lift (py_key v);;
  set_self (λ m, with_completed_transitions ({[k]} ∪ completed_transitions m) m).

(** The body of [for validation in instance.session_validations]. *)
Definition restore_validation (validation : json) : M unit :=
  tid <- lift (py_getitem validation "transition_id");;
  add_completed tid.

(** [ValidationManager.resume_from_session(session_file_path, data_file)]:
    runs on the instance [cls.__new__(cls)] made and leaves it restored. *)
Definition resume_from_session (session_file_path : string)
    (data_file : option string) : M unit :=
  let session_path := Path session_file_path in
  found <- path_exists session_path;;
  (if found : bool then ret tt
   else raise (FileNotFoundError ("Session file not found: " +:+ session_file_path)));;
  session_data <- read_json session_path;;
  data_file <-
    match data_file with
    | Some d => ret d
    | None =>
        d <- lift (py_get session_data "source_data_file" JNull);;
        if negb (py_truthy d) then
          raise (FileNotFoundError
                   "Original data file not found, please specify with --data-file")
        else
          match d with
          | JStr s =>
              found <- path_exists s;;
              if found : bool then ret s
              else raise (FileNotFoundError
                     "Original data file not found, please specify with --data-file")
          | JNum _ | JBool _ => raise ModelLimit
          | _ => raise TypeError
          end
    end;;
  session_name <- lift (py_get session_data "session_name" JNull);;
  random_seed <- lift (py_get session_data "random_seed" (JNum 42));;
  set_self (with_data_file data_file);;
  set_self (with_results_dir (path_parent session_path));;
  set_self (with_session_name session_name);;
  set_self (with_random_seed random_seed);;
  sid <- lift (py_getitem session_data "session_id");;
  set_self (with_session_id sid);;
  set_self (with_session_file session_path);;
  set_self (with_transitions (JList []));;
  set_self (with_current_transitions (JList []));;
  set_self (with_completed_transitions ∅);;
  set_self (with_session_validations (JList []));;
  cats <- lift (py_get session_data "error_categories" (JList []));;
  set_self (with_error_categories cats);;
  _load_data;;
  _build_material_lookup;;
  _randomize_transitions;;
  validations <- lift (py_get session_data "validations" (JList []));;
  set_self (with_session_validations validations);;
  set_self (with_completed_transitions ∅);;
  vs <- lift (py_iter validations);;
  for_each vs restore_validation;;
  print ("Resumed session from: " +:+ session_path);;
  m <- get_self;;
  n <- lift (py_len (current_transitions m));;
  print ("Progress: " +:+ pretty (size (completed_transitions m)) +:+ "/"
         +:+ pretty n +:+ " completed").

End program.

(** Sequencing of partial pure computations. *)
Definition rbind {A B} (r : result A) (k : A → result B) : result B :=
  match r with inr a => k a | inl e => inl e end.
Notation "x <~ r ;; k" := (rbind r (λ x, k))
  (at level 100, r at next level, right associativity) : monad_scope.

Section reading.
Context `{RT : Runtime}.

Fixpoint _resolve_barcode_to_name (m : ValidationManager) (value : json) : json :=
  match value with
  | JStr s => default value (material_lookup m !! KStr s)
  | JList l => JList (map (_resolve_barcode_to_name m) l)
  | JObj d => JObj (map (λ kv, (kv.1, _resolve_barcode_to_name m kv.2)) d)
  | _ => value
  end.

Definition _enhance_transition_with_names (m : ValidationManager)
    (transition : json) : result json :=
  enhanced <~ py_copy transition;;
  has_action <~ py_in "action" enhanced;;
  has_parameters <~
    (if has_action : bool then
       action <~ py_getitem enhanced "action";; py_in "parameters" action
     else inr false);;
  if has_parameters : bool then
    action <~ py_getitem enhanced "action";;
    parameters <~ py_getitem action "parameters";;
    items <~ py_items parameters;;
    let enhanced_params :=
      JObj (fold_left (λ acc kv, dict_set kv.1 (_resolve_barcode_to_name m kv.2) acc)
              items []) in
    action <~ py_getitem enhanced "action";;
    action <~ py_copy action;;
    enhanced <~ py_setitem enhanced "action" action;;
    action <~ py_getitem enhanced "action";;
    action <~ py_setitem action "parameters" enhanced_params;;
    enhanced <~ py_setitem enhanced "action" action;;
    action <~ py_getitem enhanced "action";;
    action <~ py_setitem action "parameters_display" enhanced_params;;
    enhanced <~ py_setitem enhanced "action" action;;
    inr enhanced
  else inr enhanced.

(** The loop of [get_next_transition] over the items still to visit. *)
Fixpoint first_pending (m : ValidationManager) (l : list json) : result (option json) :=
  match l with
  | [] => inr None
  | transition :: l' =>
      tid <~ py_getitem transition "transition_id";;
      k <~ py_key tid;;
      if decide (k ∈ completed_transitions m) then first_pending m l'
      else enhanced <~ _enhance_transition_with_names m transition;;
           inr (Some enhanced)
  end.

Definition get_next_transition (m : ValidationManager) : result (option json) :=
  l <~ py_iter (current_transitions m);;
  first_pending m l.

Record progress : Type := Progress { completed : Z; total : Z; remaining : Z }.

Definition get_progress (m : ValidationManager) : result progress :=
  n <~ py_len (current_transitions m);;
  let c := Z.of_nat (size (completed_transitions m)) in
  inr (Progress c (Z.of_nat n) (Z.of_nat n - c)).

(** [len(a) / len(b) * 100] on lengths that a float holds exactly. *)
Definition float_of_nat (n : nat) : float :=
  PrimFloat.of_uint63 (Uint63.of_Z (Z.of_nat n)).
Definition percentage (a b : nat) : float :=
  PrimFloat.mul (PrimFloat.div (float_of_nat a) (float_of_nat b)) (float_of_nat 100).

Definition _update_session_file : M unit :=
  m <- get_self;;
  session_data <- read_json (session_file m);;
  session_data <- lift (py_setitem session_data "validations" (session_validations m));;
  t <- now;;
  session_data <- lift (py_setitem session_data "last_updated" (JStr (isoformat t)));;
  session_data <- lift (py_setitem session_data "completed_transitions"
                          (JNum (Z.of_nat (size (completed_transitions m)))));;
  pct <-
    (if py_truthy (current_transitions m) then
       n <- lift (py_len (current_transitions m));;
       ret (JFloat (percentage (size (completed_transitions m)) n))
     else ret (JNum 0));;
  session_data <- lift (py_setitem session_data "progress_percentage" pct);;
  write_json (session_file m) session_data.

Definition save_validation (transition_id is_plausible error_categories
    custom_error comments confidence transition_data : json) : M unit :=
  t <- now;;
  prediction_config <-
    (if py_truthy transition_data then
       prediction <- lift (py_get transition_data "prediction" (JObj []));;
       lift (py_get prediction "config" (JObj []))
     else ret (JObj []));;
  let validation_result := JObj [
    ("transition_id", transition_id);
    ("timestamp", JStr (isoformat t));
    ("is_plausible", is_plausible);
    ("error_categories", error_categories);
    ("custom_error", custom_error);
    ("comments", comments);
    ("confidence", confidence);
    ("transition_data", transition_data);
    ("prediction_config", prediction_config)] in
  m <- get_self;;
  vs <- lift (py_append (session_validations m) validation_result);;
  set_self (with_session_validations vs);;
  _update_session_file;;
  add_completed transition_id;;
  status <-
    (if py_truthy is_plausible then ret "plausible"
     else
       n <- lift (py_len error_categories);;
       ret ("implausible (" +:+ pretty n +:+ " errors)"));;
  print ("Saved validation for " +:+ py_str transition_id +:+ ": " +:+ status).

(** The [/skip] handler on the request body [data]. *)
Definition skip (data : json) : M unit :=
  transition_id <- lift (py_getitem data "transition_id");;
  add_completed transition_id.

End reading.

(** ** A runtime to run examples on

    A small linear congruential generator stands in for the Mersenne
    Twister, the clock is printed as a number, and paths are joined with a
    slash. *)
Definition lcg (g : Z) : Z := (g * 1103515245 + 12345) `mod` 2147483648.

Definition lcg_seed (a : json) : Z :=
  match a with
  | JNum z => Z.abs z
  | JBool true => 1
  | JStr s => Z.of_nat (String.length s)
  | _ => 0
  end.

Definition lcg_below (n : nat) (g : Z) : nat * Z :=
  (Z.to_nat (lcg g `mod` Z.of_nat n), lcg g).

Lemma lcg_below_lt n g : (0 < n)%nat → ((lcg_below n g).1 < n)%nat.
Proof.
  intros Hn. unfold lcg_below. simpl.
  pose proof (Z.mod_pos_bound (lcg g) (Z.of_nat n)). lia.
Qed.

Definition example_runtime : Runtime := {|
  rng_state := Z;
  rng_seed := lcg_seed;
  randbelow := lcg_below;
  randbelow_lt := lcg_below_lt;
  repr_compound := λ _, "<repr>";
  strftime := pretty;
  isoformat := pretty;
  Path := id;
  path_join := λ d f, d +:+ "/" +:+ f;
  path_parent := λ _, ".";
|}.

#[local] Existing Instance example_runtime | 100.

(** An instance on which no attribute was assigned yet. *)
Definition blank : ValidationManager :=
  Manager "" "" JNull JNull JNull "" JNull JNull ∅ JNull JNull JNull ∅.

Definition example_world (files : list (string * file))
    (plan : list io_outcome) : @world example_runtime :=
  @World example_runtime (list_to_map files) 0 [] [] plan.

(** ** Notions the properties are stated with *)

(** The element of [completed_transitions] a task's id stands for, when
    the task has an id that can be one. *)
Definition task_key (t : json) : option pykey :=
  match (tid <~ py_getitem t "transition_id";; py_key tid) with
  | inr k => Some k
  | inl _ => None
  end.

(** The ids of the tasks in the presentation order. *)
Definition task_keys (m : ValidationManager) : gset pykey :=
  match py_iter (current_transitions m) with
  | inr l => list_to_set (omap task_key l)
  | inl _ => ∅
  end.

Definition done_a : ValidationManager :=
  with_completed_transitions {[KStr "a"]}
    (with_current_transitions (JList [JObj [("transition_id", JStr "a")]]) blank).

(** A position inside a nested value: into a list by index, into a dict
    by key. *)
Inductive step : Type :=
| Idx (i : nat)
| Key (k : string).

Fixpoint json_at (p : list step) (v : json) : option json :=
  match p with
  | [] => Some v
  | Idx i :: p' =>
      match v with
      | JList l => l !! i ≫= json_at p'
      | _ => None
      end
  | Key k :: p' =>
      match v with
      | JObj d => dict_lookup k d ≫= json_at p'
      | _ => None
      end
  end.

(** The strings that occur as scalars in a value (dict keys are not
    scalars). *)
Fixpoint json_strings (v : json) : list string :=
  match v with
  | JStr s => [s]
  | JList l => flat_map json_strings l
  | JObj d => flat_map (λ kv, json_strings kv.2) d
  | _ => []
  end.

Definition is_str_value (v : json) : bool :=
  match v with JStr _ => true | _ => false end.

Definition is_scalar (v : json) : bool :=
  match v with
  | JList _ | JObj _ => false
  | _ => true
  end.

Definition names_bc1 : ValidationManager :=
  with_material_lookup {[KStr "BC1" := JStr "Plate A"]} blank.

Section notions.
Context `{RT : Runtime}.

(** A seed [random.seed] accepts and [_randomize_transitions] uses. *)
Definition seedable (a : json) : bool :=
  match a with
  | JNull | JList _ | JObj _ => false
  | _ => true
  end.

(** What [random.shuffle] makes of [x] when the generator is in the state
    [random.seed(seed)] leaves it in. *)
Definition generated_order (seed x : json) : result json :=
  (random_shuffle x (State blank (World ∅ (rng_seed seed) [] [] []))).2.

(** A prediction carries an error marker when its ['error'] entry is
    truthy. *)
Definition error_marker (p : json) : bool :=
  match py_get p "error" JNull with
  | inr e => py_truthy e
  | inl _ => false
  end.

Definition predictions_of (g : json) : list json :=
  match py_getitem g "predictions" with
  | inr (JList ps) => ps
  | _ => []
  end.

(** The predictions of a group that carry no error marker, each with its
    index among all the predictions of the group. *)
Definition reviewable (g : json) : list (nat * json) :=
  filter (λ ip, error_marker ip.2 = false) (enumerate (predictions_of g)).

(** A group of the comparison-group format: an id, the shared action and
    input fields, and a list of predictions that are objects. *)
Definition comparison_group (g : json) : Prop :=
  (∃ gid, py_getitem g "transition_id" = inr gid) ∧
  (∃ a, py_getitem g "action" = inr a) ∧
  (∃ im, py_getitem g "input_materials" = inr im) ∧
  (∃ io, py_getitem g "input_observations" = inr io) ∧
  (∃ ps, py_getitem g "predictions" = inr (JList ps) ∧
         Forall (λ p, ∃ d, p = JObj d) ps).

(** [t] is the Task of prediction [p] at index [i] of group [g]. *)
Definition is_task_of (g : json) (i : nat) (p t : json) : Prop :=
  ∃ gid, py_getitem g "transition_id" = inr gid ∧
    py_getitem t "transition_id" = inr (JStr (py_str gid +:+ "_" +:+ pretty i)) ∧
    py_getitem t "original_transition_id" = inr gid ∧
    py_getitem t "prediction_index" = inr (JNum (Z.of_nat i)) ∧
    py_getitem t "action" = py_getitem g "action" ∧
    py_getitem t "input_materials" = py_getitem g "input_materials" ∧
    py_getitem t "input_observations" = py_getitem g "input_observations" ∧
    py_getitem t "prediction" = inr p.

(** The value under a key, [None] where there is none. *)
Definition field (g : json) (k : string) : json :=
  match py_getitem g k with
  | inr v => v
  | inl _ => JNull
  end.

(** The record [_load_data] makes of the prediction [ip] of group [g]. *)
Definition made_task (g : json) (ip : nat * json) : json :=
  transition_record (field g "transition_id") (field g "transition_id") ip.1
    (field g "action") (field g "input_materials") (field g "input_observations")
    ip.2.

(** One of the two I/O attempts of [_update_session_file], the read of
    the session file and the write that follows, fails. *)
Definition update_io_fails (w : world) : Prop :=
  match io_plan w with
  | [] => False
  | o1 :: rest =>
      o1 ≠ IoOk ∨ match rest with [] => False | o2 :: _ => o2 ≠ IoOk end
  end.

(** The requests that change a session: a judgment ([/validate], which
    calls [save_validation]) and a skip. *)
Inductive request : Type :=
| Judge (transition_id is_plausible error_categories custom_error comments
         confidence transition_data : json)
| Skip (data : json).

Definition serve (rq : request) : M unit :=
  match rq with
  | Judge tid ip ec ce cm cf td => save_validation tid ip ec ce cm cf td
  | Skip data => skip data
  end.

(** The state after a sequence of requests, whether they succeed or
    raise. *)
Definition after (rqs : list request) (st : state) : state :=
  fold_left (λ st rq, (serve rq st).1) rqs st.

End notions.

(** The id a task carries. *)
Definition task_id (t : json) : result json := py_getitem t "transition_id".

Definition three_tasks : list json :=
  [JObj [("transition_id", JStr "a")];
   JObj [("transition_id", JStr "b")];
   JObj [("transition_id", JStr "c")]].

Definition seeded_42 : ValidationManager :=
  with_random_seed (JNum 42) (with_transitions (JList three_tasks) blank).

Definition one_group : list json :=
  [JObj [("transition_id", JStr "g1");
         ("action", JObj [("parameters", JObj [("plate", JStr "BC1")])]);
         ("input_materials",
          JList [JObj [("barcode", JStr "BC1"); ("name", JStr "Plate A")]]);
         ("input_observations", JList []);
         ("predictions", JList [JObj [("error", JStr "timeout")];
                                 JObj [("prediction", JObj [])]])]].

Definition two_predictions : dict := [("comparisons", JList one_group)].

Definition no_shape : dict := [("foo", JNum 1)].

Definition first_run (data : dict) : @state example_runtime :=
  State (with_transitions (JList []) (with_data_file "data.json" blank))
    (example_world [("data.json", FJson (JObj data))] []).

(** A session on two tasks with no judgment yet, its file on disk; the
    first write to come fails before it touches the file. *)
Definition two_task_session : ValidationManager :=
  with_session_file "s.json"
    (with_session_validations (JList [])
       (with_current_transitions
          (JList [JObj [("transition_id", JStr "a")];
                  JObj [("transition_id", JStr "b")]]) blank)).

Definition write_fails_once : @state example_runtime :=
  State two_task_session
    (example_world [("s.json", FJson (JObj [("validations", JList [])]))]
       [IoOk; IoFailOpen]).

Definition judge (tid : string) : M unit :=
  save_validation (JStr tid) (JBool true) (JList []) (JStr "") (JStr "") JNull JNull.

Definition judgment_of (tid : string) : json :=
  JObj [("transition_id", JStr tid); ("timestamp", JStr "0");
        ("is_plausible", JBool true); ("error_categories", JList []);
        ("custom_error", JStr ""); ("comments", JStr "");
        ("confidence", JNull); ("transition_data", JNull);
        ("prediction_config", JObj [])].

(** The ['validations'] entry of the session file, as a reader finds it. *)
Definition stored_validations `{RT : Runtime} (path : string) (st : state) : result json :=
  match fs (env st) !! path with
  | Some (FJson sd) => py_getitem sd "validations"
  | _ => inl KeyError
  end.

(** A new session on the dataset [two_predictions], seed 42. *)
Definition new_session : @state example_runtime :=
  (__init__ "data.json" "out" JNull (JNum 42)
     (State blank (example_world [("data.json", FJson (JObj two_predictions))] []))).1.

Definition plate_task (parameters : list (string * json)) : list (string * json) :=
  [("transition_id", JStr "g1_1");
   ("original_transition_id", JStr "g1");
   ("prediction_index", JNum 1);
   ("action", JObj parameters);
   ("input_materials",
    JList [JObj [("barcode", JStr "BC1"); ("name", JStr "Plate A")]]);
   ("input_observations", JList []);
   ("prediction", JObj [("prediction", JObj [])])].

(** A session file whose count of completed transitions, 7, is not the
    number of judgments it stores, 1. *)
Definition miscounted_session : dict :=
  [("session_id", JStr "s"); ("session_name", JNull); ("random_seed", JNum 42);
   ("source_data_file", JStr "data.json");
   ("validations", JList [judgment_of "g1_1"]);
   ("completed_transitions", JNum 7)].

Definition resumable : @state example_runtime :=
  State blank
    (example_world [("data.json", FJson (JObj two_predictions));
                    ("s.json", FJson (JObj miscounted_session))] []).

(** A run: a new session with seed 42 on a dataset of two good
    predictions, a judgment of each, then a resume from the session file by
    a new process. *)
Definition two_good : dict :=
  [("comparisons", JList [
     JObj [("transition_id", JStr "g1");
           ("action", JObj []);
           ("input_materials", JList []);
           ("input_observations", JList []);
           ("predictions", JList [JObj [("prediction", JObj [])];
                                   JObj [("prediction", JObj [])]])]])].

Definition run_start : @state example_runtime :=
  State blank (example_world [("data.json", FJson (JObj two_good))] []).

Definition run_started : @state example_runtime :=
  (__init__ "data.json" "out" JNull (JNum 42) run_start).1.

Definition run_judged_one : @state example_runtime := (judge "g1_0" run_started).1.

Definition run_judged_two : @state example_runtime := (judge "g1_1" run_judged_one).1.

Definition run_resumed : @state example_runtime :=
  (resume_from_session "out/validation_session_0.json" None
     (State blank (env run_judged_two))).1.

(** The same run with the first task skipped instead of judged. *)
Definition run_skipped_one : @state example_runtime :=
  (skip (JObj [("transition_id", JStr "g1_0")]) run_started).1.

Definition run_skip_judged : @state example_runtime :=
  (judge "g1_1" run_skipped_one).1.

Definition run_skip_resumed : @state example_runtime :=
  (resume_from_session "out/validation_session_0.json" None
     (State blank (env run_skip_judged))).1.

(** ** The request handlers and [main] *)

(** The result of [parser.parse_args()]. *)
Module args.
Record namespace : Type := Namespace {
  data_file : string;
  results_dir : string;
  port : Z;
  host : string;
  session_name : option string;
  resume_session : option string;
  random_seed : Z;
}.
End args.

(** An optional string argument as a value: [None] when it was not given. *)
Definition opt_str (o : option string) : json := from_option JStr JNull o.

(** What [index] hands to [render_template]: the template and its
    variables. *)
Inductive page : Type :=
| validation_completed_html (progress : progress)
| validate_html (transition error_categories : json) (progress : progress).

Section handlers.
Context `{RT : Runtime}.

Definition index (m : ValidationManager) : result page :=
  transition <~ get_next_transition m;;
  if negb (py_truthy (from_option id JNull transition)) then
    p <~ get_progress m;;
    inr (validation_completed_html p)
  else
    p <~ get_progress m;;
    inr (validate_html (from_option id JNull transition) (error_categories m) p).

(** The [/validate] handler on the request body [data]. *)
Definition validate (data : json) : M unit :=
  transition_id <- lift (py_getitem data "transition_id");;
  is_plausible <- lift (py_getitem data "is_plausible");;
  error_categories <- lift (py_get data "error_categories" (JList []));;
  custom_error <- lift (py_get data "custom_error" (JStr ""));;
  comments <- lift (py_get data "comments" (JStr ""));;
  confidence <- lift (py_get data "confidence" JNull);;
  transition_data <- lift (py_get data "transition_data" JNull);;
  save_validation transition_id is_plausible error_categories custom_error
    comments confidence transition_data.

(** [manager = ctor]: the global names the new instance once [ctor] has
    returned; when it raises, the global is what it was. *)
Definition assign_manager (ctor : M unit) : M unit :=
  λ st, match ctor st with
        | (st', inr tt) => (st', inr tt)
        | (st', inl e) => (State (self st) (env st'), inl e)
        end.

(** [main] on the parsed command line, up to the start of the server: the
    registration of the template filter and [app.run] are left out. *)
Definition main (a : args.namespace) : M unit :=
  found <- path_exists (args.data_file a);;
  if negb found then
    print ("Error: Data file " +:+ args.data_file a +:+ " not found");;
    print "Please prepare transition data first"
  else
    (if py_truthy (opt_str (args.resume_session a)) then
       assign_manager
         (resume_from_session (default "" (args.resume_session a))
            (Some (args.data_file a)))
     else
       assign_manager
         (__init__ (args.data_file a) (args.results_dir a)
            (opt_str (args.session_name a)) (JNum (args.random_seed a))));;
    print ("Starting validation interface on http://" +:+ args.host a +:+ ":"
           +:+ pretty (args.port a));;
    print "Press Ctrl+C to stop".

End handlers.

(** A task of the order whose id is in [completed_transitions]. *)
Definition is_completed (m : ValidationManager) (x : json) : Prop :=
  ∃ k, task_key x = Some k ∧ k ∈ completed_transitions m.

(** The id a request names. *)
Definition request_id (rq : request) : result json :=
  match rq with
  | Judge tid _ _ _ _ _ _ => inr tid
  | Skip data => py_getitem data "transition_id"
  end.

(** A session on the tasks a, b and c in which a is completed. *)
Definition serving_abc : ValidationManager :=
  with_session_file "s.json"
    (with_session_validations (JList [])
       (with_completed_transitions {[KStr "a"]}
          (with_current_transitions (JList three_tasks) blank))).

Definition serving_abc_state : @state example_runtime :=
  State serving_abc
    (example_world [("s.json", FJson (JObj [("validations", JList [])]))] []).

(** The same session with every task completed. *)
Definition all_done_abc : ValidationManager :=
  with_completed_transitions {[KStr "a"; KStr "b"; KStr "c"]} serving_abc.

(** ** The template filter [truncate_at_secret]

    A [str] is the list of its code points. *)

(** [str.isspace] on one code point. *)
Definition str_isspace (c : Z) : bool :=
  bool_decide (c ∈ [9; 10; 11; 12; 13; 28; 29; 30; 31; 32; 133; 160; 5760;
                    8192; 8193; 8194; 8195; 8196; 8197; 8198; 8199; 8200; 8201;
                    8202; 8232; 8233; 8239; 8287; 12288]).

Fixpoint drop_while (p : Z → bool) (s : list Z) : list Z :=
  match s with
  | c :: s' => if p c then drop_while p s' else s
  | [] => []
  end.

(** [s.strip()]. *)
Definition str_strip (s : list Z) : list Z :=
  reverse (drop_while str_isspace (reverse (drop_while str_isspace s))).

Fixpoint str_find_from (sub s : list Z) (i : Z) : Z :=
  if bool_decide (sub `prefix_of` s) then i
  else match s with
       | [] => -1
       | _ :: s' => str_find_from sub s' (i + 1)
       end.

(** [s.find(sub)]: the lowest index at which [sub] occurs in [s], or -1. *)
Definition str_find (s sub : list Z) : Z := str_find_from sub s 0.

(** [s[:stop]]. *)
Definition str_slice_to (s : list Z) (stop : Z) : list Z :=
  take (Z.to_nat (if decide (stop < 0) then stop + Z.of_nat (length s) else stop)) s.

(** The code points of ["secret_marker:"]. *)
Definition secret_marker : list Z := [83; 69; 67; 82; 69; 84; 58].

Definition truncate_at_secret (text : list Z) : list Z :=
  match text with
  | [] => text
  | _ =>
      let secret_pos := str_find text secret_marker in
      if decide (secret_pos ≠ -1) then str_strip (str_slice_to text secret_pos)
      else text
  end.

(** [sub] occurs in [s] at index [i]. *)
Definition occurs_at (sub s : list Z) (i : nat) : Prop := sub `prefix_of` drop i s.

(** [" ok  SECRET: 42"] and [" hi "]. *)
Definition reasoning_with_secret : list Z :=
  ([32; 111; 107; 32; 32] ++ secret_marker ++ [32; 52; 50])%list.
Definition padded_text : list Z := [32; 104; 105; 32].

(** ** What a judgment writes *)

Section recording_notions.
Context `{RT : Runtime}.

(** The value [_update_session_file] stores as [progress_percentage]. *)
Definition percentage_written (m : ValidationManager) (pct : json) : Prop :=
  (py_truthy (current_transitions m) = false ∧ pct = JNum 0) ∨
  (py_truthy (current_transitions m) = true ∧
   ∃ n, py_len (current_transitions m) = inr n ∧
        pct = JFloat (percentage (size (completed_transitions m)) n)).

(** The dict literal [validation_result] of [save_validation]. *)
Definition validation_result (transition_id : json) (t : Z)
    (is_plausible error_categories custom_error comments confidence
       transition_data prediction_config : json) : json :=
  JObj [
    ("transition_id", transition_id);
    ("timestamp", JStr (isoformat t));
    ("is_plausible", is_plausible);
    ("error_categories", error_categories);
    ("custom_error", custom_error);
    ("comments", comments);
    ("confidence", confidence);
    ("transition_data", transition_data);
    ("prediction_config", prediction_config)].

(** [transition_data.get('prediction', {}).get('config', {})], or [{}] for a
    falsy [transition_data]. *)
Definition config_of (transition_data prediction_config : json) : Prop :=
  if py_truthy transition_data then
    ∃ p, py_get transition_data "prediction" (JObj []) = inr p ∧
         py_get p "config" (JObj []) = inr prediction_config
  else prediction_config = JObj [].

(** The line [save_validation] prints. *)
Definition saved_line (tid ip ec : json) (line : string) : Prop :=
  if py_truthy ip then
    line = "Saved validation for " +:+ py_str tid +:+ ": plausible"
  else
    ∃ n, py_len ec = inr n ∧
         line = "Saved validation for " +:+ py_str tid +:+ ": implausible ("
                +:+ pretty n +:+ " errors)".

End recording_notions.

(** ** Resuming and starting *)

Section resume_notions.
Context `{RT : Runtime}.

(** Where a successful resume takes the dataset path from. *)
Definition dataset_path (df : option string) (sd : json) (w : world)
    (dfile : string) : Prop :=
  match df with
  | Some d => dfile = d
  | None => py_get sd "source_data_file" JNull = inr (JStr dfile) ∧
            is_Some (fs w !! dfile)
  end.

End resume_notions.

(** A request that is a skip. *)
Definition is_skip (rq : request) : bool :=
  match rq with Skip _ => true | Judge _ _ _ _ _ _ _ => false end.

(** The two lines [main] prints before it starts the server. *)
Definition start_lines (a : args.namespace) : list string :=
  ["Starting validation interface on http://" +:+ args.host a +:+ ":"
     +:+ pretty (args.port a);
   "Press Ctrl+C to stop"].

(** Two command lines: a new session on [data.json], and a resume from
    [s.json]. *)
Definition cli_new : args.namespace :=
  args.Namespace "data.json" "out" 5001 "127.0.0.1" None None 42.
Definition cli_resume : args.namespace :=
  args.Namespace "data.json" "out" 5001 "127.0.0.1" None (Some "s.json") 42.

(** ** The name table *)

(** A material with a barcode, which stands for the key [k], and a name. *)
Definition named_material (material : json) (k : pykey) (name : json) : Prop :=
  py_getitem material "name" = inr name ∧
  ∃ barcode, py_getitem material "barcode" = inr barcode ∧ py_key barcode = inr k.

(** The materials [_build_material_lookup] visits in a task: those of a
    truthy [input_materials] and those of
    [prediction.prediction.new_materials]. *)
Definition material_of (t material : json) : Prop :=
  (∃ ims l, py_get t "input_materials" JNull = inr ims ∧ py_truthy ims = true ∧
            py_iter ims = inr l ∧ material ∈ l) ∨
  (∃ p1 p2 nm l, py_get t "prediction" (JObj []) = inr p1 ∧
                 py_get p1 "prediction" (JObj []) = inr p2 ∧
                 py_get p2 "new_materials" (JList []) = inr nm ∧
                 py_iter nm = inr l ∧ material ∈ l).

(** Two tasks with materials: the barcode BC1 is named twice. *)
Definition material_tasks : list json :=
  [JObj [("transition_id", JStr "t1");
         ("input_materials",
          JList [JObj [("barcode", JStr "BC1"); ("name", JStr "Plate A")];
                 JObj [("barcode", JStr "BC2")]])];
   JObj [("transition_id", JStr "t2");
         ("prediction",
          JObj [("prediction",
                 JObj [("new_materials",
                        JList [JObj [("barcode", JStr "BC1");
                                     ("name", JStr "Plate B")]])])])]].

Definition material_state : @state example_runtime :=
  State (with_material_lookup {[KStr "old" := JStr "Old"]}
           (with_transitions (JList material_tasks) blank))
    (example_world [] []).

(** ** A new session *)

Section init_notions.
Context `{RT : Runtime}.

(** The name of a session made at the time [t]: its id, and the stem of
    its file after [validation_session_]. *)
Definition session_stem (session_name : json) (t : Z) : string :=
  if py_truthy session_name then py_str session_name +:+ "_" +:+ strftime t
  else strftime t.

End init_notions.

(** A dataset in the direct format, one of its tasks carrying an error
    marker, and a dataset whose top-level value is an array. *)
Definition direct_format : dict :=
  [("transitions",
    JList [JObj [("transition_id", JStr "a")];
           JObj [("prediction", JObj [("error", JStr "timeout")])]])].

Definition array_dataset : @state example_runtime :=
  State (with_data_file "data.json" blank)
    (example_world [("data.json", FJson (JList [JStr "comparisons"]))] []).

(** An instance without a seed on the tasks a, b and c. *)
Definition unseeded : @state example_runtime :=
  State (with_transitions (JList three_tasks) blank) (example_world [] []).

(** A session on the task a, completed, a task without an id, and the task
    c. *)
Definition blocked_session : ValidationManager :=
  with_completed_transitions {[KStr "a"]}
    (with_current_transitions
       (JList [JObj [("transition_id", JStr "a")];
               JObj [("action", JStr "mix")];
               JObj [("transition_id", JStr "c")]]) blank).

(** ** Objects with identity

    In the model above a list or a dict is a value, and a copy of it is the
    value itself.  Whether [_enhance_transition_with_names] changes the task
    it is given depends on which objects share which: here lists and dicts
    are objects in a store, a value refers to them by their place, and
    [copy] makes a new object with the same items. *)
Module store.

Inductive value : Type :=
| VNone
| VBool (b : bool)
| VNum (z : Z)
| VFloat (f : float)
| VStr (s : string)
| VRef (l : nat).

Inductive object : Type :=
| OList (items : list value)
| ODict (items : list (string * value)).

(** The store: an object's place is its index, a new object goes last. *)
Abbreviation heap := (list object).

(** A statement runs on the store and completes or raises. *)
Definition H (A : Type) : Type := heap → heap * result A.

#[global] Instance heap_ret : MRet H := λ A a h, (h, inr a).
#[global] Instance heap_bind : MBind H := λ A B k m h,
  match m h with
  | (h', inr a) => k a h'
  | (h', inl e) => (h', inl e)
  end.
Definition raise {A} (e : exn) : H A := λ h, (h, inl e).

Definition alloc (o : object) : H value :=
  λ h, ((h ++ [o])%list, inr (VRef (length h))).
(** A place without an object does not arise from [alloc]. *)
Definition deref (l : nat) : H object := λ h,
  match h !! l with
  | Some o => (h, inr o)
  | None => (h, inl ModelLimit)
  end.
Definition assign (l : nat) (o : object) : H unit := λ h, (<[l := o]> h, inr tt).

Fixpoint lookup_key (k : string) (d : list (string * value)) : option value :=
  match d with
  | [] => None
  | (k', v) :: d' => if decide (k = k') then Some v else lookup_key k d'
  end.

(** [d[k] = v]: an existing key keeps its position, a new key goes last. *)
Fixpoint set_key (k : string) (v : value) (d : list (string * value))
    : list (string * value) :=
  match d with
  | [] => [(k, v)]
  | (k', v') :: d' =>
      if decide (k = k') then (k, v) :: d' else (k', v') :: set_key k v d'
  end.

Definition is_str (k : string) (v : value) : bool :=
  match v with VStr s => String.eqb k s | _ => false end.

(** [v.copy()]: a new object with the items of the old one. *)
Definition py_copy (v : value) : H value :=
  match v with
  | VRef l => o ← deref l; alloc o
  | _ => raise AttributeError
  end.

(** [k in v] for a string [k]. *)
Definition py_in (k : string) (v : value) : H bool :=
  match v with
  | VRef l =>
      o ← deref l;
      match o with
      | ODict d => mret (bool_decide (is_Some (lookup_key k d)))
      | OList items => mret (existsb (is_str k) items)
      end
  | VStr s => mret (is_substring k s)
  | _ => raise TypeError
  end.

(** [v[k]] for a string [k]. *)
Definition py_getitem (v : value) (k : string) : H value :=
  match v with
  | VRef l =>
      o ← deref l;
      match o with
      | ODict d =>
          match lookup_key k d with Some x => mret x | None => raise KeyError end
      | OList _ => raise TypeError
      end
  | _ => raise TypeError
  end.

(** [v.items()]. *)
Definition py_items (v : value) : H (list (string * value)) :=
  match v with
  | VRef l =>
      o ← deref l;
      match o with
      | ODict d => mret d
      | OList _ => raise AttributeError
      end
  | _ => raise AttributeError
  end.

(** [v[k] = x] for a string [k]: the object [v] refers to is changed. *)
Definition py_setitem (v : value) (k : string) (x : value) : H unit :=
  match v with
  | VRef l =>
      o ← deref l;
      match o with
      | ODict d => assign l (ODict (set_key k x d))
      | OList _ => raise TypeError
      end
  | _ => raise TypeError
  end.

Fixpoint for_each {A} (l : list A) (body : A → H unit) : H unit :=
  match l with
  | [] => mret tt
  | x :: l' => _ ← body x; for_each l' body
  end.

(** [self._resolve_barcode_to_name(value)], with the name table [names].
    The recursion follows the references of the store: [fuel] bounds its
    depth, and running out of it raises. *)
Fixpoint _resolve_barcode_to_name (fuel : nat) (names : gmap pykey value)
    (v : value) : H value :=
  match fuel with
  | O => raise ModelLimit
  | S fuel =>
      match v with
      | VStr s => mret (default v (names !! KStr s))
      | VRef l =>
          o ← deref l;
          match o with
          | OList items =>
              items' ← mapM (_resolve_barcode_to_name fuel names) items;
              alloc (OList items')
          | ODict d =>
              d' ← mapM (λ kv, x ← _resolve_barcode_to_name fuel names kv.2;
                               mret (kv.1, x)) d;
              alloc (ODict d')
          end
      | _ => mret v
      end
  end.

Definition _enhance_transition_with_names (fuel : nat) (names : gmap pykey value)
    (transition : value) : H value :=
  enhanced ← py_copy transition;
  has_action ← py_in "action" enhanced;
  has_parameters ←
    (if has_action : bool then
       action ← py_getitem enhanced "action"; py_in "parameters" action
     else mret false);
  if has_parameters : bool then
    enhanced_params ← alloc (ODict []);
    action ← py_getitem enhanced "action";
    parameters ← py_getitem action "parameters";
    items ← py_items parameters;
    _ ← for_each items (λ kv,
          x ← _resolve_barcode_to_name fuel names kv.2;
          py_setitem enhanced_params kv.1 x);
    action ← py_getitem enhanced "action";
    action ← py_copy action;
    _ ← py_setitem enhanced "action" action;
    action ← py_getitem enhanced "action";
    _ ← py_setitem action "parameters" enhanced_params;
    action ← py_getitem enhanced "action";
    _ ← py_setitem action "parameters_display" enhanced_params;
    mret enhanced
  else mret enhanced.

(** What the object [o'] that is returned has of the object [o] that was
    given, in a store that had [n] objects: the items of a list, and the
    entries of a dict, where the entry [action] is the one given or a new
    object. *)
Definition enhanced_from (n : nat) (o o' : object) : Prop :=
  match o, o' with
  | ODict d, ODict d' =>
      (∀ k, k ≠ "action" → lookup_key k d' = lookup_key k d) ∧
      (lookup_key "action" d' = lookup_key "action" d ∨
       ∃ a, lookup_key "action" d' = Some (VRef a) ∧ (n < a)%nat)
  | OList items, OList items' => items' = items
  | _, _ => False
  end.

(** The value an object graph stands for, to the depth [fuel]. *)
Fixpoint reify (fuel : nat) (h : heap) (v : value) : option json :=
  match fuel with
  | O => None
  | S fuel =>
      match v with
      | VNone => Some JNull
      | VBool b => Some (JBool b)
      | VNum z => Some (JNum z)
      | VFloat f => Some (JFloat f)
      | VStr s => Some (JStr s)
      | VRef l =>
          match h !! l with
          | Some (OList items) => JList <$> mapM (reify fuel h) items
          | Some (ODict d) =>
              JObj <$> mapM (λ kv, x ← reify fuel h kv.2; Some (kv.1, x)) d
          | None => None
          end
      end
  end.

(** The task g1_1 of [plate_task] in the store: the task at 3, its action
    at 1, the parameters of the action at 0. *)
Definition plate_store : heap :=
  [ODict [("plate", VStr "BC1")];
   ODict [("parameters", VRef 0)];
   ODict [("barcode", VStr "BC1"); ("name", VStr "Plate A")];
   ODict [("transition_id", VStr "g1_1"); ("action", VRef 1);
          ("input_materials", VRef 4)];
   OList [VRef 2]].

Definition plate_names : gmap pykey value := {[KStr "BC1" := VStr "Plate A"]}.

End store.

(** * Properties *)

(** ** Reasoning about statements *)

Section hoare.
Context `{RT : Runtime}.

(** [post m st Q]: running [m] from [st] ends in a state and result that
    satisfy [Q]. *)
Definition post {A} (m : M A) (st : state) (Q : state → result A → Prop) : Prop :=
  Q (m st).1 (m st).2.

Lemma post_elim {A} (m : M A) st Q st' r :
  post m st Q → m st = (st', r) → Q st' r.
Proof. unfold post. intros HQ Heq. by rewrite Heq in HQ. Qed.

Lemma post_mono {A} (m : M A) st (Q Q' : state → result A → Prop) :
  post m st Q → (∀ st' r, Q st' r → Q' st' r) → post m st Q'.
Proof. unfold post. auto. Qed.

Lemma post_ret {A} (a : A) st (Q : state → result A → Prop) :
  Q st (inr a) → post (ret a) st Q.
Proof. done. Qed.

Lemma post_raise {A} e st (Q : state → result A → Prop) :
  Q st (inl e) → post (raise e) st Q.
Proof. done. Qed.

Lemma post_lift {A} (r : result A) st (Q : state → result A → Prop) :
  Q st r → post (lift r) st Q.
Proof. by destruct r. Qed.

Lemma post_bind {A B} (m : M A) (k : A → M B) st (Q : state → result B → Prop) :
  post m st (λ st1 r, match r with
                      | inr a => post (k a) st1 Q
                      | inl e => Q st1 (inl e)
                      end) →
  post (bind m k) st Q.
Proof. unfold post, bind. by destruct (m st) as [st1 [e|a]]. Qed.

Lemma post_get_self st (Q : state → result ValidationManager → Prop) :
  Q st (inr (self st)) → post get_self st Q.
Proof. done. Qed.

Lemma post_get_env st (Q : state → result world → Prop) :
  Q st (inr (env st)) → post get_env st Q.
Proof. done. Qed.

Lemma post_set_self f st (Q : state → result unit → Prop) :
  Q (State (f (self st)) (env st)) (inr tt) → post (set_self f) st Q.
Proof. done. Qed.

Lemma post_set_env f st (Q : state → result unit → Prop) :
  Q (State (self st) (f (env st))) (inr tt) → post (set_env f) st Q.
Proof. done. Qed.

(** A loop keeps what each round keeps. *)
Lemma post_for_each {A} (l : list A) (body : A → M unit) (I : state → Prop) st :
  I st →
  (∀ x st1, x ∈ l → I st1 → post (body x) st1 (λ st2 _, I st2)) →
  post (for_each l body) st (λ st' _, I st').
Proof.
  revert st. induction l as [|x l IH]; intros st HI Hbody; [done|].
  simpl. apply post_bind.
  eapply post_mono; [apply Hbody; [left | done]|].
  intros st1 [e|[]] HI1; [done|].
  apply IH; [done|]. intros y st2 Hy. apply Hbody. by right.
Qed.

(** An outcome in terms of the equations of the parts. *)
Lemma bind_inr {A B} (m : M A) (k : A → M B) st st1 a :
  m st = (st1, inr a) → bind m k st = k a st1.
Proof. unfold bind. by intros ->. Qed.

Lemma bind_inl {A B} (m : M A) (k : A → M B) st st1 e :
  m st = (st1, inl e) → bind m k st = (st1, inl e).
Proof. unfold bind. by intros ->. Qed.

End hoare.

(** ** Skipping and progress *)

Section skipping.
Context `{RT : Runtime}.

Lemma add_completed_ok v k st :
  py_key v = inr k →
  add_completed v st =
    (State (with_completed_transitions ({[k]} ∪ completed_transitions (self st)) (self st))
       (env st), inr tt).
Proof. intros Hk. unfold add_completed. by rewrite Hk. Qed.

Lemma skip_ok data tid k st :
  py_getitem data "transition_id" = inr tid →
  py_key tid = inr k →
  skip data st =
    (State (with_completed_transitions ({[k]} ∪ completed_transitions (self st)) (self st))
       (env st), inr tt).
Proof.
  intros Hd Hk. unfold skip. rewrite Hd. simpl.
  erewrite bind_inr; [|reflexivity]. by apply add_completed_ok.
Qed.

(** C9: skipping is idempotent on progress: for a task id that is already
    in [completed_transitions], the [/skip] handler succeeds and
    [get_progress] (completed, total and remaining) is what it was. *)
Theorem skip_completed_keeps_progress (st : state) (data tid : json) (k : pykey) :
  py_getitem data "transition_id" = inr tid →
  py_key tid = inr k →
  k ∈ completed_transitions (self st) →
  ∃ st', skip data st = (st', inr tt) ∧
         completed_transitions (self st') = completed_transitions (self st) ∧
         get_progress (self st') = get_progress (self st).
Proof.
  intros Hd Hk Hin. eexists. split; [by eapply skip_ok|].
  assert ({[k]} ∪ completed_transitions (self st) = completed_transitions (self st))
    as Heq by set_solver.
  cbn [self completed_transitions with_completed_transitions].
  rewrite Heq. split; [done|].
  unfold get_progress.
  by cbn [self completed_transitions current_transitions with_completed_transitions].
Qed.

(** C10: the [/skip] handler does not check that the id is the id of a
    task: for a string that is the id of no task in the presentation order
    it succeeds and adds the string to [completed_transitions], which then
    has more elements than there are completed task ids; a string that was
    not in the set makes [completed] one more and [remaining] one less, and
    once every task is completed [remaining] is negative. *)
Theorem skip_unknown_id_counts (st : state) (data : json) (s : string) :
  py_getitem data "transition_id" = inr (JStr s) →
  KStr s ∉ task_keys (self st) →
  ∃ st', skip data st = (st', inr tt) ∧
    KStr s ∈ completed_transitions (self st') ∧
    (size (completed_transitions (self st') ∩ task_keys (self st'))
       < size (completed_transitions (self st')))%nat ∧
    (∀ p, get_progress (self st) = inr p →
          KStr s ∉ completed_transitions (self st) →
          get_progress (self st') =
            inr (Progress (completed p + 1) (total p) (remaining p - 1))) ∧
    (∀ p', get_progress (self st') = inr p' →
           total p' ≤ Z.of_nat (size (completed_transitions (self st')
                                        ∩ task_keys (self st'))) →
           remaining p' < 0).
Proof.
  intros Hd Hfresh. eexists. split; [by eapply skip_ok|].
  cbn [self completed_transitions with_completed_transitions].
  set (c := completed_transitions (self st)).
  assert (task_keys (with_completed_transitions ({[KStr s]} ∪ c) (self st))
          = task_keys (self st)) as Hkeys by done.
  rewrite Hkeys.
  assert (size (({[KStr s]} ∪ c) ∩ task_keys (self st)) < size ({[KStr s]} ∪ c))%nat
    as Hlt.
  { apply subset_size. split; [set_solver|].
    intros Hsub. apply Hfresh.
    assert (KStr s ∈ ({[KStr s]} ∪ c) ∩ task_keys (self st)) by set_solver.
    set_solver. }
  split; [set_solver|]. split; [done|]. split.
  - intros p Hp Hnew. unfold get_progress in *.
    cbn [self completed_transitions current_transitions with_completed_transitions] in *.
    destruct (py_len (current_transitions (self st))) as [e|n]; [done|].
    cbn [rbind] in *. injection Hp as <-. cbn [completed total remaining].
    fold c. rewrite size_union by set_solver. rewrite size_singleton.
    do 2 f_equal; lia.
  - intros p' Hp' Htot. unfold get_progress in Hp'.
    cbn [self completed_transitions current_transitions with_completed_transitions] in Hp'.
    destruct (py_len (current_transitions (self st))) as [e|n]; [done|].
    cbn [rbind] in Hp'. injection Hp' as <-. cbn [completed total remaining] in *.
    lia.
Qed.

End skipping.

Lemma skip_completed_keeps_progress_witness :
  ∃ st', skip (JObj [("transition_id", JStr "a")])
           (State done_a (example_world [] [])) = (st', inr tt) ∧
         completed_transitions (self st') = completed_transitions done_a ∧
         get_progress (self st') = get_progress done_a.
Proof.
  apply (skip_completed_keeps_progress (RT:=example_runtime)
           (State done_a (example_world [] []))
           (JObj [("transition_id", JStr "a")]) (JStr "a") (KStr "a")).
  - reflexivity.
  - reflexivity.
  - vm_compute. reflexivity.
Defined.

Lemma skip_unknown_id_counts_witness :
  ∃ st', skip (JObj [("transition_id", JStr "zz")])
           (State done_a (example_world [] [])) = (st', inr tt) ∧
    KStr "zz" ∈ completed_transitions (self st') ∧
    (size (completed_transitions (self st') ∩ task_keys (self st'))
       < size (completed_transitions (self st')))%nat ∧
    (∀ p, get_progress done_a = inr p →
          KStr "zz" ∉ completed_transitions done_a →
          get_progress (self st') =
            inr (Progress (completed p + 1) (total p) (remaining p - 1))) ∧
    (∀ p', get_progress (self st') = inr p' →
           total p' ≤ Z.of_nat (size (completed_transitions (self st')
                                        ∩ task_keys (self st'))) →
           remaining p' < 0).
Proof.
  apply (skip_unknown_id_counts (RT:=example_runtime)
           (State done_a (example_world [] []))
           (JObj [("transition_id", JStr "zz")]) "zz").
  - reflexivity.
  - vm_compute. discriminate.
Defined.

(** With one task, completed, a stray skip leaves [remaining] at -1. *)
Example skip_unknown_id_negative :
  get_progress
    (self (skip (JObj [("transition_id", JStr "zz")])
             (State done_a (example_world [] []))).1)
  = inr (Progress 2 1 (-1)).
Proof. vm_compute. reflexivity. Qed.


(** ** Name resolution *)

Section resolving.

Lemma dict_lookup_elem k (d : dict) v :
  dict_lookup k d = Some v → (k, v) ∈ d.
Proof.
  induction d as [|[k' v'] d IH]; simpl; [done|].
  case_decide as Hk.
  - intros [= ->]. subst. left.
  - intros Hd. right. auto.
Qed.

Lemma dict_lookup_map (f : json → json) k (d : dict) :
  dict_lookup k (map (λ kv, (kv.1, f kv.2)) d) = f <$> dict_lookup k d.
Proof.
  induction d as [|[k' v'] d IH]; simpl; [done|].
  by case_decide.
Qed.

Lemma dict_keys_map (f : json → json) (d : dict) :
  (map (λ kv, (kv.1, f kv.2)) d).*1 = d.*1.
Proof. induction d as [|[k' v'] d IH]; simpl; [done|]. by f_equal. Qed.

Lemma resolve_unknown m v :
  Forall (λ s, material_lookup m !! KStr s = None) (json_strings v) →
  _resolve_barcode_to_name m v = v.
Proof.
  induction v as [| | | |s|l IH|d IH] using json_ind; intros Hs; simpl in *; try done.
  - apply Forall_inv in Hs. by rewrite Hs.
  - f_equal. induction IH as [|x l Hx _ IHl]; simpl in *; [done|].
    apply Forall_app in Hs as [Hs1 Hs2]. f_equal; auto.
  - f_equal. induction IH as [|[k x] d Hx _ IHd]; simpl in *; [done|].
    apply Forall_app in Hs as [Hs1 Hs2]. f_equal; [f_equal|]; auto.
Qed.

Lemma resolve_at m v p x :
  json_at p v = Some x →
  json_at p (_resolve_barcode_to_name m v) = Some (_resolve_barcode_to_name m x).
Proof.
  revert p. induction v as [| | | |s|l IH|d IH] using json_ind; intros [|[i|k] p] Hp;
    try (injection Hp as <-; reflexivity); try discriminate Hp; simpl in *.
  - destruct (l !! i) as [y|] eqn:Hi; [|done]. simpl in Hp.
    change (map (_resolve_barcode_to_name m) l)
      with (_resolve_barcode_to_name m <$> l).
    rewrite list_lookup_fmap, Hi. simpl.
    eapply Forall_lookup_1 in IH; [|done]. auto.
  - destruct (dict_lookup k d) as [y|] eqn:Hk; [|done]. simpl in Hp.
    rewrite dict_lookup_map, Hk. simpl.
    apply dict_lookup_elem in Hk.
    eapply Forall_forall in IH; [|done]. simpl in IH. auto.
Qed.

(** C8: resolving a value in which no string is a key of the name table
    gives the value back; wherever the value holds something, the resolved
    value holds its resolution at the same position: the display name in
    place of a known string, a list of the same length in place of a list,
    a dict with the same keys in the same order in place of a dict, and
    every other scalar itself. *)
Theorem resolve_preserves_structure (m : ValidationManager) (v : json) :
  (Forall (λ s, material_lookup m !! KStr s = None) (json_strings v) →
   _resolve_barcode_to_name m v = v) ∧
  (∀ p s name,
     json_at p v = Some (JStr s) →
     material_lookup m !! KStr s = Some name →
     json_at p (_resolve_barcode_to_name m v) = Some name) ∧
  (∀ p s,
     json_at p v = Some (JStr s) →
     material_lookup m !! KStr s = None →
     json_at p (_resolve_barcode_to_name m v) = Some (JStr s)) ∧
  (∀ p l,
     json_at p v = Some (JList l) →
     ∃ l', json_at p (_resolve_barcode_to_name m v) = Some (JList l') ∧
           length l' = length l ∧
           ∀ i x, l !! i = Some x → l' !! i = Some (_resolve_barcode_to_name m x)) ∧
  (∀ p d,
     json_at p v = Some (JObj d) →
     ∃ d', json_at p (_resolve_barcode_to_name m v) = Some (JObj d') ∧
           dict_keys d' = dict_keys d ∧
           ∀ k x, dict_lookup k d = Some x →
                  dict_lookup k d' = Some (_resolve_barcode_to_name m x)) ∧
  (∀ p x,
     json_at p v = Some x → is_scalar x = true → is_str_value x = false →
     json_at p (_resolve_barcode_to_name m v) = Some x).
Proof.
  split; [apply resolve_unknown|].
  repeat split.
  - intros p s name Hp Hname. rewrite (resolve_at _ _ _ _ Hp). simpl.
    by rewrite Hname.
  - intros p s Hp Hname. rewrite (resolve_at _ _ _ _ Hp). simpl.
    by rewrite Hname.
  - intros p l Hp. eexists. split; [by rewrite (resolve_at _ _ _ _ Hp)|].
    split; [by rewrite length_map|].
    intros i x Hi.
    change (map (_resolve_barcode_to_name m) l)
      with (_resolve_barcode_to_name m <$> l).
    by rewrite list_lookup_fmap, Hi.
  - intros p d Hp. eexists. split; [by rewrite (resolve_at _ _ _ _ Hp)|].
    split; [apply dict_keys_map|].
    intros k x Hk. by rewrite dict_lookup_map, Hk.
  - intros p x Hp Hsc Hns. rewrite (resolve_at _ _ _ _ Hp).
    by destruct x.
Qed.

End resolving.

Lemma resolve_preserves_structure_witness :
  _resolve_barcode_to_name names_bc1 (JObj [("well", JList [JStr "A1"; JNum 3])])
    = JObj [("well", JList [JStr "A1"; JNum 3])] ∧
  json_at [Key "plates"; Idx 1]
    (_resolve_barcode_to_name names_bc1
       (JObj [("plates", JList [JStr "BC9"; JStr "BC1"])]))
    = Some (JStr "Plate A").
Proof.
  split.
  - apply (proj1 (resolve_preserves_structure names_bc1
                    (JObj [("well", JList [JStr "A1"; JNum 3])]))).
    repeat constructor.
  - apply (proj1 (proj2 (resolve_preserves_structure names_bc1
                           (JObj [("plates", JList [JStr "BC9"; JStr "BC1"])])))
             [Key "plates"; Idx 1] "BC1" (JStr "Plate A")).
    + reflexivity.
    + reflexivity.
Defined.

(** ** The order generator *)

Section ordering.
Context `{RT : Runtime}.

Lemma random_below_run n st :
  random_below n st =
    (State (self st) (with_rng (randbelow n (rng (env st))).2 (env st)),
     inr (randbelow n (rng (env st))).1).
Proof.
  unfold random_below, bind, get_env, set_env, ret. simpl.
  by destruct (randbelow n (rng (env st))).
Qed.

Lemma swap_length x i j x' : swap x i j = inr x' → length x' = length x.
Proof.
  unfold swap. destruct (x !! j), (x !! i); intros [= <-].
  by rewrite !length_insert.
Qed.

Lemma swap_Permutation x i j x' : swap x i j = inr x' → x' ≡ₚ x.
Proof.
  unfold swap.
  destruct (x !! j) as [xj|] eqn:Hj; [|done].
  destruct (x !! i) as [xi|] eqn:Hi; [|done].
  intros [= <-]. apply Permutation_inj. split; [by rewrite !length_insert|].
  pose proof (lookup_lt_Some _ _ _ Hi) as Hli.
  pose proof (lookup_lt_Some _ _ _ Hj) as Hlj.
  exists (λ k, if decide (k = i) then j else if decide (k = j) then i else k).
  split.
  - intros a b. repeat case_decide; intros; subst; congruence.
  - intros k. destruct (decide (k = j)) as [->|Hkj].
    + rewrite list_lookup_insert_eq by (by rewrite length_insert).
      repeat case_decide; subst; congruence.
    + rewrite list_lookup_insert_ne by done.
      destruct (decide (k = i)) as [->|Hki].
      * by rewrite list_lookup_insert_eq.
      * by rewrite list_lookup_insert_ne.
Qed.

Lemma swap_some x i j :
  (i < length x)%nat → (j < length x)%nat → ∃ x', swap x i j = inr x'.
Proof.
  intros Hi Hj. unfold swap.
  destruct (lookup_lt_is_Some_2 x j Hj) as [xj ->].
  destruct (lookup_lt_is_Some_2 x i Hi) as [xi ->]. eauto.
Qed.

(** The loop only advances the generator, and what it returns depends on
    the generator alone. *)
Lemma shuffle_from_frame i x st :
  ∃ g', (shuffle_from i x st).1 = State (self st) (with_rng g' (env st)).
Proof.
  revert x st. induction i as [|i IH]; intros x st.
  - exists (rng (env st)). by destruct st as [m []].
  - unfold shuffle_from; fold shuffle_from.
    erewrite bind_inr; [|apply random_below_run].
    destruct (swap x (S i) _) as [e|x'] eqn:Hsw.
    + erewrite bind_inl; [|reflexivity]. eauto.
    + erewrite bind_inr; [|reflexivity].
      destruct (IH x' (State (self st)
        (with_rng (randbelow (S (S i)) (rng (env st))).2 (env st)))) as [g' Hg'].
      exists g'. by rewrite Hg'.
Qed.

Lemma shuffle_from_rng i x st1 st2 :
  rng (env st1) = rng (env st2) →
  (shuffle_from i x st1).2 = (shuffle_from i x st2).2.
Proof.
  revert x st1 st2. induction i as [|i IH]; intros x st1 st2 Hg; [done|].
  unfold shuffle_from; fold shuffle_from.
  rewrite (bind_inr _ _ _ _ _ (random_below_run _ st1)),
          (bind_inr _ _ _ _ _ (random_below_run _ st2)).
  rewrite Hg. destruct (swap x (S i) _) as [e|x'] eqn:Hsw.
  - done.
  - unfold bind, lift, ret. apply IH. done.
Qed.

Lemma shuffle_from_Permutation i x st :
  (i < length x ∨ i = 0)%nat →
  ∃ x', (shuffle_from i x st).2 = inr x' ∧ x' ≡ₚ x.
Proof.
  revert x st. induction i as [|i IH]; intros x st Hi; [by exists x|].
  destruct Hi as [Hi|]; [|done].
  unfold shuffle_from; fold shuffle_from.
  erewrite bind_inr; [|apply random_below_run].
  pose proof (randbelow_lt (S (S i)) (rng (env st))) as Hj.
  destruct (swap_some x (S i) (randbelow (S (S i)) (rng (env st))).1)
    as [x' Hsw]; [lia..|].
  rewrite Hsw. erewrite bind_inr; [|reflexivity].
  destruct (IH x' (State (self st)
    (with_rng (randbelow (S (S i)) (rng (env st))).2 (env st)))) as (x'' & Hx'' & Hp).
  { left. rewrite (swap_length _ _ _ _ Hsw). lia. }
  exists x''. split; [done|]. rewrite Hp. by eapply swap_Permutation.
Qed.

Lemma random_shuffle_frame x st :
  ∃ g', (random_shuffle x st).1 = State (self st) (with_rng g' (env st)).
Proof.
  assert (∃ g', st = State (self st) (with_rng g' (env st))) as Hid.
  { exists (rng (env st)). by destruct st as [m []]. }
  destruct x as [| | | |s|l|d]; simpl; try done.
  - case_decide; [done|]. erewrite bind_inr; [|apply random_below_run]. eauto.
  - unfold bind. destruct (shuffle_from (length l - 1) l st) as [st1 [e|l']] eqn:Hs;
      pose proof (shuffle_from_frame (length l - 1) l st) as [g' Hg'];
      rewrite Hs in Hg'; simpl in *; eauto.
  - case_decide; [done|]. erewrite bind_inr; [|apply random_below_run]. eauto.
Qed.

Lemma random_shuffle_rng x st1 st2 :
  rng (env st1) = rng (env st2) →
  (random_shuffle x st1).2 = (random_shuffle x st2).2.
Proof.
  intros Hg. destruct x as [| | | |s|l|d]; simpl; try done.
  - case_decide; [done|].
    rewrite (bind_inr _ _ _ _ _ (random_below_run _ st1)),
            (bind_inr _ _ _ _ _ (random_below_run _ st2)). done.
  - pose proof (shuffle_from_rng (length l - 1) l st1 st2 Hg) as Heq.
    unfold bind.
    destruct (shuffle_from (length l - 1) l st1) as [st1' [e1|l1]],
             (shuffle_from (length l - 1) l st2) as [st2' [e2|l2]];
      simpl in *; congruence.
  - case_decide; [done|].
    rewrite (bind_inr _ _ _ _ _ (random_below_run _ st1)),
            (bind_inr _ _ _ _ _ (random_below_run _ st2)). done.
Qed.

Lemma random_shuffle_list l st :
  ∃ l', (random_shuffle (JList l) st).2 = inr (JList l') ∧ l' ≡ₚ l.
Proof.
  destruct (shuffle_from_Permutation (length l - 1) l st) as (l' & Hl' & Hp).
  { destruct l; simpl; [by right|left; lia]. }
  exists l'. split; [|done]. simpl. unfold bind.
  destruct (shuffle_from (length l - 1) l st) as [st1 [e|l1]]; simpl in *;
    congruence.
Qed.

End ordering.

(** ** Running statements symbolically *)

Ltac post_step :=
  cbv beta match;
  lazymatch goal with
  | |- post (bind _ _) _ _ => apply post_bind
  | |- post (ret _) _ _ => apply post_ret
  | |- post (raise _) _ _ => apply post_raise
  | |- post (lift ?r) _ _ => apply post_lift; destruct r eqn:?
  | |- post get_self _ _ => apply post_get_self
  | |- post get_env _ _ => apply post_get_env
  | |- post (set_self _) _ _ => apply post_set_self
  | |- post (set_env _) _ _ => apply post_set_env
  | |- post (print _) _ _ => unfold print; apply post_set_env
  | |- post (if ?b then _ else _) _ _ => destruct b eqn:?
  | |- post (match ?x with _ => _ end) _ _ => destruct x eqn:?
  | |- match ?r with inl _ => _ | inr _ => _ end => destruct r
  end.

Ltac post_steps := repeat post_step.

Section primitives.
Context `{RT : Runtime}.

(** What the I/O primitives leave alone. *)
Definition io_only (st st' : state) : Prop :=
  self st' = self st ∧ fs (env st') = fs (env st) ∧ rng (env st') = rng (env st) ∧
  stdout (env st') = stdout (env st) ∧ timeline (env st') = timeline (env st).

Lemma next_io_post st :
  post next_io st (λ st' r,
    io_only st st' ∧ (∃ o, r = inr o) ∧
    (∀ o rest, io_plan (env st) = o :: rest →
               r = inr o ∧ io_plan (env st') = rest)).
Proof.
  unfold next_io. post_steps; unfold io_only; simpl; split_and!; eauto;
    intros o' rest' Hp; simplify_eq; done.
Qed.

Lemma read_json_post path st :
  post (read_json path) st (λ st' r,
    io_only st st' ∧
    (∀ j, r = inr j → fs (env st) !! path = Some (FJson j)) ∧
    (∀ o rest, io_plan (env st) = o :: rest →
               io_plan (env st') = rest ∧ (o ≠ IoOk → ∃ e, r = inl e))).
Proof.
  unfold read_json. apply post_bind.
  eapply post_mono; [apply next_io_post|].
  intros st1 r ((Hs & Hfs & Hr & Ho & Ht) & [o ->] & Hplan). unfold io_only.
  post_steps; simpl; rewrite ?Hs, ?Hfs, ?Hr, ?Ho, ?Ht; split_and!; try done;
    try (intros o' rest Hp; destruct (Hplan o' rest Hp) as [[= <-] ->];
         split; [done|]; by eauto).
  intros j' [= <-]. congruence.
Qed.

Lemma write_json_post path j st :
  post (write_json path j) st (λ st' r,
    self st' = self st ∧ rng (env st') = rng (env st) ∧
    stdout (env st') = stdout (env st) ∧
    (r = inr tt → fs (env st') = <[path := FJson j]> (fs (env st))) ∧
    (∀ o rest, io_plan (env st) = o :: rest → o ≠ IoOk → ∃ e, r = inl e)).
Proof.
  unfold write_json. apply post_bind.
  eapply post_mono; [apply next_io_post|].
  intros st1 r ((Hs & Hfs & Hr & Ho & Ht) & [o ->] & Hplan).
  post_steps; simpl; rewrite ?Hs, ?Hfs, ?Hr, ?Ho, ?Ht; split_and!; try done;
    intros o' rest Hp Hne; destruct (Hplan o' rest Hp) as [[= <-] _]; by eauto.
Qed.

Lemma now_post st :
  post now st (λ st' r,
    self st' = self st ∧ fs (env st') = fs (env st) ∧ rng (env st') = rng (env st) ∧
    stdout (env st') = stdout (env st) ∧ io_plan (env st') = io_plan (env st) ∧
    ∃ t, r = inr t).
Proof. unfold now. post_steps; simpl; eauto 10. Qed.

Lemma mkdir_post path st :
  post (mkdir path) st (λ st' r, io_only st st').
Proof.
  unfold mkdir. apply post_bind.
  eapply post_mono; [apply next_io_post|].
  intros st1 r (Hio & [o ->] & _). by post_steps.
Qed.

Lemma path_exists_post path st :
  post (path_exists path) st (λ st' r,
    st' = st ∧ r = inr (bool_decide (is_Some (fs (env st) !! path)))).
Proof. unfold path_exists. by post_steps. Qed.

End primitives.

Section randomizing.
Context `{RT : Runtime}.

Lemma random_shuffle_post x st :
  post (random_shuffle x) st (λ st' r,
    (∃ g', st' = State (self st) (with_rng g' (env st))) ∧
    (∀ seed, rng (env st) = rng_seed seed → r = generated_order seed x) ∧
    (∀ l, x = JList l → ∃ l', r = inr (JList l') ∧ l' ≡ₚ l)).
Proof.
  unfold post. split; [apply random_shuffle_frame|]. split.
  - intros seed Hg. unfold generated_order. by apply random_shuffle_rng.
  - intros l ->. apply random_shuffle_list.
Qed.

Lemma py_copy_inr v c : py_copy v = inr c → c = v.
Proof. destruct v; simpl; congruence. Qed.

Definition seed_lines (seed : json) : list string :=
  if is_none seed then []
  else ["Using random seed: " +:+ py_str seed +:+ " for reproducible order"].

Lemma randomize_post st :
  post _randomize_transitions st (λ st' r,
    with_current_transitions JNull (self st')
      = with_current_transitions JNull (self st) ∧
    fs (env st') = fs (env st) ∧
    (r = inr tt →
       (is_none (random_seed (self st)) = false →
        generated_order (random_seed (self st)) (transitions (self st))
          = inr (current_transitions (self st'))) ∧
       ∃ n, py_len (current_transitions (self st')) = inr n ∧
            stdout (env st') = (stdout (env st) ++ seed_lines (random_seed (self st))
              ++ ["Randomized order of " +:+ pretty n +:+ " transitions"])%list) ∧
    (∀ T, transitions (self st) = JList T →
          seedable (random_seed (self st)) = true →
          r = inr tt ∧ ∃ T', current_transitions (self st') = JList T' ∧ T' ≡ₚ T)).
Proof.
  unfold _randomize_transitions.
  apply post_bind, post_get_self, post_bind.
  set (seed := random_seed (self st)).
  set (Q1 := λ (st1 : state) (r : result unit),
    self st1 = self st ∧ fs (env st1) = fs (env st) ∧
    (r = inr tt →
       stdout (env st1) = (stdout (env st) ++ seed_lines seed)%list ∧
       (is_none seed = false → rng (env st1) = rng_seed seed)) ∧
    (seedable seed = true → r = inr tt)).
  assert (post (if is_none seed then ret tt
                else random_seed_with seed;;
                     print ("Using random seed: " +:+ py_str seed
                            +:+ " for reproducible order")) st Q1) as Hseed.
  { unfold Q1, seed_lines, random_seed_with.
    destruct seed; post_steps; simpl; rewrite ?app_nil_r; done. }
  eapply post_mono; [exact Hseed|]. clear Hseed.
  intros st1 [e|[]] (Hs1 & Hfs1 & Hok1 & Hsd1).
  { rewrite Hs1, Hfs1. split_and!; try done.
    intros T _ Hsd. by specialize (Hsd1 Hsd). }
  destruct (Hok1 eq_refl) as [Hout1 Hrng1]. clear Hok1 Hsd1.
  apply post_bind, post_lift.
  destruct (py_copy (transitions (self st))) as [e|c] eqn:Hc.
  { rewrite Hs1, Hfs1. split_and!; try done. intros T HT. by rewrite HT in Hc. }
  apply py_copy_inr in Hc. subst c.
  apply post_bind, post_set_self, post_bind.
  eapply post_mono; [apply random_shuffle_post|].
  intros st2 r ([g' ->] & Hgen & Hlist). simpl in *.
  destruct r as [e|c'].
  { rewrite Hs1, Hfs1. split_and!; try done.
    intros T HT _. destruct (Hlist T HT) as (? & [=] & _). }
  post_steps; simpl; rewrite ?Hs1, ?Hfs1, ?Hout1; split_and!; try done.
  - intros T HT _. by destruct (Hlist T HT) as (T' & [= ->] & _).
  - intros _. split.
    + intros Hn. rewrite <- (Hgen seed); [done|]. by apply Hrng1.
    + eexists. split; [done|]. by rewrite <- app_assoc.
  - intros T HT _. destruct (Hlist T HT) as (T' & [= ->] & HT'). eauto.
Qed.

End randomizing.

Section order_generator.
Context `{RT : Runtime}.

Lemma seedable_not_none a : seedable a = true → is_none a = false.
Proof. by destruct a. Qed.

(** C2: with a seed, [_randomize_transitions] succeeds on every task list
    [T]; the order it stores is a permutation of [T] (so the task ids are
    the same multiset, nothing repeated that was not, nothing left out),
    and it is the same order from every state with the same [T] and seed. *)
Theorem randomize_seeded_permutation (st : state) (T : list json) :
  transitions (self st) = JList T →
  seedable (random_seed (self st)) = true →
  ∃ st' T',
    _randomize_transitions st = (st', inr tt) ∧
    current_transitions (self st') = JList T' ∧
    T' ≡ₚ T ∧
    task_id <$> T' ≡ₚ task_id <$> T ∧
    (NoDup (task_id <$> T) → NoDup (task_id <$> T')) ∧
    (∀ st2, transitions (self st2) = JList T →
            random_seed (self st2) = random_seed (self st) →
            ∃ st2', _randomize_transitions st2 = (st2', inr tt) ∧
                    current_transitions (self st2') = JList T').
Proof.
  intros HT Hseed.
  pose proof (randomize_post st) as Hpost. unfold post in Hpost.
  destruct (_randomize_transitions st) as [st' r] eqn:Hrun. simpl in Hpost.
  destruct Hpost as (_ & _ & Hok & Hlist).
  destruct (Hlist T HT Hseed) as (-> & T' & HT' & Hperm).
  destruct (Hok eq_refl) as [Hgen _].
  specialize (Hgen (seedable_not_none _ Hseed)).
  exists st', T'. split_and!; try done.
  - by rewrite Hperm.
  - intros Hnd. by rewrite Hperm.
  - intros st2 HT2 Hseed2.
    pose proof (randomize_post st2) as Hpost2. unfold post in Hpost2.
    destruct (_randomize_transitions st2) as [st2' r2] eqn:Hrun2. simpl in Hpost2.
    destruct Hpost2 as (_ & _ & Hok2 & Hlist2).
    rewrite Hseed2 in *.
    destruct (Hlist2 T HT2 Hseed) as (-> & _).
    destruct (Hok2 eq_refl) as [Hgen2 _].
    specialize (Hgen2 (seedable_not_none _ Hseed)).
    exists st2'. split; [done|]. congruence.
Qed.

End order_generator.

Lemma randomize_seeded_permutation_witness :
  ∃ st' T',
    _randomize_transitions (State seeded_42 (example_world [] [])) = (st', inr tt) ∧
    current_transitions (self st') = JList T' ∧
    T' ≡ₚ three_tasks ∧
    task_id <$> T' ≡ₚ task_id <$> three_tasks ∧
    (NoDup (task_id <$> three_tasks) → NoDup (task_id <$> T')) ∧
    (∀ st2, transitions (self st2) = JList three_tasks →
            random_seed (self st2) = random_seed seeded_42 →
            ∃ st2', _randomize_transitions st2 = (st2', inr tt) ∧
                    current_transitions (self st2') = JList T').
Proof.
  apply (randomize_seeded_permutation (RT:=example_runtime)
           (State seeded_42 (example_world [] [])) three_tasks).
  - reflexivity.
  - reflexivity.
Defined.

(** The order the example generator makes of three tasks under seed 42. *)
Example randomize_three_tasks :
  current_transitions
    (self (_randomize_transitions (State seeded_42 (example_world [] []))).1)
  = JList [JObj [("transition_id", JStr "b")];
           JObj [("transition_id", JStr "c")];
           JObj [("transition_id", JStr "a")]].
Proof. vm_compute. reflexivity. Qed.

(** ** Loading the dataset *)

Ltac post_loop I :=
  repeat first
    [ post_step
    | lazymatch goal with
      | |- post (for_each _ _) _ _ =>
          eapply post_mono;
          [apply (post_for_each _ _ I); [|intros ? ? _ ?]|cbv beta; intros ? ? ?]
      | |- post (append_transition _) _ _ => unfold append_transition
      | |- post (extract_comparison _) _ _ => unfold extract_comparison
      | |- post (extract_prediction _ _) _ _ => unfold extract_prediction
      | |- post (index_transition _) _ _ => unfold index_transition
      | |- post (restore_validation _) _ _ => unfold restore_validation
      | |- post (add_material _) _ _ => unfold add_material
      | |- post (add_completed _) _ _ => unfold add_completed
      end ].

Section loading.
Context `{RT : Runtime}.

(** [_load_data] assigns [transitions] and [metadata] and prints; this is
    what it leaves alone. *)
Definition load_frame (st0 st1 : state) : Prop :=
  with_metadata JNull (with_transitions JNull (self st1))
    = with_metadata JNull (with_transitions JNull (self st0)) ∧
  fs (env st1) = fs (env st0) ∧ rng (env st1) = rng (env st0).

Definition load_inv (st0 st1 : state) : Prop :=
  load_frame st0 st1 ∧ stdout (env st1) = stdout (env st0).

Lemma load_inv_refl st : load_inv st st.
Proof. by repeat split. Qed.

Lemma load_data_post st :
  post _load_data st (λ st' r,
    load_frame st st' ∧
    (r = inr tt →
     ∃ n, py_len (transitions (self st')) = inr n ∧
          stdout (env st') =
            (stdout (env st) ++ ["Loaded " +:+ pretty n +:+ " transitions for validation"])%list)).
Proof.
  unfold _load_data. apply post_bind, post_get_self, post_bind.
  eapply post_mono; [apply read_json_post|].
  intros st1 r [(Hs & Hfs & Hr & Ho & _) _].
  assert (load_inv st st1) as Hinv.
  { unfold load_inv, load_frame. by rewrite Hs, Hfs, Hr, Ho. }
  clear Hs Hfs Hr Ho. destruct r as [e|data]; [by destruct Hinv|].
  post_loop (load_inv st);
    unfold load_inv, load_frame in *; simpl in *;
    try (intuition (try done; congruence)).
  all: destruct_and?; split; [done|]; intros _; eexists; split; [done|]; congruence.
Qed.

End loading.

Section extraction.
Context `{RT : Runtime}.

Lemma comparison_group_fields g :
  comparison_group g →
  py_getitem g "transition_id" = inr (field g "transition_id") ∧
  py_getitem g "action" = inr (field g "action") ∧
  py_getitem g "input_materials" = inr (field g "input_materials") ∧
  py_getitem g "input_observations" = inr (field g "input_observations") ∧
  py_getitem g "predictions" = inr (JList (predictions_of g)) ∧
  Forall (λ p, ∃ d, p = JObj d) (predictions_of g).
Proof.
  intros ([gid Hgid] & [a Ha] & [im Him] & [io Hio] & [ps [Hps Hobj]]).
  unfold field, predictions_of. by rewrite Hgid, Ha, Him, Hio, Hps.
Qed.

Lemma made_task_is_task_of g ip :
  comparison_group g → is_task_of g ip.1 ip.2 (made_task g ip).
Proof.
  intros Hg. destruct (comparison_group_fields g Hg) as (Hgid & Ha & Him & Hio & _).
  exists (field g "transition_id"). rewrite Ha, Him, Hio.
  by split_and!.
Qed.

Lemma extract_prediction_run g ip ts st :
  comparison_group g → (∃ d, ip.2 = JObj d) →
  transitions (self st) = JList ts →
  ∃ st', extract_prediction g ip st = (st', inr tt) ∧
    transitions (self st') =
      JList (ts ++ if error_marker ip.2 then [] else [made_task g ip]) ∧
    load_inv st st'.
Proof.
  intros Hg [d Hd] Hts.
  destruct (comparison_group_fields g Hg) as (Hgid & Ha & Him & Hio & _).
  unfold extract_prediction, error_marker. rewrite Hd. simpl.
  unfold bind at 1. simpl.
  destruct (py_truthy (default JNull (dict_lookup "error" d))) eqn:Herr.
  - exists st. rewrite app_nil_r. split_and!; try done; apply load_inv_refl.
  - rewrite Hgid, Ha, Him, Hio. unfold append_transition.
    unfold bind, lift, ret, get_self, set_self. simpl. rewrite Hts. simpl.
    eexists. split; [done|]. split; [by rewrite <- Hd|done].
Qed.

Lemma load_inv_trans st0 st1 st2 :
  load_inv st0 st1 → load_inv st1 st2 → load_inv st0 st2.
Proof. unfold load_inv, load_frame. intuition congruence. Qed.

Lemma extract_predictions_run g ips ts st :
  comparison_group g → Forall (λ ip, ∃ d, ip.2 = JObj d) ips →
  transitions (self st) = JList ts →
  ∃ st', for_each ips (extract_prediction g) st = (st', inr tt) ∧
    transitions (self st') =
      JList (ts ++ (made_task g <$> filter (λ ip, error_marker ip.2 = false) ips)) ∧
    load_inv st st'.
Proof.
  intros Hg Hobj. revert ts st.
  induction Hobj as [|ip ips Hip _ IH]; intros ts st Hts.
  - exists st. simpl. rewrite app_nil_r. split_and!; try done; apply load_inv_refl.
  - destruct (extract_prediction_run g ip ts st Hg Hip Hts) as (st1 & Hrun & Hts1 & Hinv1).
    destruct (IH _ st1 Hts1) as (st2 & Hrun2 & Hts2 & Hinv2).
    exists st2. split_and!.
    + simpl. by rewrite (bind_inr _ _ _ _ _ Hrun).
    + rewrite Hts2, <- app_assoc. do 2 f_equal.
      rewrite filter_cons. destruct (error_marker ip.2); by case_decide.
    + by eapply load_inv_trans.
Qed.

Lemma extract_comparisons_run groups ts st :
  Forall comparison_group groups →
  transitions (self st) = JList ts →
  ∃ st', for_each groups extract_comparison st = (st', inr tt) ∧
    transitions (self st') =
      JList (ts ++ flat_map (λ g, made_task g <$> reviewable g) groups) ∧
    load_inv st st'.
Proof.
  intros Hgs. revert ts st. induction Hgs as [|g groups Hg _ IH]; intros ts st Hts.
  - exists st. simpl. rewrite app_nil_r. split_and!; try done; apply load_inv_refl.
  - destruct (comparison_group_fields g Hg) as (_ & _ & _ & _ & Hps & Hobj).
    destruct (extract_predictions_run g (enumerate (predictions_of g)) ts st Hg)
      as (st1 & Hrun & Hts1 & Hinv1); [|done|].
    { unfold enumerate. apply Forall_forall. intros [i p] Hin.
      apply elem_of_lookup_imap in Hin as (j & y & [= -> ->] & Hj).
      eapply Forall_lookup_1 in Hobj; done. }
    destruct (IH _ st1 Hts1) as (st2 & Hrun2 & Hts2 & Hinv2).
    exists st2. split_and!.
    + simpl. erewrite bind_inr; [done|].
      unfold extract_comparison. rewrite Hps. simpl. exact Hrun.
    + rewrite Hts2, <- app_assoc. done.
    + by eapply load_inv_trans.
Qed.

End extraction.

Section extraction_claims.
Context `{RT : Runtime}.

Lemma post_of_run {A} (m : M A) st st' r (Q : state → result A → Prop) :
  m st = (st', r) → Q st' r → post m st Q.
Proof. unfold post. by intros ->. Qed.

Lemma post_success {A} (m : M A) st (P : state → A → Prop) :
  post m st (λ st' r, ∃ a, r = inr a ∧ P st' a) →
  ∃ st' a, m st = (st', inr a) ∧ P st' a.
Proof.
  unfold post. destruct (m st) as [st' r]. simpl.
  intros (a & -> & HP). eauto.
Qed.

Lemma read_json_self path st st1 j :
  read_json path st = (st1, inr j) → self st1 = self st.
Proof.
  intros Hrun. pose proof (read_json_post path st) as Hpost.
  apply (post_elim _ _ _ _ _ Hpost) in Hrun. by destruct Hrun as [(? & _) _].
Qed.

(** C3: on a dataset of the comparison-group format, [_load_data] succeeds
    and [transitions] holds, group by group and in the order of the
    predictions, one Task for each prediction that carries no error marker:
    its id is the group id, an underscore and the index of the prediction,
    [original_transition_id] is the group id, the action and input fields
    are the group's and [prediction] is the prediction.  No Task comes from
    a prediction that carries an error marker. *)
Theorem load_data_comparisons (st st1 : state) (d : dict) (groups : list json) :
  read_json (data_file (self st)) st = (st1, inr (JObj d)) →
  dict_lookup "comparisons" d = Some (JList groups) →
  Forall comparison_group groups →
  transitions (self st) = JList [] →
  ∃ st' ts,
    _load_data st = (st', inr tt) ∧
    transitions (self st') = JList ts ∧
    Forall2 (λ gip t, is_task_of gip.1.1 gip.1.2 gip.2 t)
      (flat_map (λ g, (λ ip, (g, ip.1, ip.2)) <$> reviewable g) groups) ts ∧
    Forall (λ t, ∃ p, py_getitem t "prediction" = inr p ∧ error_marker p = false) ts.
Proof.
  intros Hread Hcomp Hgroups Hts.
  pose proof (read_json_self _ _ _ _ Hread) as Hself.
  destruct (extract_comparisons_run groups [] st1 Hgroups) as (st2 & Hloop & Hts2 & Hinv);
    [by rewrite Hself|].
  simpl in Hts2.
  assert (Forall2 (λ gip t, is_task_of gip.1.1 gip.1.2 gip.2 t)
            (flat_map (λ g, (λ ip, (g, ip.1, ip.2)) <$> reviewable g) groups)
            (flat_map (λ g, made_task g <$> reviewable g) groups)) as Hall.
  { clear -Hgroups. induction Hgroups as [|g groups Hg _ IH]; simpl; [constructor|].
    apply Forall2_app; [|done].
    apply Forall2_fmap, Forall_Forall2_diag, Forall_forall.
    intros ip _. by apply made_task_is_task_of. }
  assert (Forall (λ t, ∃ p, py_getitem t "prediction" = inr p ∧ error_marker p = false)
            (flat_map (λ g, made_task g <$> reviewable g) groups)) as Hnone.
  { clear. induction groups as [|g groups IH]; simpl; [constructor|].
    apply Forall_app. split; [|done].
    apply Forall_fmap, Forall_forall. intros ip Hin.
    apply list_elem_of_filter in Hin as [Herr _].
    exists ip.2. by split. }
  cut (∃ st' (u : unit), _load_data st = (st', inr u) ∧
         transitions (self st') = transitions (self st2)).
  { intros (st' & [] & Hrun & Heq). rewrite Hts2 in Heq.
    exists st'. eexists. by split_and!. }
  apply post_success. unfold _load_data.
  apply post_bind, post_get_self, post_bind.
  eapply post_of_run; [exact Hread|]. cbv beta.
  apply post_bind, post_lift. simpl. rewrite Hcomp.
  rewrite bool_decide_eq_true_2 by eauto.
  apply post_bind, post_bind, post_lift.
  apply post_bind, post_lift. simpl.
  eapply post_of_run; [exact Hloop|].
  post_steps; simpl in *; try done.
  - by rewrite Hts2 in *.
  - by eexists.
Qed.

(** C6, amended: for a dataset object with neither a ['comparisons'] nor a
    ['transitions'] entry, [_load_data] does not fail: it succeeds with an
    empty task list (and the metadata of the object, or an empty dict). *)
Theorem load_data_no_shape (st st1 : state) (d : dict) :
  read_json (data_file (self st)) st = (st1, inr (JObj d)) →
  dict_lookup "comparisons" d = None →
  dict_lookup "transitions" d = None →
  ∃ st', _load_data st = (st', inr tt) ∧
         transitions (self st') = JList [] ∧
         metadata (self st') = default (JObj []) (dict_lookup "metadata" d).
Proof.
  intros Hread Hcomp Htrans.
  cut (∃ st' (u : unit), _load_data st = (st', inr u) ∧
         transitions (self st') = JList [] ∧
         metadata (self st') = default (JObj []) (dict_lookup "metadata" d)).
  { intros (st' & [] & Hrun). eauto. }
  apply post_success. unfold _load_data.
  apply post_bind, post_get_self, post_bind.
  eapply post_of_run; [exact Hread|]. cbv beta.
  apply post_bind, post_lift. simpl. rewrite Hcomp.
  rewrite bool_decide_eq_false_2 by (by intros [? ?]).
  rewrite Htrans.
  post_steps; simpl in *; try done.
  by eexists.
Qed.

End extraction_claims.

Lemma load_data_comparisons_witness :
  ∃ st' ts,
    _load_data (first_run two_predictions) = (st', inr tt) ∧
    transitions (self st') = JList ts ∧
    Forall2 (λ gip t, is_task_of gip.1.1 gip.1.2 gip.2 t)
      (flat_map (λ g, (λ ip, (g, ip.1, ip.2)) <$> reviewable g) one_group) ts ∧
    Forall (λ t, ∃ p, py_getitem t "prediction" = inr p ∧ error_marker p = false) ts.
Proof.
  apply (load_data_comparisons (RT:=example_runtime) (first_run two_predictions)
           (first_run two_predictions) two_predictions one_group).
  - reflexivity.
  - reflexivity.
  - constructor; [|constructor].
    unfold comparison_group. simpl.
    split_and!; try (eexists; reflexivity).
    eexists. split; [reflexivity|].
    repeat constructor; eexists; reflexivity.
  - reflexivity.
Defined.

(** Of a group with one failed and one good prediction, the good one is
    extracted, under the index it has in the group. *)
Example load_data_two_predictions :
  transitions (self (_load_data (first_run two_predictions)).1)
  = JList [JObj [("transition_id", JStr "g1_1");
                 ("original_transition_id", JStr "g1");
                 ("prediction_index", JNum 1);
                 ("action", JObj [("parameters", JObj [("plate", JStr "BC1")])]);
                 ("input_materials",
                  JList [JObj [("barcode", JStr "BC1"); ("name", JStr "Plate A")]]);
                 ("input_observations", JList []);
                 ("prediction", JObj [("prediction", JObj [])])]].
Proof. vm_compute. reflexivity. Qed.

Lemma load_data_no_shape_witness :
  ∃ st', _load_data (first_run no_shape) = (st', inr tt) ∧
         transitions (self st') = JList [] ∧
         metadata (self st') = JObj [].
Proof.
  apply (load_data_no_shape (RT:=example_runtime) (first_run no_shape)
           (first_run no_shape) no_shape).
  - reflexivity.
  - reflexivity.
  - reflexivity.
Defined.

Lemma load_data_no_shape_succeeds :
  (_load_data (first_run no_shape)).2 = inr tt ∧
  transitions (self (_load_data (first_run no_shape)).1) = JList [].
Proof. split; vm_compute; reflexivity. Qed.

(** ** Serving the next task *)

Section serving.

Lemma dict_lookup_set_eq k v (d : dict) : dict_lookup k (dict_set k v d) = Some v.
Proof.
  induction d as [|[k' v'] d IH]; simpl.
  - by rewrite decide_True.
  - case_decide; simpl.
    + by rewrite decide_True.
    + by rewrite decide_False.
Qed.

Lemma dict_lookup_set_ne k k' v (d : dict) :
  k ≠ k' → dict_lookup k' (dict_set k v d) = dict_lookup k' d.
Proof.
  intros Hne. induction d as [|[k1 v1] d IH]; simpl.
  - by rewrite decide_False.
  - case_decide; simpl; subst.
    + by rewrite !decide_False.
    + by case_decide.
Qed.

Lemma dict_set_set k v v' (d : dict) :
  dict_set k v (dict_set k v' d) = dict_set k v d.
Proof.
  induction d as [|[k1 v1] d IH]; simpl.
  - by rewrite decide_True.
  - case_decide; simpl.
    + by rewrite decide_True.
    + rewrite decide_False by done. by f_equal.
Qed.

Lemma dict_set_fresh k v (d : dict) :
  k ∉ dict_keys d → dict_set k v d = (d ++ [(k, v)])%list.
Proof.
  induction d as [|[k1 v1] d IH]; simpl; [done|].
  intros Hk. apply not_elem_of_cons in Hk as [Hne Hk].
  rewrite decide_False by done. f_equal. auto.
Qed.

Lemma fold_dict_set_fresh (f : json → json) (ps acc : dict) :
  NoDup (dict_keys acc ++ dict_keys ps)%list →
  fold_left (λ acc kv, dict_set kv.1 (f kv.2) acc) ps acc
  = (acc ++ map (λ kv, (kv.1, f kv.2)) ps)%list.
Proof.
  revert acc. induction ps as [|[k v] ps IH]; intros acc Hnd; simpl.
  - by rewrite app_nil_r.
  - unfold dict_keys in *. simpl in Hnd.
    rewrite dict_set_fresh.
    + rewrite IH, <- app_assoc; [done|].
      rewrite fmap_app. simpl. by rewrite <- app_assoc.
    + apply NoDup_app in Hnd as (_ & Hdis & _).
      intros Hin. apply (Hdis _ Hin). left.
Qed.

Lemma enhance_parameters m (d a ps : dict) :
  dict_lookup "action" d = Some (JObj a) →
  dict_lookup "parameters" a = Some (JObj ps) →
  NoDup (dict_keys ps) →
  _enhance_transition_with_names m (JObj d) =
    inr (JObj (dict_set "action"
           (JObj (dict_set "parameters_display"
                    (JObj (map (λ kv, (kv.1, _resolve_barcode_to_name m kv.2)) ps))
                    (dict_set "parameters"
                       (JObj (map (λ kv, (kv.1, _resolve_barcode_to_name m kv.2)) ps))
                       a)))
           d)).
Proof.
  intros Ha Hps Hnd. unfold _enhance_transition_with_names. simpl.
  rewrite Ha. simpl. rewrite Hps. simpl.
  rewrite dict_lookup_set_eq. simpl.
  rewrite dict_lookup_set_eq. simpl.
  rewrite !dict_set_set.
  rewrite (fold_dict_set_fresh _ ps []) by done. done.
Qed.

(** Where nothing is to resolve the task is returned as it is. *)
Lemma enhance_transition_id m t e :
  _enhance_transition_with_names m t = inr e →
  py_getitem e "transition_id" = py_getitem t "transition_id".
Proof.
  unfold _enhance_transition_with_names.
  destruct (py_copy t) as [?|c] eqn:Hc; [done|]. apply py_copy_inr in Hc as ->.
  simpl.
  destruct (py_in "action" t) as [?|[]]; simpl; try congruence.
  destruct (py_getitem t "action") as [?|a]; simpl; [done|].
  destruct (py_in "parameters" a) as [?|[]]; simpl; try congruence.
  destruct (py_getitem a "parameters") as [?|ps]; simpl; [done|].
  destruct (py_items ps) as [?|items]; simpl; [done|].
  destruct (py_copy a) as [?|a']; simpl; [done|].
  destruct t as [| | | | | |d]; simpl; try done.
  rewrite dict_lookup_set_eq. simpl.
  destruct a' as [| | | | | |da]; simpl; try done.
  rewrite dict_lookup_set_eq. simpl.
  intros [= <-]. simpl. by rewrite !dict_lookup_set_ne.
Qed.

Lemma first_pending_some m l t :
  first_pending m l = inr (Some t) →
  ∃ raw k, raw ∈ l ∧ task_key raw = Some k ∧ (k ∉ completed_transitions m) ∧
           _enhance_transition_with_names m raw = inr t.
Proof.
  induction l as [|x l IH]; simpl; [done|].
  unfold task_key.
  destruct (py_getitem x "transition_id") as [?|tid] eqn:Htid; simpl; [done|].
  destruct (py_key tid) as [?|k] eqn:Hk; simpl; [done|].
  case_decide as Hin.
  - intros Hrest. destruct (IH Hrest) as (raw & k' & Hraw & ?).
    exists raw, k'. split; [by right|done].
  - destruct (_enhance_transition_with_names m x) as [?|e] eqn:He; simpl; [done|].
    intros [= <-]. exists x, k. split; [left|].
    by rewrite Htid; simpl; rewrite Hk.
Qed.

(** What [get_next_transition] returns is not completed. *)
Lemma next_transition_pending m t :
  get_next_transition m = inr (Some t) →
  ∃ k, task_key t = Some k ∧ k ∉ completed_transitions m.
Proof.
  unfold get_next_transition.
  destruct (py_iter (current_transitions m)) as [?|l]; simpl; [done|].
  intros Hfp. apply first_pending_some in Hfp as (raw & k & _ & Hk & Hnot & He).
  exists k. split; [|done].
  unfold task_key in *. by rewrite (enhance_transition_id _ _ _ He).
Qed.

End serving.

(** ** Recording a judgment *)

Ltac post_prim :=
  lazymatch goal with
  | |- post now _ _ =>
      eapply post_mono; [apply now_post|];
      intros ? ? (?&?&?&?&?&[? ->])
  | |- post (read_json _) _ _ =>
      eapply post_mono; [apply read_json_post|];
      intros ? ? ((?&?&?&?&?)&?&?)
  | |- post (write_json _ _) _ _ =>
      eapply post_mono; [apply write_json_post|];
      intros ? ? (?&?&?&?&?)
  | |- post (mkdir _) _ _ =>
      eapply post_mono; [apply mkdir_post|];
      intros ? ? (?&?&?&?&?)
  | |- post (path_exists _) _ _ =>
      eapply post_mono; [apply path_exists_post|];
      intros ? ? [-> ->]
  end.

Section recording.
Context `{RT : Runtime}.

Lemma py_setitem_inr v k x v' :
  py_setitem v k x = inr v' → ∃ d, v = JObj d ∧ v' = JObj (dict_set k x d).
Proof. destruct v; simpl; intros [= <-]. eauto. Qed.

Lemma update_session_file_post st :
  post _update_session_file st (λ st' r,
    self st' = self st ∧ rng (env st') = rng (env st) ∧
    stdout (env st') = stdout (env st) ∧
    (r = inr tt →
     ∃ d0 sd,
       fs (env st) !! session_file (self st) = Some (FJson (JObj d0)) ∧
       fs (env st') = <[session_file (self st) := FJson (JObj sd)]> (fs (env st)) ∧
       dict_lookup "validations" sd = Some (session_validations (self st)) ∧
       dict_lookup "completed_transitions" sd
         = Some (JNum (Z.of_nat (size (completed_transitions (self st))))) ∧
       dict_lookup "random_seed" sd = dict_lookup "random_seed" d0) ∧
    (update_io_fails (env st) → ∃ e, r = inl e)).
Proof.
  unfold _update_session_file.
  apply post_bind, post_get_self, post_bind.
  eapply post_mono; [apply read_json_post|].
  intros st1 r ((Hs1 & Hfs1 & Hr1 & Ho1 & _) & Hread & Hplan1).
  destruct r as [e|sd0]; [split_and!; by eauto|].
  specialize (Hread _ eq_refl).
  apply post_bind, post_lift.
  destruct (py_setitem sd0 "validations" _) as [e|sd1] eqn:H1;
    [split_and!; by eauto|].
  apply py_setitem_inr in H1 as (d0 & -> & ->). cbv beta match.
  apply post_bind.
  eapply post_mono; [apply now_post|].
  intros st2 r (Hs2 & Hfs2 & Hr2 & Ho2 & Hp2 & [t ->]). cbv beta match.
  apply post_bind, post_lift. simpl py_setitem. cbv beta match.
  apply post_bind, post_lift. simpl py_setitem. cbv beta match.
  apply post_bind.
  set (Qpct := λ (st3 : state) (r : result json), st3 = st2).
  eapply (post_mono _ _ Qpct).
  { unfold Qpct. post_steps; done. }
  unfold Qpct. intros ? [e|pct] ->; [split_and!; try congruence; by eauto|].
  apply post_bind, post_lift. simpl py_setitem. cbv beta match.
  eapply post_mono; [apply write_json_post|].
  intros st3 r (Hs3 & Hr3 & Ho3 & Hfs3 & Hplan3).
  split_and!; try congruence.
  - intros ->. exists d0. eexists. split; [done|].
    split; [by rewrite Hfs3, Hfs2, Hfs1|].
    split_and!.
    + rewrite !dict_lookup_set_ne by done. by rewrite dict_lookup_set_eq.
    + rewrite dict_lookup_set_ne by done. by rewrite dict_lookup_set_eq.
    + by rewrite !dict_lookup_set_ne.
  - unfold update_io_fails.
    destruct (io_plan (env st)) as [|o1 rest] eqn:Hp; [done|].
    destruct (Hplan1 _ _ eq_refl) as [Hrest Hfail1].
    intros [Hne|Hne]; [by destruct (Hfail1 Hne)|].
    destruct rest as [|o2 rest]; [done|].
    eapply Hplan3; [by rewrite Hp2, Hrest|done].
Qed.

(** What [save_validation] does to the instance and to the session file. *)
Lemma save_validation_post tid ip ec ce cm cf td st :
  post (save_validation tid ip ec ce cm cf td) st (λ st' r,
    with_completed_transitions ∅ (with_session_validations JNull (self st'))
      = with_completed_transitions ∅ (with_session_validations JNull (self st)) ∧
    rng (env st') = rng (env st) ∧
    (session_validations (self st') = session_validations (self st) ∨
     ∃ rec, py_append (session_validations (self st)) rec
              = inr (session_validations (self st')) ∧
            py_getitem rec "transition_id" = inr tid ∧
            py_getitem rec "transition_data" = inr td) ∧
    (completed_transitions (self st') = completed_transitions (self st) ∨
     ∃ k sd,
       py_key tid = inr k ∧
       completed_transitions (self st') = {[k]} ∪ completed_transitions (self st) ∧
       fs (env st') = <[session_file (self st) := FJson (JObj sd)]> (fs (env st)) ∧
       dict_lookup "validations" sd = Some (session_validations (self st'))) ∧
    (r = inr tt →
     ∃ k rec sd,
       py_key tid = inr k ∧
       completed_transitions (self st') = {[k]} ∪ completed_transitions (self st) ∧
       py_append (session_validations (self st)) rec
         = inr (session_validations (self st')) ∧
       py_getitem rec "transition_id" = inr tid ∧
       py_getitem rec "transition_data" = inr td ∧
       fs (env st') = <[session_file (self st) := FJson (JObj sd)]> (fs (env st)) ∧
       dict_lookup "validations" sd = Some (session_validations (self st')) ∧
       ∃ d0, fs (env st) !! session_file (self st) = Some (FJson (JObj d0)) ∧
             dict_lookup "random_seed" sd = dict_lookup "random_seed" d0) ∧
    (update_io_fails (env st) →
     (∃ e, r = inl e) ∧
     completed_transitions (self st') = completed_transitions (self st))).
Proof.
  unfold save_validation. apply post_bind.
  eapply post_mono; [apply now_post|].
  intros st1 r (Hs1 & Hfs1 & Hr1 & Ho1 & Hp1 & [t ->]). cbv beta match.
  apply post_bind.
  set (Qsame := λ (A : Type) (st2 : state) (r : result A), st2 = st1).
  eapply (post_mono _ _ (Qsame json)).
  { unfold Qsame. post_steps; done. }
  unfold Qsame at 1. intros ? [e|cfg] ->.
  { rewrite Hs1, Hr1. split_and!; eauto; try done. }
  apply post_bind, post_get_self, post_bind, post_lift.
  destruct (py_append (session_validations (self st1)) _) as [e|vs] eqn:Happ.
  { rewrite Hs1, Hr1. split_and!; eauto; try done. }
  rewrite Hs1 in Happ.
  apply post_bind, post_set_self, post_bind.
  eapply post_mono; [apply update_session_file_post|].
  intros st3 r (Hs3 & Hr3 & Ho3 & Hok3 & Hfail3). simpl in Hs3, Hr3, Ho3, Hok3.
  assert (update_io_fails (env st) → ∃ e, r = inl e) as Hfail.
  { intros Hf. apply Hfail3. unfold update_io_fails in *. simpl. by rewrite Hp1. }
  clear Hfail3.
  assert (∃ rec, py_append (session_validations (self st)) rec = inr vs ∧
                 py_getitem rec "transition_id" = inr tid ∧
                 py_getitem rec "transition_data" = inr td) as Hrec.
  { eexists. split; [exact Happ|]. by split. }
  destruct r as [e|[]].
  { rewrite Hs3, Hs1, Hr3, Hr1. simpl. split_and!; eauto; try done. }
  destruct (Hok3 eq_refl) as (d0 & sd & Hd0 & Hfs3 & Hval & _ & Hkeep). clear Hok3.
  rewrite Hs1, Hfs1 in Hd0. rewrite Hs1, Hfs1 in Hfs3.
  apply post_bind. unfold add_completed. apply post_bind, post_lift.
  destruct (py_key tid) as [e|k] eqn:Hk.
  { rewrite Hs3, Hs1, Hr3, Hr1. simpl. split_and!; eauto; try done. }
  apply post_set_self, post_bind.
  eapply (post_mono _ _ (λ st5 _, st5 =
    State (with_completed_transitions ({[k]} ∪ completed_transitions (self st3))
             (self st3)) (env st3))).
  { post_steps; reflexivity. }
  intros st5 [e|status] Heq; subst st5.
  { simpl. rewrite Hs3, Hs1, Hr3, Hr1. simpl. split_and!; eauto 10; try done.
    intros Hf. by destruct (Hfail Hf). }
  unfold print. apply post_set_env. simpl.
  rewrite Hs3, Hs1, Hr3, Hr1. simpl. split_and!; eauto 10; try done.
  - intros _. exists k. destruct Hrec as (rec & ? & ? & ?).
    exists rec, sd. split_and!; try done. eauto.
  - intros Hf. by destruct (Hfail Hf).
Qed.

End recording.

Section write_failure.
Context `{RT : Runtime}.

Lemma resolve_ext m m' v :
  material_lookup m = material_lookup m' →
  _resolve_barcode_to_name m v = _resolve_barcode_to_name m' v.
Proof.
  intros Heq. induction v as [| | | |s|l IH|d IH] using json_ind; simpl; try done.
  - by rewrite Heq.
  - f_equal. induction IH as [|x l Hx _ IHl]; simpl; [done|]. by f_equal.
  - f_equal. induction IH as [|[k x] d Hx _ IHd]; simpl in *; [done|].
    f_equal; [by f_equal|done].
Qed.

Lemma enhance_ext m m' t :
  material_lookup m = material_lookup m' →
  _enhance_transition_with_names m t = _enhance_transition_with_names m' t.
Proof.
  intros Heq. unfold _enhance_transition_with_names.
  assert (∀ items,
    fold_left (λ acc kv, dict_set kv.1 (_resolve_barcode_to_name m kv.2) acc) items []
    = fold_left (λ acc kv, dict_set kv.1 (_resolve_barcode_to_name m' kv.2) acc) items [])
    as Hfold.
  { intros items. generalize ([] : dict).
    induction items as [|kv items IH]; intros acc; simpl; [done|].
    by rewrite (resolve_ext m m'), IH. }
  destruct (py_copy t) as [|e]; simpl; [done|].
  destruct (py_in "action" e) as [|[]]; simpl; try done.
  destruct (py_getitem e "action") as [|a]; simpl; [done|].
  destruct (py_in "parameters" a) as [|[]]; simpl; try done.
  destruct (py_getitem a "parameters") as [|ps]; simpl; [done|].
  destruct (py_items ps) as [|items]; simpl; [done|].
  by rewrite Hfold.
Qed.

Lemma get_next_transition_ext m m' :
  current_transitions m = current_transitions m' →
  completed_transitions m = completed_transitions m' →
  material_lookup m = material_lookup m' →
  get_next_transition m = get_next_transition m'.
Proof.
  intros Hc Hd Hl. unfold get_next_transition. rewrite Hc.
  destruct (py_iter (current_transitions m')) as [|l]; simpl; [done|].
  induction l as [|t l IH]; simpl; [done|].
  destruct (py_getitem t "transition_id") as [|tid]; simpl; [done|].
  destruct (py_key tid) as [|k]; simpl; [done|].
  rewrite Hd, IH, (enhance_ext m m') by done. done.
Qed.

(** Whatever makes [save_validation] raise, [completed_transitions] has
    changed only if the session file was rewritten with the judgment. *)
Lemma save_validation_completed_after_write
    (tid ip ec ce cm cf td : json) (st st' : state) (r : result unit) :
  save_validation tid ip ec ce cm cf td st = (st', r) →
  completed_transitions (self st') ≠ completed_transitions (self st) →
  ∃ sd, fs (env st') = <[session_file (self st) := FJson (JObj sd)]> (fs (env st)) ∧
        dict_lookup "validations" sd = Some (session_validations (self st')).
Proof.
  intros Hrun Hchanged.
  pose proof (post_elim _ _ _ _ _ (save_validation_post tid ip ec ce cm cf td st) Hrun)
    as (_ & _ & _ & [Hsame|(k & sd & _ & _ & Hfs & Hval)] & _); [done|eauto].
Qed.

End write_failure.

(** The write of the judgment of task a fails and the error reaches the
    caller; the record of a is then in the in-memory list, and the next
    successful write, for task b, puts it into the session file: a trace of
    the unrecorded judgment remains and is persisted. *)
Lemma failed_judgment_is_persisted_later :
  (judge "a" write_fails_once).2 = inl OSError ∧
  session_validations (self (judge "a" write_fails_once).1)
    = JList [judgment_of "a"] ∧
  (judge "b" (judge "a" write_fails_once).1).2 = inr tt ∧
  stored_validations "s.json" (judge "b" (judge "a" write_fails_once).1).1
    = inr (JList [judgment_of "a"; judgment_of "b"]).
Proof. split_and!; vm_compute; reflexivity. Qed.

Section display_copy.
Context `{RT : Runtime}.

(** C4, amended: [get_next_transition] returns the enhancement of a task of
    the presentation order.  In the enhancement of a task whose action has
    parameters, the [parameters] field of the action holds the resolved
    parameters: the identifiers the name table knows are replaced there.
    Every field of the task other than [action], and every field of the
    action other than [parameters] and [parameters_display], is as in the
    task of the order.  The snapshot in a judgment record is the task data
    the caller passes to [save_validation], as passed. *)
Theorem next_transition_resolves_parameters :
  (∀ m t, get_next_transition m = inr (Some t) →
     ∃ l raw, py_iter (current_transitions m) = inr l ∧ raw ∈ l ∧
              _enhance_transition_with_names m raw = inr t) ∧
  (∀ m (d a ps : dict),
     dict_lookup "action" d = Some (JObj a) →
     dict_lookup "parameters" a = Some (JObj ps) →
     NoDup (dict_keys ps) →
     ∃ e a',
       _enhance_transition_with_names m (JObj d) = inr (JObj e) ∧
       dict_lookup "action" e = Some (JObj a') ∧
       dict_lookup "parameters" a'
         = Some (JObj (map (λ kv, (kv.1, _resolve_barcode_to_name m kv.2)) ps)) ∧
       (∀ k, k ≠ "action" → dict_lookup k e = dict_lookup k d) ∧
       (∀ k, k ≠ "parameters" → k ≠ "parameters_display" →
             dict_lookup k a' = dict_lookup k a)) ∧
  (∀ tid ip ec ce cm cf td (st st' : state),
     save_validation tid ip ec ce cm cf td st = (st', inr tt) →
     ∃ rec, py_append (session_validations (self st)) rec
              = inr (session_validations (self st')) ∧
            py_getitem rec "transition_data" = inr td).
Proof.
  split_and!.
  - intros m t. unfold get_next_transition.
    destruct (py_iter (current_transitions m)) as [|l]; simpl; [done|].
    intros Hfp. apply first_pending_some in Hfp as (raw & k & Hraw & _ & _ & He).
    eauto.
  - intros m d a ps Ha Hps Hnd. do 2 eexists.
    split; [by apply enhance_parameters|].
    rewrite dict_lookup_set_eq. split; [done|].
    rewrite dict_lookup_set_ne by done. rewrite !dict_lookup_set_eq.
    split_and!; try done.
    + intros k Hk. by rewrite dict_lookup_set_ne.
    + intros k Hk1 Hk2. by rewrite !dict_lookup_set_ne.
  - intros tid ip ec ce cm cf td st st' Hrun.
    pose proof (save_validation_post tid ip ec ce cm cf td st) as Hpost.
    apply (post_elim _ _ _ _ _ Hpost) in Hrun.
    destruct Hrun as (_ & _ & _ & _ & Hok & _).
    destruct (Hok eq_refl) as (k & rec & sd & _ & _ & Happ & _ & Htd & _).
    eauto.
Qed.

End display_copy.

Lemma next_transition_resolves_parameters_witness :
  ∃ e a',
    _enhance_transition_with_names names_bc1
      (JObj (plate_task [("parameters", JObj [("plate", JStr "BC1")])]))
      = inr (JObj e) ∧
    dict_lookup "action" e = Some (JObj a') ∧
    dict_lookup "parameters" a' = Some (JObj [("plate", JStr "Plate A")]).
Proof.
  destruct (proj1 (proj2 (next_transition_resolves_parameters (RT:=example_runtime)))
              names_bc1
              (plate_task [("parameters", JObj [("plate", JStr "BC1")])])
              [("parameters", JObj [("plate", JStr "BC1")])]
              [("plate", JStr "BC1")] eq_refl eq_refl)
    as (e & a' & He & Ha & Hp & _).
  - repeat constructor. set_solver.
  - exists e, a'. split_and!; done.
Defined.

(** On a new session over [two_predictions], the task of the order has the
    barcode BC1 and the task [get_next_transition] returns has the name
    Plate A in its [parameters] field: the raw parameters field of the
    returned task does not keep the identifier. *)
Lemma next_transition_overwrites_parameters :
  current_transitions (self new_session)
    = JList [JObj (plate_task [("parameters", JObj [("plate", JStr "BC1")])])] ∧
  get_next_transition (self new_session)
    = inr (Some (JObj (plate_task
        [("parameters", JObj [("plate", JStr "Plate A")]);
         ("parameters_display", JObj [("plate", JStr "Plate A")])]))).
Proof. split; vm_compute; reflexivity. Qed.

(** ** Resuming a session *)

Section resuming.
Context `{RT : Runtime}.

(** [_build_material_lookup] assigns [material_lookup] and prints. *)
Definition build_inv (st0 st1 : state) : Prop :=
  with_material_lookup ∅ (self st1) = with_material_lookup ∅ (self st0) ∧
  env st1 = env st0.

Lemma build_material_lookup_post st :
  post _build_material_lookup st (λ st' r,
    with_material_lookup ∅ (self st') = with_material_lookup ∅ (self st) ∧
    fs (env st') = fs (env st) ∧ rng (env st') = rng (env st) ∧
    (r = inr tt →
     stdout (env st') =
       (stdout (env st) ++
        ["Built material lookup table with "
         +:+ pretty (size (material_lookup (self st'))) +:+ " entries"])%list)).
Proof.
  unfold _build_material_lookup.
  post_loop (build_inv st); unfold build_inv in *; simpl in *;
    destruct_and?; split_and?; try done; try congruence.
Qed.

Lemma restore_validations_post vs st :
  post (for_each vs restore_validation) st (λ st' r,
    with_completed_transitions ∅ (self st') = with_completed_transitions ∅ (self st) ∧
    env st' = env st ∧
    (r = inr tt →
     Forall (λ v, is_Some (task_key v)) vs ∧
     completed_transitions (self st')
       = list_to_set (omap task_key vs) ∪ completed_transitions (self st))).
Proof.
  revert st. induction vs as [|v vs IH]; intros st.
  - simpl. apply post_ret. split_and!; try done. intros _. split; [done|set_solver].
  - simpl. apply post_bind. unfold restore_validation at 1.
    apply post_bind, post_lift.
    destruct (py_getitem v "transition_id") as [e|tid] eqn:Htid; [done|].
    unfold add_completed. apply post_bind, post_lift.
    destruct (py_key tid) as [e|k] eqn:Hk; [done|].
    apply post_set_self.
    eapply post_mono; [apply IH|]. simpl.
    intros st' r (Hframe & Henv & Hok). split_and!; try done.
    intros Hr. destruct (Hok Hr) as [Hall Hset].
    assert (task_key v = Some k) as Hv.
    { unfold task_key. rewrite Htid. simpl. by rewrite Hk. }
    split; [constructor; [by rewrite Hv|done]|].
    rewrite Hset, Hv. simpl. set_solver.
Qed.

(** The lines [resume_from_session] prints. *)
Definition resume_lines (path : string) (seed : json) (loaded entries n c : nat)
    : list string :=
  (["Loaded " +:+ pretty loaded +:+ " transitions for validation";
    "Built material lookup table with " +:+ pretty entries +:+ " entries"]
   ++ seed_lines seed
   ++ ["Randomized order of " +:+ pretty n +:+ " transitions";
       "Resumed session from: " +:+ path;
       "Progress: " +:+ pretty c +:+ "/" +:+ pretty n +:+ " completed"])%list.

Lemma resume_from_session_post p df st :
  post (resume_from_session p df) st (λ st' r,
    r = inr tt →
    ∃ sd seed vj vs n loaded,
      fs (env st) !! Path p = Some (FJson sd) ∧
      py_get sd "random_seed" (JNum 42) = inr seed ∧
      py_get sd "validations" (JList []) = inr vj ∧
      py_iter vj = inr vs ∧
      Forall (λ v, is_Some (task_key v)) vs ∧
      completed_transitions (self st') = list_to_set (omap task_key vs) ∧
      session_validations (self st') = vj ∧
      random_seed (self st') = seed ∧
      session_file (self st') = Path p ∧
      (is_none seed = false →
       generated_order seed (transitions (self st'))
         = inr (current_transitions (self st'))) ∧
      py_len (current_transitions (self st')) = inr n ∧
      stdout (env st') =
        (stdout (env st) ++
         resume_lines (Path p) seed loaded (size (material_lookup (self st'))) n
           (size (completed_transitions (self st'))))%list).
Proof.
  unfold resume_from_session. cbv zeta.
  apply post_bind. post_prim. cbv beta match.
  apply post_bind. post_step; [post_step|by post_step]. cbv beta match.
  apply post_bind.
  eapply post_mono; [apply read_json_post|].
  intros st1 r ((Hs1 & Hfs1 & Hr1 & Ho1 & _) & Hread & _).
  destruct r as [e|sd]; [done|]. specialize (Hread sd eq_refl).
  apply post_bind.
  eapply (post_mono _ _ (λ st2 _, st2 = st1)).
  { repeat first [post_step | post_prim]; done. }
  intros ? [e|dfile] ->; [done|].
  apply post_bind, post_lift.
  destruct (py_get sd "session_name" JNull) as [e|sname] eqn:Hsn; [done|].
  apply post_bind, post_lift.
  destruct (py_get sd "random_seed" (JNum 42)) as [e|seed] eqn:Hseed; [done|].
  do 4 (apply post_bind, post_set_self).
  apply post_bind, post_lift.
  destruct (py_getitem sd "session_id") as [e|sid] eqn:Hsid; [done|].
  do 6 (apply post_bind, post_set_self).
  apply post_bind, post_lift.
  destruct (py_get sd "error_categories" (JList [])) as [e|cats] eqn:Hcats; [done|].
  apply post_bind, post_set_self.
  cbn [self env].
  match goal with
  | |- post _ (State ?m _) _ =>
      assert (random_seed m = seed ∧ session_file m = Path p) as [Hseed1 Hfile1]
        by (split; reflexivity);
      generalize dependent m; intros m1 Hseed1 Hfile1
  end.
  apply post_bind.
  eapply post_mono; [apply load_data_post|].
  intros st2 r ((Hf2 & Hfs2 & Hr2) & Hok2).
  destruct r as [e|[]]; [done|]. destruct (Hok2 eq_refl) as (loaded & _ & Hout2).
  clear Hok2. cbn [self env] in Hf2, Hout2.
  pose proof (f_equal random_seed Hf2) as Hseed2.
  pose proof (f_equal session_file Hf2) as Hfile2. cbn in Hseed2, Hfile2.
  apply post_bind.
  eapply post_mono; [apply build_material_lookup_post|].
  intros st3 r (Hf3 & Hfs3 & Hr3 & Hok3).
  destruct r as [e|[]]; [done|]. specialize (Hok3 eq_refl).
  pose proof (f_equal random_seed Hf3) as Hseed3.
  pose proof (f_equal session_file Hf3) as Hfile3. cbn in Hseed3, Hfile3.
  apply post_bind.
  eapply post_mono; [apply randomize_post|].
  intros st4 r (Hf4 & Hfs4 & Hok4 & _).
  destruct r as [e|[]]; [done|]. destruct (Hok4 eq_refl) as (Hgen & n & Hn & Hout4).
  clear Hok4.
  pose proof (f_equal random_seed Hf4) as Hseed4.
  pose proof (f_equal session_file Hf4) as Hfile4.
  pose proof (f_equal transitions Hf4) as Htrans4.
  pose proof (f_equal material_lookup Hf4) as Hlook4.
  cbn in Hseed4, Hfile4, Htrans4, Hlook4.
  apply post_bind, post_lift.
  destruct (py_get sd "validations" (JList [])) as [e|vj] eqn:Hvj; [done|].
  apply post_bind, post_set_self, post_bind, post_set_self.
  apply post_bind, post_lift.
  destruct (py_iter vj) as [e|vs] eqn:Hvs; [done|].
  apply post_bind.
  eapply post_mono; [apply restore_validations_post|].
  intros st5 r (Hf5 & Henv5 & Hok5).
  destruct r as [e|[]]; [done|]. destruct (Hok5 eq_refl) as (Hall & Hset).
  clear Hok5. cbn [self env] in Hf5, Henv5, Hset.
  pose proof (f_equal random_seed Hf5) as Hseed5.
  pose proof (f_equal session_file Hf5) as Hfile5.
  pose proof (f_equal transitions Hf5) as Htrans5.
  pose proof (f_equal current_transitions Hf5) as Hcur5.
  pose proof (f_equal material_lookup Hf5) as Hlook5.
  pose proof (f_equal session_validations Hf5) as Hsv5.
  cbn in Hseed5, Hfile5, Htrans5, Hcur5, Hlook5, Hsv5, Hset.
  apply post_bind. unfold print at 1. apply post_set_env.
  apply post_bind, post_get_self, post_bind, post_lift.
  cbn [self env].
  destruct (py_len (current_transitions (self st5))) as [e|n'] eqn:Hn'; [done|].
  unfold print. apply post_set_env. cbn [self env stdout with_stdout].
  intros _. exists sd, seed, vj, vs, n, loaded.
  assert (n' = n) as -> by congruence.
  split_and!; try done; try congruence.
  - rewrite Hset. set_solver.
  - intros Hnone. rewrite Htrans5, Htrans4, Hcur5. rewrite <- Hgen; [|congruence].
    by rewrite Hseed3, Hseed2, Hseed1.
  - rewrite Henv5, Hout4, Hok3, Hout2, Ho1. unfold resume_lines.
    rewrite Hlook5, Hlook4, Hseed3, Hseed2, Hseed1.
    rewrite <- !app_assoc. done.
Qed.

Lemma initialize_session_file_post st :
  post _initialize_session_file st (λ st' r,
    self st' = self st ∧
    (r = inr tt →
     ∃ d, fs (env st') = <[session_file (self st) := FJson (JObj d)]> (fs (env st)) ∧
          dict_lookup "random_seed" d = Some (random_seed (self st)) ∧
          dict_lookup "validations" d = Some (JList []))).
Proof.
  unfold _initialize_session_file.
  apply post_bind, post_get_self, post_bind.
  eapply post_mono; [apply now_post|].
  intros st1 r (Hs1 & Hfs1 & _ & _ & _ & [t ->]). cbv beta match.
  apply post_bind, post_lift.
  destruct (py_len (current_transitions (self st))) as [e|n]; [by split|].
  apply post_bind.
  eapply post_mono; [apply write_json_post|].
  intros st2 r (Hs2 & _ & _ & Hfs2 & _).
  destruct r as [e|[]]; [split; [congruence|done]|].
  unfold print. apply post_set_env. cbn [self env fs with_stdout].
  split; [congruence|]. intros _. eexists.
  split; [by rewrite Hfs2, Hfs1|]. by split.
Qed.

Lemma init_post df rd name seed st :
  post (__init__ df rd name seed) st (λ st' r,
    r = inr tt →
    session_validations (self st') = JList [] ∧
    completed_transitions (self st') = ∅ ∧
    random_seed (self st') = seed ∧
    (∃ d, fs (env st') !! session_file (self st') = Some (FJson (JObj d)) ∧
          dict_lookup "random_seed" d = Some seed) ∧
    (is_none seed = false →
     generated_order seed (transitions (self st'))
       = inr (current_transitions (self st')))).
Proof.
  unfold __init__. cbv zeta.
  do 2 (apply post_bind, post_set_self).
  apply post_bind.
  eapply post_mono; [apply mkdir_post|].
  intros st1 r _. destruct r as [e|[]]; [done|].
  apply post_bind.
  eapply post_mono; [apply now_post|].
  intros st2 r (_ & _ & _ & _ & _ & [t ->]). cbv beta match.
  do 2 (apply post_bind, post_set_self).
  apply post_bind.
  eapply (post_mono _ _ (λ st3 r, r = inr tt ∧ random_seed (self st3) = seed)).
  { post_steps; done. }
  intros st3 r [-> Hseed3].
  do 5 (apply post_bind, post_set_self).
  cbn [self env].
  match goal with
  | |- post _ (State ?m _) _ =>
      assert (random_seed m = seed ∧ session_validations m = JList [] ∧
              completed_transitions m = ∅) as (Hseed4 & Hsv4 & Hdone4)
        by (split_and!; [exact Hseed3|reflexivity|reflexivity]);
      generalize dependent m; intros m4 Hseed4 Hsv4 Hdone4
  end.
  clear Hseed3.
  apply post_bind.
  eapply post_mono; [apply load_data_post|].
  intros st5 r ((Hf5 & _ & _) & _). destruct r as [e|[]]; [done|].
  cbn [self] in Hf5.
  pose proof (f_equal random_seed Hf5) as Hseed5.
  pose proof (f_equal session_validations Hf5) as Hsv5.
  pose proof (f_equal completed_transitions Hf5) as Hdone5.
  cbn in Hseed5, Hsv5, Hdone5.
  apply post_bind.
  eapply post_mono; [apply build_material_lookup_post|].
  intros st6 r (Hf6 & _). destruct r as [e|[]]; [done|].
  pose proof (f_equal random_seed Hf6) as Hseed6.
  pose proof (f_equal session_validations Hf6) as Hsv6.
  pose proof (f_equal completed_transitions Hf6) as Hdone6.
  cbn in Hseed6, Hsv6, Hdone6.
  apply post_bind.
  eapply post_mono; [apply randomize_post|].
  intros st7 r (Hf7 & _ & Hok7 & _). destruct r as [e|[]]; [done|].
  destruct (Hok7 eq_refl) as [Hgen _]. clear Hok7.
  pose proof (f_equal random_seed Hf7) as Hseed7.
  pose proof (f_equal session_validations Hf7) as Hsv7.
  pose proof (f_equal completed_transitions Hf7) as Hdone7.
  pose proof (f_equal transitions Hf7) as Htrans7.
  cbn in Hseed7, Hsv7, Hdone7, Htrans7.
  eapply post_mono; [apply initialize_session_file_post|].
  intros st8 r [Hs8 Hok8] ->. destruct (Hok8 eq_refl) as (d & Hfs8 & Hd & _).
  rewrite Hs8. split_and!; try congruence.
  - exists d. split; [by rewrite Hfs8, lookup_insert_eq|]. congruence.
  - intros Hnone. rewrite Htrans7. rewrite <- Hgen; congruence.
Qed.

End resuming.

Section resume_claims.
Context `{RT : Runtime}.

Lemma skip_post data st :
  post (skip data) st (λ st' r,
    with_completed_transitions ∅ (self st') = with_completed_transitions ∅ (self st) ∧
    (completed_transitions (self st') = completed_transitions (self st) ∨
     ∃ k, completed_transitions (self st') = {[k]} ∪ completed_transitions (self st))).
Proof.
  unfold skip, add_completed. post_steps; simpl; split; eauto.
Qed.

(** Requests only add to [completed_transitions]. *)
Lemma serve_completed rq st :
  completed_transitions (self st) ⊆ completed_transitions (self (serve rq st).1).
Proof.
  destruct rq as [tid ip ec ce cm cf td|data]; simpl.
  - pose proof (save_validation_post tid ip ec ce cm cf td st) as Hpost.
    unfold post in Hpost. destruct Hpost as (_ & _ & _ & [->|(k & sd & _ & -> & _)] & _);
      set_solver.
  - pose proof (skip_post data st) as Hpost.
    unfold post in Hpost. destruct Hpost as (_ & [->|(k & ->)]); set_solver.
Qed.

Lemma after_completed rqs st :
  completed_transitions (self st) ⊆ completed_transitions (self (after rqs st)).
Proof.
  revert st. induction rqs as [|rq rqs IH]; intros st; simpl; [done|].
  etrans; [apply (serve_completed rq)|apply IH].
Qed.

Lemma next_after_not_completed rqs st t :
  get_next_transition (self (after rqs st)) = inr (Some t) →
  ∃ k, task_key t = Some k ∧ k ∉ completed_transitions (self st).
Proof.
  intros Hnext. apply next_transition_pending in Hnext as (k & Hk & Hnot).
  exists k. split; [done|]. intros Hin. apply Hnot. by apply after_completed.
Qed.


End resume_claims.

Lemma run_ok `{RT : Runtime} {A} (m : M A) st a :
  (m st).2 = inr a → m st = ((m st).1, inr a).
Proof. destruct (m st) as [st' r]. simpl. by intros ->. Qed.



Section resume_fidelity.
Context `{RT : Runtime}.

Lemma py_append_inr v x v' :
  py_append v x = inr v' → ∃ l, v = JList l ∧ v' = JList (l ++ [x]).
Proof. destruct v; simpl; intros [= <-]. eauto. Qed.

Lemma task_key_record rec tid k :
  py_getitem rec "transition_id" = inr tid → py_key tid = inr k →
  task_key rec = Some k.
Proof. intros Hid Hk. unfold task_key. rewrite Hid. simpl. by rewrite Hk. Qed.

(** C1, amended: resuming from a session file makes [completed_transitions]
    the set of the ids in the stored judgment list, and with a stored seed
    the order is the one the order generator makes of the re-extracted tasks
    under that seed; whatever requests follow, [get_next_transition] returns
    no task of that set.  After two tasks were judged in a session started
    with a seed, resuming from its file gives a session with both ids
    completed, a progress of 2 completed, the seed of the first run and the
    order generated from it, and no request sequence makes
    [get_next_transition] return either task.  A task completed by a skip
    is completed in memory only: after a skip of A and a judgment of B, both
    are completed in the running session, and the session resumed from the
    file has B alone completed and a progress of 1 completed. *)
Theorem resume_fidelity :
  (∀ p df (st st' : state),
     resume_from_session p df st = (st', inr tt) →
     ∃ sd seed vj vs,
       fs (env st) !! Path p = Some (FJson sd) ∧
       py_get sd "random_seed" (JNum 42) = inr seed ∧
       py_get sd "validations" (JList []) = inr vj ∧
       py_iter vj = inr vs ∧
       Forall (λ v, is_Some (task_key v)) vs ∧
       completed_transitions (self st') = list_to_set (omap task_key vs) ∧
       random_seed (self st') = seed ∧
       (is_none seed = false →
        generated_order seed (transitions (self st'))
          = inr (current_transitions (self st'))) ∧
       (∀ rqs t,
          get_next_transition (self (after rqs st')) = inr (Some t) →
          ∃ k, task_key t = Some k ∧ k ∉ completed_transitions (self st'))) ∧
  (∀ df rd name s A ipA ecA ceA cmA cfA tdA B ipB ecB ceB cmB cfB tdB kA kB
     (st0 st1 st2 st3 : state) m p df' (st4 : state),
     __init__ df rd name (JNum s) st0 = (st1, inr tt) →
     save_validation A ipA ecA ceA cmA cfA tdA st1 = (st2, inr tt) →
     save_validation B ipB ecB ceB cmB cfB tdB st2 = (st3, inr tt) →
     py_key A = inr kA → py_key B = inr kB → kA ≠ kB →
     Path p = session_file (self st1) →
     resume_from_session p df' (State m (env st3)) = (st4, inr tt) →
     completed_transitions (self st4) = {[kA; kB]} ∧
     (∃ pr, get_progress (self st4) = inr pr ∧ completed pr = 2) ∧
     random_seed (self st4) = JNum s ∧
     generated_order (JNum s) (transitions (self st4))
       = inr (current_transitions (self st4)) ∧
     (∀ rqs t,
        get_next_transition (self (after rqs st4)) = inr (Some t) →
        task_key t ≠ Some kA ∧ task_key t ≠ Some kB)) ∧
  (∀ df rd name s dataA A B ipB ecB ceB cmB cfB tdB kA kB
     (st0 st1 st2 st3 : state) m p df' (st4 : state),
     __init__ df rd name (JNum s) st0 = (st1, inr tt) →
     py_getitem dataA "transition_id" = inr A →
     skip dataA st1 = (st2, inr tt) →
     save_validation B ipB ecB ceB cmB cfB tdB st2 = (st3, inr tt) →
     py_key A = inr kA → py_key B = inr kB → kA ≠ kB →
     Path p = session_file (self st1) →
     resume_from_session p df' (State m (env st3)) = (st4, inr tt) →
     completed_transitions (self st3) = {[kA; kB]} ∧
     completed_transitions (self st4) = {[kB]} ∧
     (∃ pr, get_progress (self st4) = inr pr ∧ completed pr = 1)).
Proof.
  split; [|split].
  - intros p df st st' Hrun.
    pose proof (post_elim _ _ _ _ _ (resume_from_session_post p df st) Hrun eq_refl)
      as (sd & seed & vj & vs & n & loaded & Hsd & Hseed & Hvj & Hvs & Hall & Hset
          & _ & Hrs & _ & Hgen & _).
    exists sd, seed, vj, vs. split_and!; try done.
    intros rqs t. apply next_after_not_completed.
  - intros df rd name s A ipA ecA ceA cmA cfA tdA B ipB ecB ceB cmB cfB tdB kA kB
      st0 st1 st2 st3 m p df' st4 Hinit HA HB HkA HkB Hne Hp Hres.
    pose proof (post_elim _ _ _ _ _ (init_post df rd name (JNum s) st0) Hinit eq_refl)
      as (Hsv1 & _ & _ & (d1 & Hfs1 & Hseed1) & _).
    pose proof (post_elim _ _ _ _ _
                  (save_validation_post A ipA ecA ceA cmA cfA tdA st1) HA)
      as (HfA & _ & _ & _ & HokA & _).
    destruct (HokA eq_refl)
      as (kA' & recA & sdA & HkA' & _ & HappA & HidA & _ & HfsA & HvalA & d0A
          & Hd0A & HkeepA).
    clear HokA.
    pose proof (post_elim _ _ _ _ _
                  (save_validation_post B ipB ecB ceB cmB cfB tdB st2) HB)
      as (HfB & _ & _ & _ & HokB & _).
    destruct (HokB eq_refl)
      as (kB' & recB & sdB & HkB' & _ & HappB & HidB & _ & HfsB & HvalB & d0B
          & Hd0B & HkeepB).
    clear HokB.
    pose proof (f_equal session_file HfA) as HfileA. cbn in HfileA.
    rewrite Hsv1 in HappA. apply py_append_inr in HappA as (lA & [= <-] & HsvA).
    rewrite HsvA in HappB. apply py_append_inr in HappB as (lB & [= <-] & HsvB).
    simpl in HsvB.
    assert (d0A = d1) as -> by congruence.
    assert (d0B = sdA) as ->.
    { rewrite HfsA, HfileA, lookup_insert_eq in Hd0B. congruence. }
    pose proof (post_elim _ _ _ _ _ (resume_from_session_post p df' (State m (env st3)))
                  Hres eq_refl)
      as (sd & seed & vj & vs & n & loaded & Hsd & Hseed & Hvj & Hvs & _ & Hset
          & _ & Hrs & _ & Hgen & Hn & _).
    cbn [env] in Hsd.
    rewrite Hp, <- HfileA, HfsB, lookup_insert_eq in Hsd. injection Hsd as <-.
    simpl in Hseed, Hvj.
    rewrite HkeepB, HkeepA, Hseed1 in Hseed. simpl in Hseed. injection Hseed as <-.
    rewrite HvalB, HsvB in Hvj. simpl in Hvj. injection Hvj as <-.
    simpl in Hvs. injection Hvs as <-.
    simpl in Hset.
    rewrite (task_key_record _ _ _ HidA HkA), (task_key_record _ _ _ HidB HkB) in Hset.
    simpl in Hset.
    assert (completed_transitions (self st4) = {[kA; kB]}) as Hboth.
    { rewrite Hset. set_solver. }
    split_and!; try done.
    + eexists. split; [unfold get_progress; by rewrite Hn|].
      cbn [completed]. rewrite Hboth, size_union, !size_singleton by set_solver.
      done.
    + by apply Hgen.
    + intros rqs t Hnext.
      destruct (next_after_not_completed _ _ _ Hnext) as (k & Hk & Hnot).
      rewrite Hk, Hboth in *. split; intros [= ->]; set_solver.
  - intros df rd name s dataA A B ipB ecB ceB cmB cfB tdB kA kB
      st0 st1 st2 st3 m p df' st4 Hinit HidA Hskip HB HkA HkB Hne Hp Hres.
    pose proof (post_elim _ _ _ _ _ (init_post df rd name (JNum s) st0) Hinit eq_refl)
      as (Hsv1 & Hnone1 & _ & (d1 & Hfs1 & Hseed1) & _).
    rewrite (skip_ok _ _ _ _ HidA HkA) in Hskip. injection Hskip as <-.
    pose proof (post_elim _ _ _ _ _
                  (save_validation_post B ipB ecB ceB cmB cfB tdB _) HB)
      as (_ & _ & _ & _ & HokB & _).
    destruct (HokB eq_refl)
      as (kB' & recB & sdB & HkB' & HsetB & HappB & HidB & _ & HfsB & HvalB & _).
    clear HokB. cbn [self env session_validations completed_transitions session_file
                     with_completed_transitions] in HsetB, HappB, HfsB.
    assert (kB' = kB) as -> by congruence.
    rewrite Hsv1 in HappB. apply py_append_inr in HappB as (lB & [= <-] & HsvB).
    simpl in HsvB.
    pose proof (post_elim _ _ _ _ _ (resume_from_session_post p df' (State m (env st3)))
                  Hres eq_refl)
      as (sd & seed & vj & vs & n & loaded & Hsd & _ & Hvj & Hvs & _ & Hset
          & _ & _ & _ & _ & Hn & _).
    cbn [env] in Hsd.
    rewrite Hp, HfsB, lookup_insert_eq in Hsd. injection Hsd as <-.
    simpl in Hvj. rewrite HvalB, HsvB in Hvj. simpl in Hvj. injection Hvj as <-.
    simpl in Hvs. injection Hvs as <-.
    simpl in Hset. rewrite (task_key_record _ _ _ HidB HkB) in Hset. simpl in Hset.
    assert (completed_transitions (self st4) = {[kB]}) as Hone.
    { rewrite Hset. set_solver. }
    split_and!.
    + rewrite HsetB, Hnone1. set_solver.
    + done.
    + eexists. split; [unfold get_progress; by rewrite Hn|].
      cbn [completed]. by rewrite Hone, size_singleton.
Qed.

End resume_fidelity.

Lemma resume_fidelity_witness :
  completed_transitions (self run_resumed) = {[KStr "g1_0"; KStr "g1_1"]} ∧
  (∃ pr, get_progress (self run_resumed) = inr pr ∧ completed pr = 2) ∧
  random_seed (self run_resumed) = JNum 42 ∧
  generated_order (JNum 42) (transitions (self run_resumed))
    = inr (current_transitions (self run_resumed)) ∧
  (∀ rqs t,
     get_next_transition (self (after rqs run_resumed)) = inr (Some t) →
     task_key t ≠ Some (KStr "g1_0") ∧ task_key t ≠ Some (KStr "g1_1")).
Proof.
  apply (proj1 (proj2 (resume_fidelity (RT:=example_runtime)))
           "data.json" "out" JNull 42
           (JStr "g1_0") (JBool true) (JList []) (JStr "") (JStr "") JNull JNull
           (JStr "g1_1") (JBool true) (JList []) (JStr "") (JStr "") JNull JNull
           (KStr "g1_0") (KStr "g1_1")
           run_start run_started run_judged_one run_judged_two
           blank "out/validation_session_0.json" None run_resumed).
  - unfold run_started.
    apply (run_ok (__init__ "data.json" "out" JNull (JNum 42)) run_start tt).
    vm_compute. reflexivity.
  - unfold run_judged_one, judge.
    apply (run_ok (save_validation (JStr "g1_0") (JBool true) (JList []) (JStr "")
                     (JStr "") JNull JNull) run_started tt).
    vm_compute. reflexivity.
  - unfold run_judged_two, judge.
    apply (run_ok (save_validation (JStr "g1_1") (JBool true) (JList []) (JStr "")
                     (JStr "") JNull JNull) run_judged_one tt).
    vm_compute. reflexivity.
  - reflexivity.
  - reflexivity.
  - discriminate.
  - vm_compute. reflexivity.
  - unfold run_resumed.
    apply (run_ok (resume_from_session "out/validation_session_0.json" None)
             (State blank (env run_judged_two)) tt).
    vm_compute. reflexivity.
Defined.

(** The run, end to end: both tasks are served before they are judged, and
    the resumed session has none left. *)
Example resumed_run_is_exhausted :
  get_progress (self run_resumed) = inr (Progress 2 2 0) ∧
  get_next_transition (self run_resumed) = inr None ∧
  current_transitions (self run_resumed) = current_transitions (self run_started).
Proof. split_and!; vm_compute; reflexivity. Qed.

(** A session with seed 42 in which task g1_0 is completed by a skip and
    task g1_1 by a judgment: both requests succeed and the running session
    has 2 of 2 completed and no task left.  The session resumed from its
    file has 1 of 2 completed, and [get_next_transition] returns g1_0
    again. *)
Lemma skipped_task_is_served_after_resume :
  (skip (JObj [("transition_id", JStr "g1_0")]) run_started).2 = inr tt ∧
  (judge "g1_1" run_skipped_one).2 = inr tt ∧
  get_progress (self run_skip_judged) = inr (Progress 2 2 0) ∧
  get_next_transition (self run_skip_judged) = inr None ∧
  (resume_from_session "out/validation_session_0.json" None
     (State blank (env run_skip_judged))).2 = inr tt ∧
  get_progress (self run_skip_resumed) = inr (Progress 1 2 1) ∧
  match get_next_transition (self run_skip_resumed) with
  | inr (Some t) => task_id t
  | _ => inl KeyError
  end = inr (JStr "g1_0").
Proof. split_and!; vm_compute; reflexivity. Qed.

(** * Further properties *)

(** ** Serving in order *)

Section serving_in_order.
Context `{RT : Runtime}.

Lemma first_pending_split m l t :
  first_pending m l = inr (Some t) →
  ∃ before raw rest k,
    l = (before ++ raw :: rest)%list ∧
    Forall (is_completed m) before ∧
    task_key raw = Some k ∧ (k ∉ completed_transitions m) ∧
    _enhance_transition_with_names m raw = inr t.
Proof.
  induction l as [|x l IH]; simpl; [done|].
  destruct (py_getitem x "transition_id") as [?|tid] eqn:Htid; simpl; [done|].
  destruct (py_key tid) as [?|k] eqn:Hk; simpl; [done|].
  assert (task_key x = Some k) as Hx.
  { unfold task_key. rewrite Htid. simpl. by rewrite Hk. }
  case_decide as Hin.
  - intros Hrest.
    destruct (IH Hrest) as (before & raw & rest & k' & -> & Hall & Hraw & Hnot & He).
    exists (x :: before), raw, rest, k'. split_and!; try done.
    constructor; [by exists k|done].
  - destruct (_enhance_transition_with_names m x) as [?|e] eqn:He; simpl; [done|].
    intros [= <-]. exists [], x, l, k. by split_and!.
Qed.

Lemma first_pending_none m l :
  first_pending m l = inr None ↔ Forall (is_completed m) l.
Proof.
  induction l as [|x l IH]; simpl; [by split; [constructor|]|].
  rewrite Forall_cons. unfold is_completed at 1. unfold task_key.
  destruct (py_getitem x "transition_id") as [?|tid] eqn:Htid; simpl.
  { split; [done|]. by intros [(k & ? & _) _]. }
  destruct (py_key tid) as [?|k] eqn:Hk; simpl.
  { split; [done|]. by intros [(k & ? & _) _]. }
  case_decide as Hin.
  - rewrite IH. split; [intros Hall; split; eauto|]. by intros [_ ?].
  - split.
    + by destruct (_enhance_transition_with_names m x).
    + intros [(k' & [= <-] & Hk') _]. done.
Qed.

(** [get_next_transition] serves the first task of the order that is not
    completed: every task before it is completed. *)
Theorem next_transition_first_pending (m : ValidationManager) (t : json) :
  get_next_transition m = inr (Some t) →
  ∃ l before raw rest k,
    py_iter (current_transitions m) = inr l ∧
    l = (before ++ raw :: rest)%list ∧
    Forall (is_completed m) before ∧
    task_key raw = Some k ∧ (k ∉ completed_transitions m) ∧
    _enhance_transition_with_names m raw = inr t.
Proof.
  unfold get_next_transition.
  destruct (py_iter (current_transitions m)) as [|l]; simpl; [done|].
  intros Hfp. apply first_pending_split in Hfp
    as (before & raw & rest & k & -> & Hall & Hraw & Hnot & He).
  exists (before ++ raw :: rest)%list, before, raw, rest, k. by split_and!.
Qed.

(** [get_next_transition] returns [None] exactly when every task of the
    order is completed. *)
Theorem next_transition_none_iff (m : ValidationManager) (l : list json) :
  py_iter (current_transitions m) = inr l →
  get_next_transition m = inr None ↔ Forall (is_completed m) l.
Proof.
  intros Hl. unfold get_next_transition. rewrite Hl. simpl.
  apply first_pending_none.
Qed.

End serving_in_order.

Lemma next_transition_first_pending_witness :
  ∃ l before raw rest k,
    py_iter (current_transitions serving_abc) = inr l ∧
    l = (before ++ raw :: rest)%list ∧
    Forall (is_completed serving_abc) before ∧
    task_key raw = Some k ∧ (k ∉ completed_transitions serving_abc) ∧
    _enhance_transition_with_names serving_abc raw
      = inr (JObj [("transition_id", JStr "b")]).
Proof.
  apply (next_transition_first_pending serving_abc (JObj [("transition_id", JStr "b")])).
  vm_compute. reflexivity.
Defined.

Lemma next_transition_none_iff_witness :
  get_next_transition all_done_abc = inr None
  ↔ Forall (is_completed all_done_abc) three_tasks.
Proof.
  apply (next_transition_none_iff all_done_abc three_tasks).
  reflexivity.
Defined.

(** ** What a run of requests keeps *)

Section session_invariants.
Context `{RT : Runtime}.

Lemma skip_env data st : env (skip data st).1 = env st.
Proof.
  unfold skip, add_completed, bind, lift.
  destruct (py_getitem data "transition_id") as [?|tid]; simpl; [done|].
  by destruct (py_key tid).
Qed.

Lemma serve_frame rq st :
  with_completed_transitions ∅
    (with_session_validations JNull (self (serve rq st).1))
  = with_completed_transitions ∅ (with_session_validations JNull (self st)) ∧
  rng (env (serve rq st).1) = rng (env st) ∧
  (∀ l, session_validations (self st) = JList l →
        ∃ more, session_validations (self (serve rq st).1) = JList (l ++ more)%list).
Proof.
  destruct rq as [tid ip ec ce cm cf td|data]; simpl.
  - pose proof (save_validation_post tid ip ec ce cm cf td st) as Hpost.
    unfold post in Hpost. destruct Hpost as (Hframe & Hrng & Hsv & _).
    split_and!; [done..|]. intros l Hl.
    destruct Hsv as [->|(rec & Happ & _)].
    + exists []. by rewrite app_nil_r.
    + apply py_append_inr in Happ as (l' & Hl' & ->).
      rewrite Hl in Hl'. injection Hl' as <-. by exists [rec].
  - pose proof (skip_post data st) as Hpost.
    unfold post in Hpost. destruct Hpost as (Hframe & _).
    split_and!.
    + exact (f_equal (with_session_validations JNull) Hframe).
    + by rewrite skip_env.
    + intros l Hl. exists []. rewrite app_nil_r, <- Hl.
      apply (f_equal session_validations Hframe).
Qed.

Lemma after_frame rqs st :
  with_completed_transitions ∅
    (with_session_validations JNull (self (after rqs st)))
  = with_completed_transitions ∅ (with_session_validations JNull (self st)) ∧
  rng (env (after rqs st)) = rng (env st) ∧
  (∀ l, session_validations (self st) = JList l →
        ∃ more, session_validations (self (after rqs st)) = JList (l ++ more)%list).
Proof.
  revert st. induction rqs as [|rq rqs IH]; intros st; simpl.
  { split_and!; [done..|]. intros l ->. exists []. by rewrite app_nil_r. }
  destruct (IH (serve rq st).1) as (Hframe & Hrng & Hsv).
  destruct (serve_frame rq st) as (Hframe1 & Hrng1 & Hsv1).
  split_and!.
  - by rewrite <- Hframe1.
  - by rewrite <- Hrng1.
  - intros l Hl. destruct (Hsv1 l Hl) as [more1 Hl1].
    destruct (Hsv _ Hl1) as [more ->].
    exists (more1 ++ more)%list. by rewrite app_assoc.
Qed.

Lemma is_completed_mono m m' x :
  completed_transitions m ⊆ completed_transitions m' →
  is_completed m x → is_completed m' x.
Proof. intros Hsub (k & Hk & Hin). exists k. split; [done|]. by apply Hsub. Qed.

(** Whatever requests are served, and whether they succeed or raise, the
    order of the tasks, the loaded tasks, the name table, the error
    categories, the session's file, id and seed and the random generator
    stay as they are; the completed set only grows and the judgment list
    is only appended to. *)
Theorem requests_keep_session (rqs : list request) (st : state) :
  current_transitions (self (after rqs st)) = current_transitions (self st) ∧
  transitions (self (after rqs st)) = transitions (self st) ∧
  material_lookup (self (after rqs st)) = material_lookup (self st) ∧
  error_categories (self (after rqs st)) = error_categories (self st) ∧
  session_file (self (after rqs st)) = session_file (self st) ∧
  session_id (self (after rqs st)) = session_id (self st) ∧
  random_seed (self (after rqs st)) = random_seed (self st) ∧
  data_file (self (after rqs st)) = data_file (self st) ∧
  rng (env (after rqs st)) = rng (env st) ∧
  completed_transitions (self st) ⊆ completed_transitions (self (after rqs st)) ∧
  (∀ l, session_validations (self st) = JList l →
        ∃ more, session_validations (self (after rqs st)) = JList (l ++ more)%list).
Proof.
  destruct (after_frame rqs st) as (Hframe & Hrng & Hsv).
  split_and!; try done.
  - apply (f_equal current_transitions Hframe).
  - apply (f_equal transitions Hframe).
  - apply (f_equal material_lookup Hframe).
  - apply (f_equal error_categories Hframe).
  - apply (f_equal session_file Hframe).
  - apply (f_equal session_id Hframe).
  - apply (f_equal random_seed Hframe).
  - apply (f_equal data_file Hframe).
  - apply after_completed.
Qed.

(** Once [get_next_transition] has returned [None] it returns [None] after
    any further requests. *)
Theorem exhausted_stays_exhausted (st : state) (rqs : list request) :
  get_next_transition (self st) = inr None →
  get_next_transition (self (after rqs st)) = inr None.
Proof.
  destruct (after_frame rqs st) as (Hframe & _).
  unfold get_next_transition.
  pose proof (f_equal current_transitions Hframe) as Hcur. simpl in Hcur.
  rewrite Hcur.
  destruct (py_iter (current_transitions (self st))) as [?|l]; simpl; [done|].
  rewrite !first_pending_none. intros Hall.
  eapply Forall_impl; [exact Hall|].
  intros x. apply is_completed_mono, after_completed.
Qed.

(** After a request naming an id has succeeded, be it a judgment or a
    skip, no task with that id is served again, whatever requests
    follow. *)
Theorem served_task_not_served_again (rq : request) (st st' : state) (tid : json) :
  serve rq st = (st', inr tt) →
  request_id rq = inr tid →
  ∃ k, py_key tid = inr k ∧
       ∀ rqs t, get_next_transition (self (after rqs st')) = inr (Some t) →
                task_key t ≠ Some k.
Proof.
  intros Hrun Hid.
  assert (∃ k, py_key tid = inr k ∧ k ∈ completed_transitions (self st'))
    as (k & Hk & Hin).
  { destruct rq as [tid' ip ec ce cm cf td|data]; simpl in Hrun, Hid.
    - injection Hid as ->.
      pose proof (save_validation_post tid ip ec ce cm cf td st) as Hpost.
      destruct (post_elim _ _ _ _ _ Hpost Hrun) as (_ & _ & _ & _ & Hok & _).
      destruct (Hok eq_refl) as (k & rec & sd & Hk & -> & _).
      exists k. split; [done|]. apply elem_of_union. left. by apply elem_of_singleton.
    - destruct (py_key tid) as [e|k] eqn:Hk.
      + exfalso. revert Hrun. unfold skip, add_completed, bind, lift.
        rewrite Hid. simpl. by rewrite Hk.
      + rewrite (skip_ok _ _ _ _ Hid Hk) in Hrun. injection Hrun as <-.
        exists k. split; [done|]. simpl.
        apply elem_of_union. left. by apply elem_of_singleton. }
  exists k. split; [done|]. intros rqs t Hnext Ht.
  apply next_after_not_completed in Hnext as (k' & Hk' & Hnot).
  rewrite Ht in Hk'. by injection Hk' as <-.
Qed.

End session_invariants.

Lemma exhausted_stays_exhausted_witness :
  get_next_transition
    (self (after [Skip (JObj [("transition_id", JStr "z")]);
                  Judge (JStr "a") (JBool true) (JList []) (JStr "") (JStr "")
                    JNull JNull]
             (State all_done_abc (env serving_abc_state)))) = inr None.
Proof.
  apply (exhausted_stays_exhausted (State all_done_abc (env serving_abc_state))).
  vm_compute. reflexivity.
Defined.

Lemma served_task_not_served_again_witness :
  ∃ k, py_key (JStr "b") = inr k ∧
       ∀ rqs t,
         get_next_transition
           (self (after rqs
              (serve (Skip (JObj [("transition_id", JStr "b")])) serving_abc_state).1))
           = inr (Some t) →
         task_key t ≠ Some k.
Proof.
  apply (served_task_not_served_again
           (Skip (JObj [("transition_id", JStr "b")])) serving_abc_state).
  - unfold serving_abc_state, serve.
    apply (run_ok (skip (JObj [("transition_id", JStr "b")]))
             (State serving_abc
                (example_world [("s.json", FJson (JObj [("validations", JList [])]))] []))
             tt).
    reflexivity.
  - reflexivity.
Defined.

(** ** The filter [truncate_at_secret] *)

Lemma find_from_none sub s i :
  0 ≤ i → str_find_from sub s i = -1 ↔ ∀ j, ¬ occurs_at sub s j.
Proof.
  revert i. induction s as [|c s IH]; intros i Hi; simpl.
  - case_bool_decide as Hp.
    + split; [lia|]. intros Hno. destruct (Hno 0%nat). done.
    + split; [|done]. intros _ j. unfold occurs_at. by rewrite drop_nil.
  - case_bool_decide as Hp.
    + split; [lia|]. intros Hno. destruct (Hno 0%nat). done.
    + rewrite IH by lia. split.
      * intros Hno [|j]; [done|]. apply Hno.
      * intros Hno j. apply (Hno (S j)).
Qed.

Lemma find_from_some sub s i n :
  0 ≤ i → str_find_from sub s i = n → n ≠ -1 →
  ∃ j, n = i + Z.of_nat j ∧ occurs_at sub s j ∧ ∀ j', (j' < j)%nat → ¬ occurs_at sub s j'.
Proof.
  revert i. induction s as [|c s IH]; intros i Hi; simpl.
  - case_bool_decide as Hp; [|lia]. intros <- _. exists 0%nat.
    split_and!; [lia|done|lia].
  - case_bool_decide as Hp.
    + intros <- _. exists 0%nat. split_and!; [lia|done|lia].
    + intros Hf Hn. destruct (IH (i + 1) ltac:(lia) Hf Hn) as (j & -> & Hocc & Hmin).
      exists (S j). split_and!; [lia|done|].
      intros [|j'] Hlt; [done|]. apply Hmin. lia.
Qed.

Lemma str_find_none s sub : str_find s sub = -1 ↔ ∀ j, ¬ occurs_at sub s j.
Proof. by apply find_from_none. Qed.

Lemma str_find_some s sub n :
  str_find s sub = n → n ≠ -1 →
  ∃ j, n = Z.of_nat j ∧ occurs_at sub s j ∧ ∀ j', (j' < j)%nat → ¬ occurs_at sub s j'.
Proof.
  intros Hf Hn. destruct (find_from_some sub s 0 n ltac:(done) Hf Hn) as (j & -> & ?).
  exists j. by rewrite Z.add_0_l.
Qed.

Lemma occurs_length sub s j : occurs_at sub s j → (j + length sub ≤ length s)%nat ∨ sub = [].
Proof.
  intros [k Hk]. apply (f_equal length) in Hk.
  rewrite length_drop, length_app in Hk.
  destruct sub; [by right|left]. simpl in *. lia.
Qed.

(** An occurrence inside a prefix of [s] is an occurrence in [s]. *)
Lemma occurs_take sub s i j :
  sub ≠ [] → occurs_at sub (take i s) j → occurs_at sub s j ∧ (j < i)%nat.
Proof.
  intros Hne Hocc. pose proof (occurs_length _ _ _ Hocc) as [Hlen|?]; [|done].
  rewrite length_take in Hlen.
  split.
  - destruct Hocc as [k Hk]. exists (k ++ drop i s)%list.
    rewrite app_assoc, <- Hk.
    rewrite <- (take_drop i s) at 1. rewrite drop_app_le; [done|].
    rewrite length_take. lia.
  - destruct sub; [done|]. simpl in Hlen. lia.
Qed.

Lemma drop_while_suffix p s : ∃ l, s = (l ++ drop_while p s)%list ∧ Forall (λ c, p c = true) l.
Proof.
  induction s as [|c s (l & Hl & Hall)]; simpl; [by exists []|].
  destruct (p c) eqn:Hc.
  - exists (c :: l). split; [by rewrite <- app_comm_cons, <- Hl|by constructor].
  - by exists [].
Qed.

Lemma drop_while_head p s c s' : drop_while p s = c :: s' → p c = false.
Proof.
  induction s as [|x s IH]; simpl; [done|].
  destruct (p x) eqn:Hx; [done|]. by intros [= <- _].
Qed.

(** [str_strip] removes a run of white space at each end and nothing else. *)
Lemma str_strip_spec s :
  ∃ l t, s = (l ++ str_strip s ++ t)%list ∧
         Forall (λ c, str_isspace c = true) l ∧ Forall (λ c, str_isspace c = true) t ∧
         (∀ c r, str_strip s = c :: r → str_isspace c = false) ∧
         (∀ c r, str_strip s = (r ++ [c])%list → str_isspace c = false).
Proof.
  unfold str_strip.
  destruct (drop_while_suffix str_isspace s) as (l & Hl & Hall).
  destruct (drop_while_suffix str_isspace (reverse (drop_while str_isspace s)))
    as (t & Ht & Hallt).
  set (a := drop_while str_isspace s) in *.
  set (b := drop_while str_isspace (reverse a)) in *.
  assert (a = (reverse b ++ reverse t)%list) as Ha.
  { rewrite <- reverse_app, <- Ht. by rewrite reverse_involutive. }
  exists l, (reverse t). split_and!.
  - by rewrite <- Ha.
  - done.
  - by apply Forall_reverse.
  - intros c r Hr. destruct b as [|x b'] eqn:Hb.
    + by rewrite reverse_nil in Hr.
    + destruct (reverse t) as [|y t'] eqn:Hrt.
      * rewrite app_nil_r, Hr in Ha. by apply (drop_while_head str_isspace s c r).
      * apply (drop_while_head str_isspace s c (r ++ y :: t')).
        fold a. by rewrite Ha, Hr.
  - intros c r Hr. apply (f_equal reverse) in Hr.
    rewrite reverse_involutive, reverse_snoc in Hr.
    by apply (drop_while_head str_isspace (reverse a) c (reverse r)).
Qed.

Lemma occurs_infix sub l m t j :
  occurs_at sub m j → sub ≠ [] → occurs_at sub (l ++ m ++ t) (length l + j).
Proof.
  intros Hocc Hne. pose proof (occurs_length _ _ _ Hocc) as [Hlen|?]; [|done].
  destruct Hocc as [k Hk]. exists (k ++ t)%list.
  rewrite drop_app_ge by lia.
  replace (length l + j - length l)%nat with j by lia.
  rewrite drop_app_le by lia. by rewrite Hk, app_assoc.
Qed.

(** The result of the filter never holds the marker, and filtering twice is
    filtering once. *)
Theorem truncate_at_secret_hides_marker (text : list Z) :
  str_find (truncate_at_secret text) secret_marker = -1 ∧
  truncate_at_secret (truncate_at_secret text) = truncate_at_secret text.
Proof.
  assert (str_find (truncate_at_secret text) secret_marker = -1) as Hnone.
  { unfold truncate_at_secret. destruct text as [|c text]; [done|].
    cbv zeta. case_decide as Hpos; [|lia].
    destruct (str_find_some _ _ _ eq_refl Hpos) as (j & Hj & Hocc & Hmin).
    rewrite Hj. unfold str_slice_to. rewrite decide_False by lia. rewrite Nat2Z.id.
    apply str_find_none. intros i Hi.
    destruct (str_strip_spec (take j (c :: text))) as (l & t & Hs & _).
    apply (occurs_infix _ l _ t) in Hi; [|done].
    rewrite <- Hs in Hi. apply occurs_take in Hi as [Hi Hlt]; [|done].
    by apply (Hmin _ Hlt). }
  split; [done|].
  unfold truncate_at_secret at 1.
  destruct (truncate_at_secret text) as [|c r]; [done|].
  cbv zeta. rewrite Hnone. by rewrite decide_False by lia.
Qed.

(** A text without the marker is returned as it is, white space at its ends
    included. *)
Theorem truncate_at_secret_without_marker (text : list Z) :
  (∀ j, ¬ occurs_at secret_marker text j) → truncate_at_secret text = text.
Proof.
  intros Hno. apply str_find_none in Hno. unfold truncate_at_secret.
  destruct text; [done|]. cbv zeta. rewrite Hno. by rewrite decide_False by lia.
Qed.

(** A text with the marker is cut at its first occurrence and stripped: the
    text is white space, the result, white space, the marker and a rest, the
    result neither starts nor ends with white space, and the marker does not
    occur earlier. *)
Theorem truncate_at_secret_cuts (text : list Z) (j : nat) :
  occurs_at secret_marker text j →
  ∃ l t rest,
    text = (l ++ truncate_at_secret text ++ t ++ secret_marker ++ rest)%list ∧
    Forall (λ c, str_isspace c = true) l ∧ Forall (λ c, str_isspace c = true) t ∧
    (∀ c r, truncate_at_secret text = c :: r → str_isspace c = false) ∧
    (∀ c r, truncate_at_secret text = (r ++ [c])%list → str_isspace c = false) ∧
    (∀ i, (i < length (l ++ truncate_at_secret text ++ t))%nat →
          ¬ occurs_at secret_marker text i).
Proof.
  intros Hocc.
  assert (str_find text secret_marker ≠ -1) as Hpos.
  { intros Hnone. by apply (proj1 (str_find_none _ _) Hnone j). }
  destruct (str_find_some _ _ _ eq_refl Hpos) as (i & Hi & [rest Hrest] & Hmin).
  assert (i ≤ length text)%nat as Hle.
  { destruct (decide (i ≤ length text)%nat); [done|].
    rewrite drop_ge in Hrest by lia. done. }
  assert (truncate_at_secret text = str_strip (take i text)) as ->.
  { unfold truncate_at_secret. destruct text as [|c text].
    - by rewrite drop_nil in Hrest.
    - cbv zeta. rewrite decide_True by done. rewrite Hi. unfold str_slice_to.
      rewrite decide_False by lia. by rewrite Nat2Z.id. }
  destruct (str_strip_spec (take i text)) as (l & t & Hs & Hl & Ht & Hhead & Hlast).
  exists l, t, rest. split_and!; try done.
  - rewrite !app_assoc. rewrite <- (app_assoc l), <- Hs.
    rewrite <- app_assoc, <- Hrest. by rewrite take_drop.
  - intros i'. rewrite <- Hs, length_take. intros Hlt. apply Hmin. lia.
Qed.

Lemma truncate_at_secret_without_marker_witness :
  truncate_at_secret padded_text = padded_text.
Proof.
  apply (truncate_at_secret_without_marker padded_text).
  apply str_find_none. reflexivity.
Defined.

Lemma truncate_at_secret_cuts_witness :
  ∃ l t rest,
    reasoning_with_secret
      = (l ++ truncate_at_secret reasoning_with_secret ++ t ++ secret_marker ++ rest)%list ∧
    Forall (λ c, str_isspace c = true) l ∧ Forall (λ c, str_isspace c = true) t ∧
    (∀ c r, truncate_at_secret reasoning_with_secret = c :: r → str_isspace c = false) ∧
    (∀ c r, truncate_at_secret reasoning_with_secret = (r ++ [c])%list →
            str_isspace c = false) ∧
    (∀ i, (i < length (l ++ truncate_at_secret reasoning_with_secret ++ t))%nat →
          ¬ occurs_at secret_marker reasoning_with_secret i).
Proof.
  apply (truncate_at_secret_cuts reasoning_with_secret 5).
  exists [32; 52; 50]. reflexivity.
Defined.

Example truncate_at_secret_example :
  truncate_at_secret reasoning_with_secret = [111; 107].
Proof. reflexivity. Qed.

(** ** The pages and the judgment handler *)

Section handler_properties.
Context `{RT : Runtime}.

Lemma first_pending_truthy m l t :
  first_pending m l = inr (Some t) → py_truthy t = true.
Proof.
  intros Hfp. apply first_pending_split in Hfp
    as (before & raw & rest & k & _ & _ & Hraw & _ & He).
  apply enhance_transition_id in He. unfold task_key in Hraw.
  destruct (py_getitem raw "transition_id") as [?|tid]; [done|].
  destruct t as [| | | | | |d]; try done. simpl in He.
  by destruct d.
Qed.

(** [index] shows the completion page exactly when every task of the order
    is completed; otherwise it shows the task [get_next_transition] returns,
    with the session's error categories.  Either page carries the counts of
    [get_progress]. *)
Theorem index_page (m : ValidationManager) (l : list json) :
  current_transitions m = JList l →
  ((∃ p, index m = inr (validation_completed_html p))
   ↔ Forall (is_completed m) l) ∧
  (Forall (is_completed m) l →
   index m = inr (validation_completed_html
      (Progress (Z.of_nat (size (completed_transitions m))) (Z.of_nat (length l))
         (Z.of_nat (length l) - Z.of_nat (size (completed_transitions m)))))) ∧
  (∀ t, get_next_transition m = inr (Some t) →
        index m = inr (validate_html t (error_categories m)
          (Progress (Z.of_nat (size (completed_transitions m))) (Z.of_nat (length l))
             (Z.of_nat (length l) - Z.of_nat (size (completed_transitions m)))))).
Proof.
  intros Hl.
  assert (get_progress m =
    inr (Progress (Z.of_nat (size (completed_transitions m))) (Z.of_nat (length l))
           (Z.of_nat (length l) - Z.of_nat (size (completed_transitions m)))))
    as Hp by (unfold get_progress; by rewrite Hl).
  assert (get_next_transition m = first_pending m l) as Hnext
    by (unfold get_next_transition; by rewrite Hl).
  unfold index. rewrite Hp, Hnext. split_and!.
  - rewrite <- first_pending_none.
    destruct (first_pending m l) as [e|[t|]] eqn:Hfp; simpl.
    + split; [by intros [p ?]|done].
    + rewrite (first_pending_truthy _ _ _ Hfp). simpl.
      split; [by intros [p ?]|done].
    + split; [done|eauto].
  - intros Hall. apply first_pending_none in Hall. by rewrite Hall.
  - intros t Ht. rewrite Ht. simpl.
    by rewrite (first_pending_truthy _ _ _ Ht).
Qed.

(** A [/validate] body that is a JSON object without [transition_id] or
    without [is_plausible] raises [KeyError] before anything is recorded:
    the instance, the files and the output are what they were. *)
Theorem validate_missing_field (d : dict) (st : state) :
  dict_lookup "transition_id" d = None ∨ dict_lookup "is_plausible" d = None →
  validate (JObj d) st = (st, inl KeyError).
Proof.
  intros Hmiss. unfold validate, bind, lift. simpl.
  destruct (dict_lookup "transition_id" d) as [tid|]; simpl; [|done].
  destruct Hmiss as [? | ->]; done.
Qed.

End handler_properties.

Lemma index_page_witness :
  ((∃ p, index serving_abc = inr (validation_completed_html p))
   ↔ Forall (is_completed serving_abc) three_tasks) ∧
  (Forall (is_completed serving_abc) three_tasks →
   index serving_abc = inr (validation_completed_html
      (Progress (Z.of_nat (size (completed_transitions serving_abc)))
         (Z.of_nat (length three_tasks))
         (Z.of_nat (length three_tasks)
          - Z.of_nat (size (completed_transitions serving_abc)))))) ∧
  (∀ t, get_next_transition serving_abc = inr (Some t) →
        index serving_abc = inr (validate_html t (error_categories serving_abc)
          (Progress (Z.of_nat (size (completed_transitions serving_abc)))
             (Z.of_nat (length three_tasks))
             (Z.of_nat (length three_tasks)
              - Z.of_nat (size (completed_transitions serving_abc)))))).
Proof. apply (index_page serving_abc three_tasks). reflexivity. Defined.

Lemma validate_missing_field_witness :
  validate (JObj [("transition_id", JStr "a")]) serving_abc_state
  = (serving_abc_state, inl KeyError).
Proof.
  apply (validate_missing_field [("transition_id", JStr "a")] serving_abc_state).
  right. reflexivity.
Defined.

(** ** The record and the file after a judgment *)

Section recording_exact.
Context `{RT : Runtime}.

Lemma post_conj {A} (m : M A) st (Q1 Q2 : state → result A → Prop) :
  post m st Q1 → post m st Q2 → post m st (λ st' r, Q1 st' r ∧ Q2 st' r).
Proof. unfold post. by split. Qed.

Lemma update_session_file_exact st :
  post _update_session_file st (λ st' r,
    r = inr tt →
    ∃ d0 t pct,
      fs (env st) !! session_file (self st) = Some (FJson (JObj d0)) ∧
      percentage_written (self st) pct ∧
      fs (env st') =
        <[session_file (self st) :=
            FJson (JObj
              (dict_set "progress_percentage" pct
                 (dict_set "completed_transitions"
                    (JNum (Z.of_nat (size (completed_transitions (self st)))))
                    (dict_set "last_updated" (JStr (isoformat t))
                       (dict_set "validations" (session_validations (self st))
                          d0)))))]> (fs (env st))).
Proof.
  unfold _update_session_file.
  apply post_bind, post_get_self, post_bind.
  eapply post_mono; [apply read_json_post|].
  intros st1 r ((Hs1 & Hfs1 & Hr1 & Ho1 & _) & Hread & Hplan1).
  destruct r as [e|sd0]; [done|].
  specialize (Hread _ eq_refl).
  apply post_bind, post_lift.
  destruct (py_setitem sd0 "validations" _) as [e|sd1] eqn:H1; [done|].
  apply py_setitem_inr in H1 as (d0 & -> & ->). cbv beta match.
  apply post_bind.
  eapply post_mono; [apply now_post|].
  intros st2 r (Hs2 & Hfs2 & Hr2 & Ho2 & Hp2 & [t ->]). cbv beta match.
  apply post_bind, post_lift. simpl py_setitem. cbv beta match.
  apply post_bind, post_lift. simpl py_setitem. cbv beta match.
  apply post_bind.
  set (Qpct := λ (st3 : state) (r : result json),
         st3 = st2 ∧ ∀ pct, r = inr pct → percentage_written (self st) pct).
  eapply (post_mono _ _ Qpct).
  { unfold Qpct, percentage_written. post_steps; (split; [done|]);
      intros pct [= <-]; eauto. }
  unfold Qpct. intros ? [e|pct] [-> Hpct]; [done|]. specialize (Hpct _ eq_refl).
  apply post_bind, post_lift. simpl py_setitem. cbv beta match.
  eapply post_mono; [apply write_json_post|].
  intros st3 r (Hs3 & Hr3 & Ho3 & Hfs3 & Hplan3).
  intros ->. exists d0, t, pct. split_and!; [done..|].
  by rewrite Hfs3, Hfs2, Hfs1.
Qed.

(** What [_update_session_file] writes: the session file is rewritten with
    four keys set, the judgment list, the time, the size of the completed
    set and the percentage (0 for an empty order, no division), and with
    every other key as it was read; no other file and nothing of the
    instance changes. *)
Theorem update_session_file_keeps_other_keys (st st' : state) :
  _update_session_file st = (st', inr tt) →
  self st' = self st ∧
  ∃ d0 sd,
    fs (env st) !! session_file (self st) = Some (FJson (JObj d0)) ∧
    fs (env st') = <[session_file (self st) := FJson (JObj sd)]> (fs (env st)) ∧
    dict_lookup "validations" sd = Some (session_validations (self st)) ∧
    dict_lookup "completed_transitions" sd
      = Some (JNum (Z.of_nat (size (completed_transitions (self st))))) ∧
    (∃ t, dict_lookup "last_updated" sd = Some (JStr (isoformat t))) ∧
    (∃ pct, dict_lookup "progress_percentage" sd = Some pct ∧
            percentage_written (self st) pct) ∧
    (∀ key, key ∉ ["validations"; "last_updated"; "completed_transitions";
                   "progress_percentage"] →
            dict_lookup key sd = dict_lookup key d0).
Proof.
  intros Hrun.
  pose proof (post_elim _ _ _ _ _ (update_session_file_post st) Hrun) as (Hself & _).
  destruct (post_elim _ _ _ _ _ (update_session_file_exact st) Hrun eq_refl)
    as (d0 & t & pct & Hd0 & Hpct & Hfs).
  split; [done|]. exists d0. eexists. split; [done|]. split; [exact Hfs|].
  split_and!.
  - rewrite !dict_lookup_set_ne by done. by rewrite dict_lookup_set_eq.
  - rewrite dict_lookup_set_ne by done. by rewrite dict_lookup_set_eq.
  - exists t. rewrite !dict_lookup_set_ne by done. by rewrite dict_lookup_set_eq.
  - exists pct. by rewrite dict_lookup_set_eq.
  - intros key Hkey. rewrite !dict_lookup_set_ne; [done|..];
      intros ?; subst key; apply Hkey; set_solver.
Qed.

Lemma save_validation_exact tid ip ec ce cm cf td st :
  post (save_validation tid ip ec ce cm cf td) st (λ st' r,
    r = inr tt →
    ∃ l t cfg d0 sd line,
      session_validations (self st) = JList l ∧
      config_of td cfg ∧
      session_validations (self st')
        = JList (l ++ [validation_result tid t ip ec ce cm cf td cfg]) ∧
      fs (env st) !! session_file (self st) = Some (FJson (JObj d0)) ∧
      fs (env st') = <[session_file (self st) := FJson (JObj sd)]> (fs (env st)) ∧
      dict_lookup "validations" sd = Some (session_validations (self st')) ∧
      dict_lookup "completed_transitions" sd
        = Some (JNum (Z.of_nat (size (completed_transitions (self st))))) ∧
      (∀ key, key ∉ ["validations"; "last_updated"; "completed_transitions";
                     "progress_percentage"] →
              dict_lookup key sd = dict_lookup key d0) ∧
      saved_line tid ip ec line ∧
      stdout (env st') = (stdout (env st) ++ [line])%list).
Proof.
  unfold save_validation. apply post_bind.
  eapply post_mono; [apply now_post|].
  intros st1 r (Hs1 & Hfs1 & Hr1 & Ho1 & Hp1 & [t ->]). cbv beta match.
  apply post_bind.
  set (Qcfg := λ (st2 : state) (r : result json),
         st2 = st1 ∧ ∀ cfg, r = inr cfg → config_of td cfg).
  eapply (post_mono _ _ Qcfg).
  { unfold Qcfg, config_of. post_steps; (split; [done|]); intros cfg [= <-]; eauto. }
  unfold Qcfg. intros ? [e|cfg] [-> Hcfg]; [done|]. specialize (Hcfg _ eq_refl).
  apply post_bind, post_get_self, post_bind, post_lift.
  destruct (py_append (session_validations (self st1)) _) as [e|vs] eqn:Happ; [done|].
  rewrite Hs1 in Happ. apply py_append_inr in Happ as (l & Hl & ->).
  apply post_bind, post_set_self, post_bind.
  eapply post_mono;
    [apply post_conj; [apply update_session_file_post|apply update_session_file_exact]|].
  intros st3 r [(Hs3 & Hr3 & Ho3 & _) Hexact].
  destruct r as [e|[]]; [done|].
  destruct (Hexact eq_refl) as (d0 & t' & pct & Hd0 & _ & Hfs3). clear Hexact.
  cbn [self env session_file session_validations completed_transitions
       with_session_validations] in Hs3, Ho3, Hd0, Hfs3.
  rewrite Hs1, Hfs1 in Hd0. rewrite Hs1, Hfs1 in Hfs3.
  apply post_bind. unfold add_completed. apply post_bind, post_lift.
  destruct (py_key tid) as [e|k] eqn:Hk; [done|].
  apply post_set_self, post_bind.
  set (Qline := λ (st5 : state) (r : result string),
         st5 = State (with_completed_transitions
                        ({[k]} ∪ completed_transitions (self st3)) (self st3))
                 (env st3) ∧
         ∀ status, r = inr status →
           saved_line tid ip ec ("Saved validation for " +:+ py_str tid +:+ ": "
                                  +:+ status)).
  eapply (post_mono _ _ Qline).
  { unfold Qline, saved_line. post_steps; (split; [done|]); intros status [= <-];
      eauto. }
  unfold Qline. intros st5 [e|status] [-> Hline]; [done|]. specialize (Hline _ eq_refl).
  unfold print. apply post_set_env. intros _.
  exists l, t, cfg, d0.
  match type of Hfs3 with _ = <[_ := FJson (JObj ?sd)]> _ => exists sd end.
  exists ("Saved validation for " +:+ py_str tid +:+ ": " +:+ status).
  cbn [self env fs stdout with_stdout session_validations with_completed_transitions].
  rewrite Hs3. cbn [session_validations with_session_validations].
  split_and!; try done.
  - rewrite !dict_lookup_set_ne by done. by rewrite dict_lookup_set_eq.
  - rewrite dict_lookup_set_ne by done. by rewrite dict_lookup_set_eq.
  - intros key Hkey. rewrite !dict_lookup_set_ne; [done|..];
      intros ?; subst key; apply Hkey; set_solver.
  - by rewrite Ho3, Ho1.
Qed.

(** A judgment that succeeds appends one record to the judgment list, made
    of the arguments, the clock reading and the configuration of the
    prediction; the session file then holds that list, the count of the
    tasks completed before this judgment, and every key it does not set as
    it was; one line is printed. *)
Theorem save_validation_appends_record
    (tid ip ec ce cm cf td : json) (st st' : state) :
  save_validation tid ip ec ce cm cf td st = (st', inr tt) →
  ∃ l t cfg d0 sd line,
    session_validations (self st) = JList l ∧
    config_of td cfg ∧
    session_validations (self st')
      = JList (l ++ [validation_result tid t ip ec ce cm cf td cfg]) ∧
    fs (env st) !! session_file (self st) = Some (FJson (JObj d0)) ∧
    fs (env st') = <[session_file (self st) := FJson (JObj sd)]> (fs (env st)) ∧
    dict_lookup "validations" sd = Some (session_validations (self st')) ∧
    dict_lookup "completed_transitions" sd
      = Some (JNum (Z.of_nat (size (completed_transitions (self st))))) ∧
    (∀ key, key ∉ ["validations"; "last_updated"; "completed_transitions";
                   "progress_percentage"] →
            dict_lookup key sd = dict_lookup key d0) ∧
    saved_line tid ip ec line ∧
    stdout (env st') = (stdout (env st) ++ [line])%list.
Proof.
  intros Hrun.
  exact (post_elim _ _ _ _ _ (save_validation_exact tid ip ec ce cm cf td st)
           Hrun eq_refl).
Qed.

(** A [/validate] body that leaves out the optional keys is recorded with
    an empty list of error categories, empty texts, no confidence, no task
    data and an empty configuration. *)
Theorem validate_defaults (d : dict) (st st' : state) :
  dict_lookup "error_categories" d = None →
  dict_lookup "custom_error" d = None →
  dict_lookup "comments" d = None →
  dict_lookup "confidence" d = None →
  dict_lookup "transition_data" d = None →
  validate (JObj d) st = (st', inr tt) →
  ∃ l t tid ip,
    dict_lookup "transition_id" d = Some tid ∧
    dict_lookup "is_plausible" d = Some ip ∧
    session_validations (self st) = JList l ∧
    session_validations (self st')
      = JList (l ++ [validation_result tid t ip (JList []) (JStr "") (JStr "")
                       JNull JNull (JObj [])]).
Proof.
  intros Hec Hce Hcm Hcf Htd Hrun.
  cut (post (validate (JObj d)) st (λ st' r, r = inr tt →
    ∃ l t tid ip,
      dict_lookup "transition_id" d = Some tid ∧
      dict_lookup "is_plausible" d = Some ip ∧
      session_validations (self st) = JList l ∧
      session_validations (self st')
        = JList (l ++ [validation_result tid t ip (JList []) (JStr "") (JStr "")
                         JNull JNull (JObj [])]))).
  { intros Hpost. exact (post_elim _ _ _ _ _ Hpost Hrun eq_refl). }
  unfold validate, py_getitem, py_get. rewrite Hec, Hce, Hcm, Hcf, Htd. simpl default.
  apply post_bind, post_lift.
  destruct (dict_lookup "transition_id" d) as [tid|]; [|done].
  apply post_bind, post_lift.
  destruct (dict_lookup "is_plausible" d) as [ip|]; [|done].
  do 5 apply post_bind, post_ret.
  eapply post_mono; [apply save_validation_exact|].
  intros st1 r Hok Hr.
  destruct (Hok Hr) as (l & t & cfg & d0 & sd & line & Hl & Hcfg & Hsv & _).
  exists l, t, tid, ip. split_and!; try done.
  unfold config_of in Hcfg. simpl in Hcfg. by subst cfg.
Qed.

End recording_exact.

(** ** A write that fails *)

Section write_failure_exact.
Context `{RT : Runtime}.

(** Once [save_validation] has appended its record, nothing it does
    afterwards, and no way it can fail, takes the record out again. *)
Lemma save_validation_appended tid ip ec ce cm cf td st :
  post (save_validation tid ip ec ce cm cf td) st (λ st' r,
    ∀ l cfg,
      session_validations (self st) = JList l →
      config_of td cfg →
      ∃ t, session_validations (self st')
             = JList (l ++ [validation_result tid t ip ec ce cm cf td cfg])).
Proof.
  unfold save_validation. apply post_bind.
  eapply post_mono; [apply now_post|].
  intros st1 r (Hs1 & _ & _ & _ & _ & [t ->]). cbv beta match.
  apply post_bind.
  set (Qcfg := λ (st2 : state) (r : result json),
         st2 = st1 ∧ ∀ cfg, config_of td cfg → r = inr cfg).
  eapply (post_mono _ _ Qcfg).
  { unfold Qcfg, config_of. destruct (py_truthy td) eqn:Htd.
    - apply post_bind, post_lift.
      destruct (py_get td "prediction" (JObj [])) as [e|p] eqn:Hp.
      + split; [done|]. by intros cfg (p & [=] & _).
      + apply post_lift.
        destruct (py_get p "config" (JObj [])) as [e|c] eqn:Hc;
          (split; [done|]); intros cfg (p' & [= <-] & Hcfg); congruence.
    - apply post_ret. split; [done|]. by intros cfg ->. }
  unfold Qcfg. intros ? r [-> Hcfg].
  destruct r as [e|cfg0].
  { intros l cfg _ Hc. by specialize (Hcfg _ Hc). }
  apply post_bind, post_get_self, post_bind, post_lift.
  destruct (py_append (session_validations (self st1)) _) as [e|vs] eqn:Happ.
  { intros l cfg Hl _. rewrite Hs1, Hl in Happ. done. }
  rewrite Hs1 in Happ. apply py_append_inr in Happ as (l0 & Hl0 & ->).
  apply post_bind, post_set_self, post_bind.
  assert (∀ st' : state,
    session_validations (self st')
      = JList (l0 ++ [validation_result tid t ip ec ce cm cf td cfg0]) →
    ∀ l cfg, session_validations (self st) = JList l → config_of td cfg →
      ∃ t, session_validations (self st')
             = JList (l ++ [validation_result tid t ip ec ce cm cf td cfg])) as Hdone.
  { intros st' Hsv l cfg Hl Hc. specialize (Hcfg _ Hc). injection Hcfg as ->.
    rewrite Hl0 in Hl. injection Hl as ->. by exists t. }
  eapply post_mono; [apply update_session_file_post|].
  intros st3 r (Hs3 & _). cbn [self] in Hs3.
  destruct r as [e|[]]; [apply Hdone; by rewrite Hs3|].
  apply post_bind. unfold add_completed. apply post_bind, post_lift.
  destruct (py_key tid) as [e|k] eqn:Hk; [apply Hdone; by rewrite Hs3|].
  apply post_set_self, post_bind.
  eapply (post_mono _ _ (λ st5 _, st5 =
    State (with_completed_transitions ({[k]} ∪ completed_transitions (self st3))
             (self st3)) (env st3))).
  { post_steps; reflexivity. }
  intros st5 [e|status] ->; [apply Hdone; simpl; by rewrite Hs3|].
  unfold print. apply post_set_env. apply Hdone. simpl. by rewrite Hs3.
Qed.

(** C5, amended: when an I/O attempt of the durable write fails,
    [save_validation] raises (nothing in it catches the error),
    [completed_transitions] is what it was, and so are the task
    [get_next_transition] serves and the progress.  The judgment record was
    appended to [session_validations] before the write and stays there: the
    list is the earlier list with the record at its end, and whatever
    requests follow, the next judgment that succeeds writes a list holding
    that record to the session file. *)
Theorem save_validation_write_failure
    (tid ip ec ce cm cf td cfg : json) (l : list json) (st : state) :
  session_validations (self st) = JList l →
  config_of td cfg →
  update_io_fails (env st) →
  ∃ st' e t,
    save_validation tid ip ec ce cm cf td st = (st', inl e) ∧
    completed_transitions (self st') = completed_transitions (self st) ∧
    get_next_transition (self st') = get_next_transition (self st) ∧
    get_progress (self st') = get_progress (self st) ∧
    session_validations (self st')
      = JList (l ++ [validation_result tid t ip ec ce cm cf td cfg]) ∧
    ∀ rqs tid2 ip2 ec2 ce2 cm2 cf2 td2 st2,
      save_validation tid2 ip2 ec2 ce2 cm2 cf2 td2 (after rqs st') = (st2, inr tt) →
      ∃ sd vs,
        fs (env st2) !! session_file (self st) = Some (FJson (JObj sd)) ∧
        dict_lookup "validations" sd = Some (JList vs) ∧
        validation_result tid t ip ec ce cm cf td cfg ∈ vs.
Proof.
  intros Hl Hcfg Hfail.
  pose proof (save_validation_post tid ip ec ce cm cf td st) as Hpost.
  pose proof (save_validation_appended tid ip ec ce cm cf td st) as Happ.
  unfold post in Hpost, Happ.
  destruct (save_validation tid ip ec ce cm cf td st) as [st' r]. simpl in Hpost, Happ.
  destruct Hpost as (Hframe & _ & _ & _ & _ & Hf).
  destruct (Hf Hfail) as [[e ->] Hdone].
  destruct (Happ l cfg Hl Hcfg) as [t Hsv].
  assert (current_transitions (self st') = current_transitions (self st)) as Hcur.
  { by apply (f_equal current_transitions) in Hframe. }
  assert (material_lookup (self st') = material_lookup (self st)) as Hlook.
  { by apply (f_equal material_lookup) in Hframe. }
  assert (session_file (self st') = session_file (self st)) as Hfile.
  { by apply (f_equal session_file) in Hframe. }
  exists st', e, t. split_and!; try done.
  - by apply get_next_transition_ext.
  - unfold get_progress. by rewrite Hcur, Hdone.
  - intros rqs tid2 ip2 ec2 ce2 cm2 cf2 td2 st2 Hrun.
    destruct (after_frame rqs st') as (Hframe2 & _ & Hgrow).
    destruct (Hgrow _ Hsv) as [more Hsv2].
    assert (session_file (self (after rqs st')) = session_file (self st)) as Hfile2.
    { rewrite <- Hfile. by apply (f_equal session_file) in Hframe2. }
    destruct (post_elim _ _ _ _ _
                (save_validation_exact tid2 ip2 ec2 ce2 cm2 cf2 td2 (after rqs st'))
                Hrun eq_refl)
      as (l2 & t2 & cfg2 & d0 & sd & line & Hl2 & _ & Hsv3 & _ & Hfs & Hval & _).
    rewrite Hsv2 in Hl2. injection Hl2 as <-.
    exists sd. eexists. split_and!.
    + rewrite Hfs, Hfile2. by rewrite lookup_insert_eq.
    + rewrite Hval. by rewrite Hsv3.
    + rewrite !elem_of_app. left. left. right. apply list_elem_of_singleton. done.
Qed.

End write_failure_exact.

Lemma save_validation_write_failure_witness :
  ∃ st' e t,
    judge "a" write_fails_once = (st', inl e) ∧
    completed_transitions (self st') = completed_transitions two_task_session ∧
    get_next_transition (self st') = get_next_transition two_task_session ∧
    get_progress (self st') = get_progress two_task_session ∧
    session_validations (self st')
      = JList ([] ++ [validation_result (JStr "a") t (JBool true) (JList []) (JStr "")
                        (JStr "") JNull JNull (JObj [])]) ∧
    ∀ rqs tid2 ip2 ec2 ce2 cm2 cf2 td2 st2,
      save_validation tid2 ip2 ec2 ce2 cm2 cf2 td2 (after rqs st') = (st2, inr tt) →
      ∃ sd vs,
        fs (env st2) !! session_file two_task_session = Some (FJson (JObj sd)) ∧
        dict_lookup "validations" sd = Some (JList vs) ∧
        validation_result (JStr "a") t (JBool true) (JList []) (JStr "") (JStr "")
          JNull JNull (JObj []) ∈ vs.
Proof.
  apply (save_validation_write_failure (RT:=example_runtime)
           (JStr "a") (JBool true) (JList []) (JStr "") (JStr "") JNull JNull (JObj [])
           [] write_fails_once).
  - reflexivity.
  - reflexivity.
  - right. discriminate.
Defined.

Lemma update_session_file_keeps_other_keys_witness :
  self (_update_session_file serving_abc_state).1 = self serving_abc_state.
Proof.
  refine (proj1 (update_session_file_keeps_other_keys serving_abc_state _ _)).
  unfold serving_abc_state.
  apply (run_ok _update_session_file
           (State serving_abc
              (example_world [("s.json", FJson (JObj [("validations", JList [])]))] []))
           tt).
  vm_compute. reflexivity.
Defined.

Lemma save_validation_appends_record_witness :
  ∃ l t cfg,
    session_validations (self serving_abc_state) = JList l ∧
    session_validations (self (judge "b" serving_abc_state).1)
      = JList (l ++ [validation_result (JStr "b") t (JBool true) (JList []) (JStr "")
                       (JStr "") JNull JNull cfg]).
Proof.
  destruct (save_validation_appends_record (JStr "b") (JBool true) (JList [])
              (JStr "") (JStr "") JNull JNull serving_abc_state
              (judge "b" serving_abc_state).1)
    as (l & t & cfg & _ & _ & _ & Hl & _ & Hsv & _).
  - unfold serving_abc_state, judge.
    apply (run_ok (save_validation (JStr "b") (JBool true) (JList []) (JStr "")
                     (JStr "") JNull JNull)
             (State serving_abc
                (example_world [("s.json", FJson (JObj [("validations", JList [])]))] []))
             tt).
    vm_compute. reflexivity.
  - exists l, t, cfg. split; [exact Hl|exact Hsv].
Defined.

Lemma validate_defaults_witness :
  ∃ l t tid ip,
    dict_lookup "transition_id" [("transition_id", JStr "b"); ("is_plausible", JBool false)]
      = Some tid ∧
    dict_lookup "is_plausible" [("transition_id", JStr "b"); ("is_plausible", JBool false)]
      = Some ip ∧
    session_validations (self serving_abc_state) = JList l ∧
    session_validations
      (self (validate (JObj [("transition_id", JStr "b"); ("is_plausible", JBool false)])
               serving_abc_state).1)
      = JList (l ++ [validation_result tid t ip (JList []) (JStr "") (JStr "")
                       JNull JNull (JObj [])]).
Proof.
  apply (validate_defaults [("transition_id", JStr "b"); ("is_plausible", JBool false)]
           serving_abc_state);
    [reflexivity|reflexivity|reflexivity|reflexivity|reflexivity|].
  unfold serving_abc_state.
  apply (run_ok (validate (JObj [("transition_id", JStr "b"); ("is_plausible", JBool false)]))
           (State serving_abc
              (example_world [("s.json", FJson (JObj [("validations", JList [])]))] []))
           tt).
  vm_compute. reflexivity.
Defined.

(** ** Resuming, further *)

Section resume_frame.
Context `{RT : Runtime}.

Lemma resume_frame_post p df st :
  post (resume_from_session p df) st (λ st' r,
    fs (env st') = fs (env st) ∧
    (r = inr tt →
     ∃ sd dfile,
       fs (env st) !! Path p = Some (FJson sd) ∧
       dataset_path df sd (env st) dfile ∧
       data_file (self st') = dfile ∧
       results_dir (self st') = path_parent (Path p) ∧
       py_get sd "session_name" JNull = inr (session_name (self st')) ∧
       py_getitem sd "session_id" = inr (session_id (self st')) ∧
       py_get sd "error_categories" (JList []) = inr (error_categories (self st')))).
Proof.
  unfold resume_from_session. cbv zeta.
  apply post_bind. post_prim. cbv beta match.
  apply post_bind. post_step; [post_step|by post_step]. cbv beta match.
  apply post_bind.
  eapply post_mono; [apply read_json_post|].
  intros st1 r ((Hs1 & Hfs1 & Hr1 & Ho1 & _) & Hread & _).
  destruct r as [e|sd]; [done|]. specialize (Hread sd eq_refl).
  apply post_bind.
  eapply (post_mono _ _ (λ st2 r, st2 = st1 ∧
            ∀ dfile, r = inr dfile → dataset_path df sd (env st) dfile)).
  { unfold dataset_path. rewrite <- Hfs1.
    repeat first [post_step | post_prim]; (split; [done|]);
      intros dfile' Heq; simplify_eq; try done.
    split; [done|]. by apply (bool_decide_eq_true_1 _). }
  intros ? [e|dfile] [-> Hdfile]; [done|]. specialize (Hdfile _ eq_refl).
  apply post_bind, post_lift.
  destruct (py_get sd "session_name" JNull) as [e|sname] eqn:Hsn; [done|].
  apply post_bind, post_lift.
  destruct (py_get sd "random_seed" (JNum 42)) as [e|seed] eqn:Hseed; [done|].
  do 4 (apply post_bind, post_set_self).
  apply post_bind, post_lift.
  destruct (py_getitem sd "session_id") as [e|sid] eqn:Hsid; [done|].
  do 6 (apply post_bind, post_set_self).
  apply post_bind, post_lift.
  destruct (py_get sd "error_categories" (JList [])) as [e|cats] eqn:Hcats; [done|].
  apply post_bind, post_set_self.
  cbn [self env].
  match goal with
  | |- post _ (State ?m _) _ =>
      assert (data_file m = dfile ∧ results_dir m = path_parent (Path p) ∧
              session_name m = sname ∧ session_id m = sid ∧
              error_categories m = cats) as (Hd1 & Hrd1 & Hsn1 & Hsid1 & Hcat1)
        by (split_and!; reflexivity);
      generalize dependent m; intros m1 Hd1 Hrd1 Hsn1 Hsid1 Hcat1
  end.
  apply post_bind.
  eapply post_mono; [apply load_data_post|].
  intros st2 r ((Hf2 & Hfs2 & Hr2) & _). cbn [self env] in Hf2, Hfs2.
  destruct r as [e|[]]; [split; [congruence|done]|].
  apply post_bind.
  eapply post_mono; [apply build_material_lookup_post|].
  intros st3 r (Hf3 & Hfs3 & Hr3 & _).
  destruct r as [e|[]]; [split; [congruence|done]|].
  apply post_bind.
  eapply post_mono; [apply randomize_post|].
  intros st4 r (Hf4 & Hfs4 & _).
  destruct r as [e|[]]; [split; [congruence|done]|].
  apply post_bind, post_lift.
  destruct (py_get sd "validations" (JList [])) as [e|vj] eqn:Hvj;
    [split; [congruence|done]|].
  apply post_bind, post_set_self, post_bind, post_set_self.
  apply post_bind, post_lift.
  destruct (py_iter vj) as [e|vs] eqn:Hvs; [split; [simpl; congruence|done]|].
  apply post_bind.
  eapply post_mono; [apply restore_validations_post|].
  intros st5 r (Hf5 & Henv5 & _). cbn [self env] in Hf5, Henv5.
  destruct r as [e|[]]; [split; [congruence|done]|].
  apply post_bind. unfold print at 1. apply post_set_env.
  apply post_bind, post_get_self, post_bind, post_lift.
  cbn [self env].
  destruct (py_len (current_transitions (self st5))) as [e|n'] eqn:Hn';
    [split; [simpl; congruence|done]|].
  unfold print. apply post_set_env. cbn [self env fs with_stdout].
  split; [congruence|]. intros _. exists sd, dfile.
  pose proof (f_equal data_file Hf5) as Ha5.
  pose proof (f_equal results_dir Hf5) as Hb5.
  pose proof (f_equal session_name Hf5) as Hc5.
  pose proof (f_equal session_id Hf5) as Hd5.
  pose proof (f_equal error_categories Hf5) as He5.
  pose proof (f_equal data_file Hf4) as Ha4.
  pose proof (f_equal results_dir Hf4) as Hb4.
  pose proof (f_equal session_name Hf4) as Hc4.
  pose proof (f_equal session_id Hf4) as Hd4.
  pose proof (f_equal error_categories Hf4) as He4.
  pose proof (f_equal data_file Hf3) as Ha3.
  pose proof (f_equal results_dir Hf3) as Hb3.
  pose proof (f_equal session_name Hf3) as Hc3.
  pose proof (f_equal session_id Hf3) as Hd3.
  pose proof (f_equal error_categories Hf3) as He3.
  pose proof (f_equal data_file Hf2) as Ha2.
  pose proof (f_equal results_dir Hf2) as Hb2.
  pose proof (f_equal session_name Hf2) as Hc2.
  pose proof (f_equal session_id Hf2) as Hd2.
  pose proof (f_equal error_categories Hf2) as He2.
  cbn in Ha5, Hb5, Hc5, Hd5, He5, Ha4, Hb4, Hc4, Hd4, He4,
         Ha3, Hb3, Hc3, Hd3, He3, Ha2, Hb2, Hc2, Hd2, He2.
  split_and!; try done; congruence.
Qed.

End resume_frame.

Section resume_more.
Context `{RT : Runtime}.

(** Resuming never writes a file, whether it succeeds or raises. *)
Theorem resume_never_writes (p : string) (df : option string) (st : state) :
  fs (env (resume_from_session p df st).1) = fs (env st).
Proof. exact (proj1 (resume_frame_post p df st)). Qed.

(** A successful resume takes the session's name, id and error categories
    from the session file, its results directory from the place of that
    file, and its dataset path from the argument when one is given and from
    [source_data_file] of the session file, which must then exist,
    otherwise. *)
Theorem resume_restores_identity (p : string) (df : option string) (st st' : state) :
  resume_from_session p df st = (st', inr tt) →
  ∃ sd dfile,
    fs (env st) !! Path p = Some (FJson sd) ∧
    dataset_path df sd (env st) dfile ∧
    data_file (self st') = dfile ∧
    results_dir (self st') = path_parent (Path p) ∧
    session_file (self st') = Path p ∧
    py_get sd "session_name" JNull = inr (session_name (self st')) ∧
    py_getitem sd "session_id" = inr (session_id (self st')) ∧
    py_get sd "error_categories" (JList []) = inr (error_categories (self st')).
Proof.
  intros Hrun.
  destruct (post_elim _ _ _ _ _ (resume_frame_post p df st) Hrun) as [_ Hok].
  destruct (Hok eq_refl) as (sd & dfile & Hsd & Hpath & Hd & Hrd & Hsn & Hsid & Hcat).
  destruct (post_elim _ _ _ _ _ (resume_from_session_post p df st) Hrun eq_refl)
    as (sd' & ? & ? & ? & ? & ? & _ & _ & _ & _ & _ & _ & _ & _ & Hfile & _).
  exists sd, dfile. by split_and!.
Qed.

(** Without the session file, resuming raises [FileNotFoundError] with the
    path as it was given, and nothing has changed. *)
Theorem resume_missing_session_file (p : string) (df : option string) (st : state) :
  fs (env st) !! Path p = None →
  resume_from_session p df st
    = (st, inl (FileNotFoundError ("Session file not found: " +:+ p))).
Proof.
  intros Hnone. unfold resume_from_session, path_exists, bind, get_env, ret. simpl.
  rewrite Hnone. by rewrite bool_decide_eq_false_2 by (by intros [? ?]).
Qed.

(** Without a dataset argument, a session file that names no dataset, or
    one that does not exist, makes resuming raise [FileNotFoundError], and
    nothing has changed. *)
Theorem resume_without_dataset (p : string) (d : dict) (st : state) :
  fs (env st) !! Path p = Some (FJson (JObj d)) →
  io_plan (env st) = [] →
  dict_lookup "source_data_file" d = None ∨
    (∃ s, dict_lookup "source_data_file" d = Some (JStr s) ∧ fs (env st) !! s = None) →
  resume_from_session p None st
    = (st, inl (FileNotFoundError
                  "Original data file not found, please specify with --data-file")).
Proof.
  intros Hsd Hplan Hmiss.
  unfold resume_from_session, path_exists, read_json, next_io, bind, get_env, ret,
    lift, raise. simpl.
  rewrite Hsd. rewrite bool_decide_eq_true_2 by eauto. rewrite Hplan, Hsd.
  unfold py_get at 1.
  destruct Hmiss as [Hnone|(s & Hs & Hnone)].
  - by rewrite Hnone.
  - rewrite Hs. simpl. destruct (negb (negb (s =? ""))%string) eqn:Hempty; [done|].
    rewrite Hnone. by rewrite bool_decide_eq_false_2 by (by intros [? ?]).
Qed.

End resume_more.

Section skips_lost.
Context `{RT : Runtime}.

(** A skip writes nothing: after any run of skips the files, the output and
    the generator are what they were, so that a session resumed afterwards
    is the session that would have been resumed before them. *)
Theorem skips_are_not_persisted (rqs : list request) (st : state) :
  forallb is_skip rqs = true →
  env (after rqs st) = env st ∧
  ∀ p df m, resume_from_session p df (State m (env (after rqs st)))
            = resume_from_session p df (State m (env st)).
Proof.
  intros Hskips.
  assert (env (after rqs st) = env st) as Henv.
  { revert st. induction rqs as [|rq rqs IH]; intros st; simpl; [done|].
    simpl in Hskips. apply andb_true_iff in Hskips as [Hrq Hrqs].
    rewrite (IH Hrqs). destruct rq as [| data]; [done|]. apply skip_env. }
  split; [done|]. intros p df m. by rewrite Henv.
Qed.

End skips_lost.

(** ** Starting from the command line *)

Section main_properties.
Context `{RT : Runtime}.

Lemma post_assign_manager (ctor : M unit) st (Q : state → Prop) :
  post ctor st (λ st' r, r = inr tt → Q st') →
  post (assign_manager ctor) st (λ st' r, r = inr tt → Q st').
Proof.
  unfold post, assign_manager. destruct (ctor st) as [st' [e|[]]]; simpl; [done|].
  auto.
Qed.

Lemma main_post a st :
  post (main a) st (λ st' r,
    r = inr tt →
    is_Some (fs (env st) !! args.data_file a) →
    (∃ out, stdout (env st') = (out ++ start_lines a)%list) ∧
    if py_truthy (opt_str (args.resume_session a)) then
      fs (env st') = fs (env st) ∧
      data_file (self st') = args.data_file a ∧
      ∃ s, args.resume_session a = Some s ∧ session_file (self st') = Path s
    else
      random_seed (self st') = JNum (args.random_seed a) ∧
      completed_transitions (self st') = ∅ ∧
      session_validations (self st') = JList [] ∧
      generated_order (JNum (args.random_seed a)) (transitions (self st'))
        = inr (current_transitions (self st')) ∧
      ∃ d, fs (env st') !! session_file (self st') = Some (FJson (JObj d)) ∧
           dict_lookup "random_seed" d = Some (JNum (args.random_seed a))).
Proof.
  unfold main. apply post_bind. post_prim. cbv beta match.
  destruct (bool_decide (is_Some (fs (env st) !! args.data_file a))) eqn:Hfound;
    simpl negb; cbv iota.
  2:{ apply bool_decide_eq_false_1 in Hfound.
      apply post_bind. unfold print. apply post_set_env, post_set_env. done. }
  apply post_bind.
  destruct (py_truthy (opt_str (args.resume_session a))) eqn:Hresume.
  - destruct (args.resume_session a) as [s|] eqn:Hs; [|done]. simpl default.
    eapply post_mono.
    { apply (post_assign_manager _ _ (λ st1,
        fs (env st1) = fs (env st) ∧ data_file (self st1) = args.data_file a ∧
        session_file (self st1) = Path s)).
      eapply post_mono;
        [apply post_conj; [apply resume_frame_post|apply resume_from_session_post]|].
      intros st1 r [[Hfs Hok] Hpost] ->.
      destruct (Hok eq_refl) as (sd & dfile & _ & Hpath & Hd & _).
      destruct (Hpost eq_refl)
        as (? & ? & ? & ? & ? & ? & _ & _ & _ & _ & _ & _ & _ & _ & Hfile & _).
      simpl in Hpath. by subst dfile. }
    intros st1 [e|[]] Hok; [done|]. destruct (Hok eq_refl) as (Hfs & Hd & Hfile).
    cbv beta match iota. apply post_bind. unfold print. apply post_set_env, post_set_env.
    cbn [self env fs stdout with_stdout]. intros _ _. split.
    + exists (stdout (env st1)). unfold start_lines. by rewrite <- app_assoc.
    + split_and!; [done..|]. by exists s.
  - eapply post_mono.
    { apply (post_assign_manager _ _ (λ st1,
        random_seed (self st1) = JNum (args.random_seed a) ∧
        completed_transitions (self st1) = ∅ ∧
        session_validations (self st1) = JList [] ∧
        generated_order (JNum (args.random_seed a)) (transitions (self st1))
          = inr (current_transitions (self st1)) ∧
        ∃ d, fs (env st1) !! session_file (self st1) = Some (FJson (JObj d)) ∧
             dict_lookup "random_seed" d = Some (JNum (args.random_seed a)))).
      eapply post_mono; [apply init_post|].
      intros st1 r Hpost ->.
      destruct (Hpost eq_refl) as (Hsv & Hc & Hseed & Hfile & Hgen).
      split_and!; try done. by apply Hgen. }
    intros st1 [e|[]] Hok; [done|]. specialize (Hok eq_refl).
    cbv beta match iota. apply post_bind. unfold print. apply post_set_env, post_set_env.
    cbn [self env fs stdout with_stdout]. intros _ _. split; [|done].
    exists (stdout (env st1)). unfold start_lines. by rewrite <- app_assoc.
Qed.

(** Without the dataset file, [main] prints two lines and returns: no
    manager is made, no session file is written, no server line is
    printed. *)
Theorem main_missing_data_file (a : args.namespace) (st : state) :
  fs (env st) !! args.data_file a = None →
  main a st =
    (State (self st)
       (with_stdout
          (stdout (env st) ++
           ["Error: Data file " +:+ args.data_file a +:+ " not found";
            "Please prepare transition data first"])%list
          (env st)),
     inr tt).
Proof.
  intros Hnone. unfold main, path_exists, print, bind, get_env, set_env, ret. simpl.
  rewrite Hnone. rewrite bool_decide_eq_false_2 by (by intros [? ?]). simpl.
  by rewrite <- app_assoc.
Qed.

(** Resuming from the command line always passes the dataset argument, its
    default included: the restored manager has that path and not the
    [source_data_file] the session file records; no file is written. *)
Theorem main_resume_uses_data_file_argument
    (a : args.namespace) (s : string) (st st' : state) :
  is_Some (fs (env st) !! args.data_file a) →
  args.resume_session a = Some s → s ≠ "" →
  main a st = (st', inr tt) →
  data_file (self st') = args.data_file a ∧
  session_file (self st') = Path s ∧
  fs (env st') = fs (env st) ∧
  ∃ out, stdout (env st') = (out ++ start_lines a)%list.
Proof.
  intros Hfile Hs Hne Hrun.
  destruct (post_elim _ _ _ _ _ (main_post a st) Hrun eq_refl Hfile) as [Hout Hres].
  rewrite Hs in Hres. simpl in Hres.
  assert (negb (s =? "")%string = true) as Hne'.
  { apply negb_true_iff, String.eqb_neq. done. }
  rewrite Hne' in Hres. destruct Hres as (Hfs & Hd & s' & [= <-] & Hsf).
  by split_and!.
Qed.

(** A session started from the command line is always seeded, with 42
    unless another seed is given: its order is the one the seed generates,
    nothing is completed, and the session file it wrote records the seed. *)
Theorem main_new_session_is_seeded (a : args.namespace) (st st' : state) :
  is_Some (fs (env st) !! args.data_file a) →
  py_truthy (opt_str (args.resume_session a)) = false →
  main a st = (st', inr tt) →
  random_seed (self st') = JNum (args.random_seed a) ∧
  completed_transitions (self st') = ∅ ∧
  session_validations (self st') = JList [] ∧
  generated_order (JNum (args.random_seed a)) (transitions (self st'))
    = inr (current_transitions (self st')) ∧
  (∃ d, fs (env st') !! session_file (self st') = Some (FJson (JObj d)) ∧
        dict_lookup "random_seed" d = Some (JNum (args.random_seed a))) ∧
  ∃ out, stdout (env st') = (out ++ start_lines a)%list.
Proof.
  intros Hfile Hnew Hrun.
  destruct (post_elim _ _ _ _ _ (main_post a st) Hrun eq_refl Hfile) as [Hout Hres].
  rewrite Hnew in Hres. destruct Hres as (? & ? & ? & ? & ?). by split_and!.
Qed.

End main_properties.

Lemma skips_are_not_persisted_witness :
  env (after [Skip (JObj [("transition_id", JStr "b")]);
              Skip (JObj [("transition_id", JStr "zz")])] serving_abc_state)
  = env serving_abc_state.
Proof.
  refine (proj1 (skips_are_not_persisted
                   [Skip (JObj [("transition_id", JStr "b")]);
                    Skip (JObj [("transition_id", JStr "zz")])] serving_abc_state _)).
  reflexivity.
Defined.

Lemma resume_restores_identity_witness :
  ∃ sd dfile,
    fs (env resumable) !! "s.json" = Some (FJson sd) ∧
    dataset_path None sd (env resumable) dfile ∧
    data_file (self (resume_from_session "s.json" None resumable).1) = dfile.
Proof.
  destruct (resume_restores_identity "s.json" None resumable
              (resume_from_session "s.json" None resumable).1)
    as (sd & dfile & Hsd & Hpath & Hd & _).
  - unfold resumable.
    apply (run_ok (resume_from_session "s.json" None)
             (State blank
                (example_world [("data.json", FJson (JObj two_predictions));
                                ("s.json", FJson (JObj miscounted_session))] []))
             tt).
    vm_compute. reflexivity.
  - exists sd, dfile. split_and!; [exact Hsd|exact Hpath|exact Hd].
Defined.

Lemma resume_missing_session_file_witness :
  resume_from_session "other.json" None resumable
  = (resumable, inl (FileNotFoundError "Session file not found: other.json")).
Proof.
  apply (resume_missing_session_file "other.json" None resumable). reflexivity.
Defined.

Lemma resume_without_dataset_witness :
  resume_from_session "s.json" None serving_abc_state
  = (serving_abc_state,
     inl (FileNotFoundError
            "Original data file not found, please specify with --data-file")).
Proof.
  apply (resume_without_dataset "s.json" [("validations", JList [])] serving_abc_state).
  - reflexivity.
  - reflexivity.
  - left. reflexivity.
Defined.

Lemma main_missing_data_file_witness :
  main cli_resume serving_abc_state =
    (State (self serving_abc_state)
       (with_stdout
          (stdout (env serving_abc_state) ++
           ["Error: Data file " +:+ args.data_file cli_resume +:+ " not found";
            "Please prepare transition data first"])%list
          (env serving_abc_state)),
     inr tt).
Proof. apply (main_missing_data_file cli_resume serving_abc_state). reflexivity. Defined.

Lemma main_resume_uses_data_file_argument_witness :
  data_file (self (main cli_resume resumable).1) = args.data_file cli_resume ∧
  session_file (self (main cli_resume resumable).1) = "s.json" ∧
  fs (env (main cli_resume resumable).1) = fs (env resumable) ∧
  ∃ out, stdout (env (main cli_resume resumable).1) = (out ++ start_lines cli_resume)%list.
Proof.
  apply (main_resume_uses_data_file_argument cli_resume "s.json" resumable).
  - vm_compute. eauto.
  - reflexivity.
  - done.
  - unfold resumable.
    apply (run_ok (main cli_resume)
             (State blank
                (example_world [("data.json", FJson (JObj two_predictions));
                                ("s.json", FJson (JObj miscounted_session))] []))
             tt).
    vm_compute. reflexivity.
Defined.

Lemma main_new_session_is_seeded_witness :
  random_seed (self (main cli_new run_start).1) = JNum 42 ∧
  completed_transitions (self (main cli_new run_start).1) = ∅.
Proof.
  destruct (main_new_session_is_seeded cli_new run_start (main cli_new run_start).1)
    as (Hseed & Hc & _).
  - vm_compute. eauto.
  - reflexivity.
  - unfold run_start.
    apply (run_ok (main cli_new)
             (State blank (example_world [("data.json", FJson (JObj two_good))] []))
             tt).
    vm_compute. reflexivity.
  - split; [exact Hseed|exact Hc].
Defined.

(** ** Building the name table *)

Section building.
Context `{RT : Runtime}.

Lemma post_for_each_all {A} (l : list A) (body : A → M unit)
    (I : state → Prop) (R : state → state → Prop) (P : A → state → Prop) st :
  (∀ s, R s s) → (∀ a b c, R a b → R b c → R a c) →
  (∀ x a b, P x a → R a b → P x b) →
  I st →
  (∀ x st1, x ∈ l → I st1 →
     post (body x) st1 (λ st2 r, I st2 ∧ R st1 st2 ∧ (r = inr tt → P x st2))) →
  post (for_each l body) st (λ st' r,
    I st' ∧ R st st' ∧ (r = inr tt → ∀ x, x ∈ l → P x st')).
Proof.
  intros Hrefl Htrans Hstable. revert st.
  induction l as [|x l IH]; intros st HI Hbody.
  { simpl. apply post_ret. split_and!; [done..|]. intros _ y Hy. by inversion Hy. }
  simpl. apply post_bind.
  eapply post_mono; [apply Hbody; [left | done]|].
  intros st1 [e|[]] (HI1 & HR1 & HP1); [by split_and!|].
  eapply post_mono; [apply IH; [done|]|].
  { intros y st2 Hy. apply Hbody. by right. }
  intros st2 r (HI2 & HR2 & HP2). split_and!; [done|by eauto|].
  intros Hr y Hy. apply elem_of_cons in Hy as [->|Hy]; [|by apply HP2].
  eapply Hstable; [by apply HP1|done].
Qed.

(** The table is only added to, and nothing else changes. *)
Definition grows (a b : state) : Prop :=
  with_material_lookup ∅ (self b) = with_material_lookup ∅ (self a) ∧
  env b = env a ∧
  ∀ k, is_Some (material_lookup (self a) !! k) →
       is_Some (material_lookup (self b) !! k).

(** Every entry of the table names a material of one of the tasks [ts]. *)
Definition sound (ts : list json) (st : state) : Prop :=
  ∀ k v, material_lookup (self st) !! k = Some v →
         ∃ t material, t ∈ ts ∧ material_of t material ∧ named_material material k v.

Definition has_names (material : json) (st : state) : Prop :=
  ∀ k v, named_material material k v → is_Some (material_lookup (self st) !! k).

Lemma grows_refl st : grows st st.
Proof. by split_and!. Qed.

Lemma grows_trans a b c : grows a b → grows b c → grows a c.
Proof.
  intros (Hf1 & He1 & Hd1) (Hf2 & He2 & Hd2). split_and!; [congruence..|].
  intros k Hk. by apply Hd2, Hd1.
Qed.

Lemma has_names_grows material a b : has_names material a → grows a b → has_names material b.
Proof. intros Hn (_ & _ & Hd) k v Hkv. apply Hd. by eapply Hn. Qed.

Lemma add_material_post ts t material st :
  t ∈ ts → material_of t material → sound ts st →
  post (add_material material) st (λ st' r,
    sound ts st' ∧ grows st st' ∧ (r = inr tt → has_names material st')).
Proof.
  intros Ht Hmat Hsound. unfold add_material.
  apply post_bind, post_lift.
  destruct (py_in "barcode" material) as [e|has_barcode] eqn:Hb;
    [by split_and!; try apply grows_refl|].
  apply post_bind.
  eapply (post_mono _ _ (λ st1 r, st1 = st ∧
            ∀ b, r = inr b →
                 if has_barcode then py_in "name" material = inr b else b = false)).
  { destruct has_barcode;
      [apply post_lift; destruct (py_in "name" material) as [|[]]|apply post_ret];
      split; try done; by intros ? [= <-]. }
  intros ? [e|has_name] [-> Hname]; [by split_and!; try apply grows_refl|].
  specialize (Hname _ eq_refl).
  destruct has_name.
  - apply post_bind, post_lift.
    destruct (py_getitem material "name") as [e|name] eqn:Hgn;
      [by split_and!; try apply grows_refl|].
    apply post_bind, post_lift.
    destruct (py_getitem material "barcode") as [e|barcode] eqn:Hgb;
      [by split_and!; try apply grows_refl|].
    apply post_bind, post_lift.
    destruct (py_key barcode) as [e|k] eqn:Hk;
      [by split_and!; try apply grows_refl|].
    apply post_set_self. split_and!.
    + intros k' v'. cbn [self material_lookup with_material_lookup].
      destruct (decide (k' = k)) as [->|Hne].
      * rewrite lookup_insert_eq. intros [= <-].
        exists t, material. split_and!; [done..|]. split; [done|]. eauto.
      * rewrite lookup_insert_ne by done. apply Hsound.
    + split_and!; [done..|]. intros k'. cbn [self material_lookup with_material_lookup].
      destruct (decide (k' = k)) as [->|Hne].
      * rewrite lookup_insert_eq. eauto.
      * by rewrite lookup_insert_ne.
    + intros _ k' v' (Hname' & b' & Hb' & Hk').
      cbn [self material_lookup with_material_lookup].
      rewrite Hgb in Hb'. injection Hb' as <-. rewrite Hk in Hk'. injection Hk' as <-.
      rewrite lookup_insert_eq. eauto.
  - apply post_ret. split_and!; [done|apply grows_refl|].
    intros _ k v (Hname' & b' & Hb' & Hk').
    exfalso. destruct material as [| | | | | |d]; try done.
    simpl in Hb, Hname', Hb', Hname.
    destruct (dict_lookup "barcode" d) eqn:Hlb; [|done].
    destruct (dict_lookup "name" d) eqn:Hln; [|done].
    injection Hb as <-. done.
Qed.

Lemma add_materials_post ts t l st :
  t ∈ ts → (∀ material, material ∈ l → material_of t material) → sound ts st →
  post (for_each l add_material) st (λ st' r,
    sound ts st' ∧ grows st st' ∧
    (r = inr tt → ∀ material, material ∈ l → has_names material st')).
Proof.
  intros Ht Hl Hsound.
  apply (post_for_each_all l add_material (sound ts) grows has_names);
    [apply grows_refl|apply grows_trans|apply has_names_grows|done|].
  intros material st1 Hin Hs1. apply (add_material_post ts t); auto.
Qed.

Lemma py_get_getitem v k dflt x y :
  py_get v k dflt = inr x → py_getitem v k = inr y → x = y.
Proof.
  destruct v as [| | | | | |d]; simpl; try done.
  destruct (dict_lookup k d); simpl; congruence.
Qed.

Definition task_has_names (t : json) (st : state) : Prop :=
  ∀ material, material_of t material → has_names material st.

Lemma task_has_names_grows t a b : task_has_names t a → grows a b → task_has_names t b.
Proof. intros Hn Hg material Hm. eapply has_names_grows; [by apply Hn|done]. Qed.

Lemma index_transition_post ts t st :
  t ∈ ts → sound ts st →
  post (index_transition t) st (λ st' r,
    sound ts st' ∧ grows st st' ∧ (r = inr tt → task_has_names t st')).
Proof.
  intros Ht Hsound. unfold index_transition.
  apply post_bind, post_lift.
  destruct (py_get t "input_materials" JNull) as [e|ims] eqn:Hims;
    [by split_and!; try apply grows_refl|].
  apply post_bind.
  eapply (post_mono _ _ (λ st1 r,
            sound ts st1 ∧ grows st st1 ∧
            (r = inr tt → ∀ material,
               (∃ l, py_truthy ims = true ∧ py_iter ims = inr l ∧ material ∈ l) →
               has_names material st1))).
  { destruct (py_truthy ims) eqn:Htruthy.
    - apply post_bind, post_lift.
      destruct (py_getitem t "input_materials") as [e|ims'] eqn:Hims';
        [by split_and!; try apply grows_refl|].
      pose proof (py_get_getitem _ _ _ _ _ Hims Hims') as <-.
      apply post_bind, post_lift.
      destruct (py_iter ims) as [e|l] eqn:Hl; [by split_and!; try apply grows_refl|].
      eapply post_mono; [apply (add_materials_post ts t l); [done| |done]|].
      + intros material Hin. left. by exists ims, l.
      + intros st1 r (Hs1 & Hg1 & Hn1). split_and!; [done..|].
        intros Hr material (l' & _ & [= <-] & Hin). by apply Hn1.
    - apply post_ret. split_and!; [done|apply grows_refl|].
      by intros _ material (l & ? & _). }
  intros st1 [e|[]] (Hs1 & Hg1 & Hn1); [by split_and!|]. specialize (Hn1 eq_refl).
  apply post_bind, post_lift.
  destruct (py_get t "prediction" (JObj [])) as [e|p1] eqn:Hp1; [by split_and!|].
  apply post_bind, post_lift.
  destruct (py_get p1 "prediction" (JObj [])) as [e|p2] eqn:Hp2; [by split_and!|].
  apply post_bind, post_lift.
  destruct (py_get p2 "new_materials" (JList [])) as [e|nm] eqn:Hnm; [by split_and!|].
  apply post_bind, post_lift.
  destruct (py_iter nm) as [e|l] eqn:Hl; [by split_and!|].
  eapply post_mono; [apply (add_materials_post ts t l); [done| |done]|].
  - intros material Hin. right. by exists p1, p2, nm, l.
  - intros st2 r (Hs2 & Hg2 & Hn2). split_and!; [done|by eapply grows_trans|].
    intros Hr material [(ims' & l' & Hi & Ht' & Hl' & Hin)|
                        (p1' & p2' & nm' & l' & H1 & H2 & H3 & H4 & Hin)].
    + rewrite Hims in Hi. injection Hi as <-.
      eapply has_names_grows; [|exact Hg2]. apply Hn1. by exists l'.
    + rewrite Hp1 in H1. injection H1 as <-. rewrite Hp2 in H2. injection H2 as <-.
      rewrite Hnm in H3. injection H3 as <-. rewrite Hl in H4. injection H4 as <-.
      by apply Hn2.
Qed.

Lemma build_table_post st :
  post _build_material_lookup st (λ st' r,
    ∀ ts, py_iter (transitions (self st)) = inr ts →
      sound ts st' ∧
      (r = inr tt → ∀ t, t ∈ ts → task_has_names t st')).
Proof.
  unfold _build_material_lookup.
  apply post_bind, post_set_self, post_bind, post_get_self, post_bind, post_lift.
  cbn [self env transitions with_material_lookup].
  destruct (py_iter (transitions (self st))) as [e|ts] eqn:Hts; [done|].
  assert (sound ts (State (with_material_lookup ∅ (self st)) (env st))) as Hempty.
  { intros k v. cbn [self material_lookup with_material_lookup].
    by rewrite lookup_empty. }
  apply post_bind.
  eapply post_mono.
  { apply (post_for_each_all ts index_transition (sound ts) grows task_has_names);
      [apply grows_refl|apply grows_trans|apply task_has_names_grows|exact Hempty|].
    intros t st1 Hin Hs1. by apply index_transition_post. }
  intros st1 [e|[]] (Hs1 & Hg1 & Hn1); [by intros ? [= <-]|].
  apply post_bind, post_get_self. unfold print. apply post_set_env.
  intros ? [= <-]. cbn [self env]. split; [done|]. intros _. by apply Hn1.
Qed.

(** [_build_material_lookup] rebuilds the table from the loaded tasks
    alone: every entry is the barcode and the name of a material of one of
    the tasks, whatever the table held before, and every material of a task
    that has a barcode and a name has its barcode in the table. *)
Theorem build_material_lookup_table (st st' : state) (ts : list json) :
  py_iter (transitions (self st)) = inr ts →
  _build_material_lookup st = (st', inr tt) →
  (∀ k name, material_lookup (self st') !! k = Some name →
     ∃ t material, t ∈ ts ∧ material_of t material ∧ named_material material k name) ∧
  (∀ t material k name, t ∈ ts → material_of t material →
     named_material material k name →
     is_Some (material_lookup (self st') !! k)).
Proof.
  intros Hts Hrun.
  destruct (post_elim _ _ _ _ _ (build_table_post st) Hrun ts Hts) as [Hsound Hall].
  split; [exact Hsound|].
  intros t material k name Ht Hm Hn. by eapply (Hall eq_refl t Ht material Hm).
Qed.

End building.

Lemma build_material_lookup_table_witness :
  (∀ k name,
     material_lookup (self (_build_material_lookup material_state).1) !! k = Some name →
     ∃ t material, t ∈ material_tasks ∧ material_of t material ∧
                   named_material material k name) ∧
  (∀ t material k name, t ∈ material_tasks → material_of t material →
     named_material material k name →
     is_Some (material_lookup (self (_build_material_lookup material_state).1) !! k)).
Proof.
  apply (build_material_lookup_table material_state
           (_build_material_lookup material_state).1 material_tasks).
  - reflexivity.
  - unfold material_state.
    apply (run_ok _build_material_lookup
             (State (with_material_lookup {[KStr "old" := JStr "Old"]}
                       (with_transitions (JList material_tasks) blank))
                (example_world [] []))
             tt).
    vm_compute. reflexivity.
Defined.

Example build_material_lookup_last_name_wins :
  material_lookup (self (_build_material_lookup material_state).1)
  = {[KStr "BC1" := JStr "Plate B"]}.
Proof. vm_compute. reflexivity. Qed.

(** ** Making a new session *)

Section init_exact.
Context `{RT : Runtime}.

Lemma initialize_session_file_exact st :
  post _initialize_session_file st (λ st' r,
    r = inr tt →
    ∃ t n,
      py_len (current_transitions (self st)) = inr n ∧
      fs (env st') =
        <[session_file (self st) := FJson (JObj [
            ("session_id", session_id (self st));
            ("session_name", session_name (self st));
            ("random_seed", random_seed (self st));
            ("start_time", JStr (isoformat t));
            ("source_data_file", JStr (data_file (self st)));
            ("total_transitions", JNum (Z.of_nat n));
            ("metadata", metadata (self st));
            ("error_categories", error_categories (self st));
            ("validations", JList [])])]> (fs (env st))).
Proof.
  unfold _initialize_session_file.
  apply post_bind, post_get_self, post_bind.
  eapply post_mono; [apply now_post|].
  intros st1 r (Hs1 & Hfs1 & _ & _ & _ & [t ->]). cbv beta match.
  apply post_bind, post_lift.
  destruct (py_len (current_transitions (self st))) as [e|n]; [done|].
  apply post_bind.
  eapply post_mono; [apply write_json_post|].
  intros st2 r (Hs2 & _ & _ & Hfs2 & _).
  destruct r as [e|[]]; [done|].
  unfold print. apply post_set_env. cbn [self env fs with_stdout].
  intros _. exists t, n. split; [done|]. by rewrite Hfs2, Hfs1.
Qed.

Lemma init_identity_post df rd name seed st :
  post (__init__ df rd name seed) st (λ st' r,
    r = inr tt →
    ∃ t t' n,
      data_file (self st') = df ∧
      results_dir (self st') = Path rd ∧
      session_name (self st') = name ∧
      session_id (self st') = JStr (session_stem name t) ∧
      session_file (self st') =
        path_join (Path rd)
          (if py_truthy name
           then "validation_session_" +:+ py_str name +:+ "_" +:+ strftime t +:+ ".json"
           else "validation_session_" +:+ strftime t +:+ ".json") ∧
      error_categories (self st') = default_error_categories ∧
      py_len (current_transitions (self st')) = inr n ∧
      fs (env st') =
        <[session_file (self st') := FJson (JObj [
            ("session_id", JStr (session_stem name t));
            ("session_name", name);
            ("random_seed", seed);
            ("start_time", JStr (isoformat t'));
            ("source_data_file", JStr df);
            ("total_transitions", JNum (Z.of_nat n));
            ("metadata", metadata (self st'));
            ("error_categories", default_error_categories);
            ("validations", JList [])])]> (fs (env st))).
Proof.
  unfold __init__. cbv zeta.
  do 2 (apply post_bind, post_set_self).
  apply post_bind.
  eapply post_mono; [apply mkdir_post|].
  intros st1 r (Hs1 & Hfs1 & _). destruct r as [e|[]]; [done|].
  cbn [self env] in Hs1, Hfs1.
  apply post_bind.
  eapply post_mono; [apply now_post|].
  intros st2 r (Hs2 & Hfs2 & _ & _ & _ & [t ->]). cbv beta match.
  do 2 (apply post_bind, post_set_self).
  apply post_bind.
  eapply (post_mono _ _ (λ st3 r,
    r = inr tt ∧ env st3 = env st2 ∧
    data_file (self st3) = df ∧ results_dir (self st3) = Path rd ∧
    session_name (self st3) = name ∧ random_seed (self st3) = seed ∧
    session_id (self st3) = JStr (session_stem name t) ∧
    session_file (self st3) =
      path_join (Path rd)
        (if py_truthy name
         then "validation_session_" +:+ py_str name +:+ "_" +:+ strftime t +:+ ".json"
         else "validation_session_" +:+ strftime t +:+ ".json"))).
  { unfold session_stem. post_steps; cbn [self env]; rewrite ?Hs2, ?Hs1;
      split_and!; try done; simpl;
      match goal with H : py_truthy _ = _ |- _ => by rewrite H end. }
  intros st3 r (-> & He3 & Hdf3 & Hrd3 & Hsn3 & Hseed3 & Hid3 & Hfile3).
  do 5 (apply post_bind, post_set_self).
  cbn [self env].
  match goal with
  | |- post _ (State ?m _) _ =>
      assert (data_file m = df ∧ results_dir m = Path rd ∧ session_name m = name ∧
              random_seed m = seed ∧ session_id m = JStr (session_stem name t) ∧
              session_file m = session_file (self st3) ∧
              error_categories m = default_error_categories)
        as (Hdf4 & Hrd4 & Hsn4 & Hseed4 & Hid4 & Hfile4 & Hcat4)
        by (split_and!; first [done|reflexivity]);
      generalize dependent m;
      intros m4 Hdf4 Hrd4 Hsn4 Hseed4 Hid4 Hfile4 Hcat4
  end.
  clear Hdf3 Hrd3 Hsn3 Hseed3 Hid3.
  apply post_bind.
  eapply post_mono; [apply load_data_post|].
  intros st5 r ((Hf5 & Hfs5 & _) & _). destruct r as [e|[]]; [done|].
  cbn [self env] in Hf5, Hfs5.
  apply post_bind.
  eapply post_mono; [apply build_material_lookup_post|].
  intros st6 r (Hf6 & Hfs6 & _). destruct r as [e|[]]; [done|].
  apply post_bind.
  eapply post_mono; [apply randomize_post|].
  intros st7 r (Hf7 & Hfs7 & _). destruct r as [e|[]]; [done|].
  eapply post_mono;
    [apply post_conj; [apply initialize_session_file_post|
                       apply initialize_session_file_exact]|].
  intros st8 r [[Hs8 _] Hok8] ->. destruct (Hok8 eq_refl) as (t' & n & Hn & Hfs8).
  exists t, t', n. rewrite Hs8.
  pose proof (f_equal data_file Hf7) as Ha7.
  pose proof (f_equal results_dir Hf7) as Hb7.
  pose proof (f_equal session_name Hf7) as Hc7.
  pose proof (f_equal session_id Hf7) as Hd7.
  pose proof (f_equal error_categories Hf7) as He7.
  pose proof (f_equal session_file Hf7) as Hg7.
  pose proof (f_equal random_seed Hf7) as Hh7.
  pose proof (f_equal metadata Hf7) as Hi7.
  pose proof (f_equal data_file Hf6) as Ha6.
  pose proof (f_equal results_dir Hf6) as Hb6.
  pose proof (f_equal session_name Hf6) as Hc6.
  pose proof (f_equal session_id Hf6) as Hd6.
  pose proof (f_equal error_categories Hf6) as He6.
  pose proof (f_equal session_file Hf6) as Hg6.
  pose proof (f_equal random_seed Hf6) as Hh6.
  pose proof (f_equal data_file Hf5) as Ha5.
  pose proof (f_equal results_dir Hf5) as Hb5.
  pose proof (f_equal session_name Hf5) as Hc5.
  pose proof (f_equal session_id Hf5) as Hd5.
  pose proof (f_equal error_categories Hf5) as He5.
  pose proof (f_equal session_file Hf5) as Hg5.
  pose proof (f_equal random_seed Hf5) as Hh5.
  cbn in Ha7, Hb7, Hc7, Hd7, He7, Hg7, Hh7, Hi7, Ha6, Hb6, Hc6, Hd6, He6, Hg6, Hh6,
         Ha5, Hb5, Hc5, Hd5, He5, Hg5, Hh5.
  split_and!; congruence.
Qed.

(** A new manager that was made successfully has written one file, its
    session file, and no other: the file records the session's id and name,
    the seed, the dataset path, the number of tasks, the metadata, the ten
    error categories and an empty judgment list.  The id and the file name
    carry the session name when it is truthy and the time stamp alone
    otherwise. *)
Theorem init_creates_session (df rd : string) (name seed : json) (st st' : state) :
  __init__ df rd name seed st = (st', inr tt) →
  ∃ t t' n,
    data_file (self st') = df ∧
    results_dir (self st') = Path rd ∧
    session_name (self st') = name ∧
    session_id (self st') = JStr (session_stem name t) ∧
    session_file (self st') =
      path_join (Path rd)
        (if py_truthy name
         then "validation_session_" +:+ py_str name +:+ "_" +:+ strftime t +:+ ".json"
         else "validation_session_" +:+ strftime t +:+ ".json") ∧
    error_categories (self st') = default_error_categories ∧
    py_len (current_transitions (self st')) = inr n ∧
    fs (env st') =
      <[session_file (self st') := FJson (JObj [
          ("session_id", JStr (session_stem name t));
          ("session_name", name);
          ("random_seed", seed);
          ("start_time", JStr (isoformat t'));
          ("source_data_file", JStr df);
          ("total_transitions", JNum (Z.of_nat n));
          ("metadata", metadata (self st'));
          ("error_categories", default_error_categories);
          ("validations", JList [])])]> (fs (env st)).
Proof.
  intros Hrun.
  exact (post_elim _ _ _ _ _ (init_identity_post df rd name seed st) Hrun eq_refl).
Qed.

End init_exact.

Lemma init_creates_session_witness :
  ∃ t,
    session_id (self run_started) = JStr (session_stem JNull t) ∧
    session_file (self run_started)
      = path_join (Path "out") ("validation_session_" +:+ strftime t +:+ ".json").
Proof.
  destruct (init_creates_session "data.json" "out" JNull (JNum 42) run_start run_started)
    as (t & t' & n & _ & _ & _ & Hid & Hfile & _).
  - unfold run_started, run_start.
    apply (run_ok (__init__ "data.json" "out" JNull (JNum 42))
             (State blank (example_world [("data.json", FJson (JObj two_good))] []))
             tt).
    vm_compute. reflexivity.
  - exists t. split; [exact Hid|exact Hfile].
Defined.

(** ** Loading, further *)

Section loading_more.
Context `{RT : Runtime}.

(** A dataset without [comparisons] is in the direct format: its
    [transitions] entry becomes the task list as it is, with no task
    left out and no field looked at, whatever was loaded before. *)
Theorem load_data_direct_format (st st1 : state) (d : dict) (tj : json) (n : nat) :
  read_json (data_file (self st)) st = (st1, inr (JObj d)) →
  dict_lookup "comparisons" d = None →
  dict_lookup "transitions" d = Some tj →
  py_len tj = inr n →
  ∃ st', _load_data st = (st', inr tt) ∧
         transitions (self st') = tj ∧
         metadata (self st') = default (JObj []) (dict_lookup "metadata" d) ∧
         stdout (env st') =
           (stdout (env st1)
            ++ ["Loaded " +:+ pretty n +:+ " transitions for validation"])%list.
Proof.
  intros Hread Hcomp Htrans Hlen.
  cut (∃ st' (u : unit), _load_data st = (st', inr u) ∧
         transitions (self st') = tj ∧
         metadata (self st') = default (JObj []) (dict_lookup "metadata" d) ∧
         stdout (env st') =
           (stdout (env st1)
            ++ ["Loaded " +:+ pretty n +:+ " transitions for validation"])%list).
  { intros (st' & [] & Hrun). eauto. }
  apply post_success. unfold _load_data.
  apply post_bind, post_get_self, post_bind.
  eapply post_of_run; [exact Hread|]. cbv beta.
  apply post_bind, post_lift. simpl. rewrite Hcomp.
  rewrite bool_decide_eq_false_2 by (by intros [? ?]).
  rewrite Htrans. simpl.
  apply post_bind, post_bind, post_ret, post_set_self, post_bind, post_ret,
    post_bind, post_set_self, post_bind, post_get_self, post_bind.
  cbn [self env transitions with_transitions with_metadata]. rewrite Hlen.
  apply post_ret. unfold print. apply post_set_env. by eexists.
Qed.

(** A dataset file that is missing, that is not JSON, or whose top-level
    value is an array is rejected before anything is assigned or printed:
    with [FileNotFoundError], with [JSONDecodeError], and for an array with
    [AttributeError] from [data.get], or with [TypeError] from
    [data['comparisons']] when the array holds that string. *)
Theorem load_data_rejects (st : state) :
  io_plan (env st) = [] →
  (fs (env st) !! data_file (self st) = None →
   _load_data st = (st, inl (FileNotFoundError (data_file (self st))))) ∧
  (fs (env st) !! data_file (self st) = Some FGarbled →
   _load_data st = (st, inl JSONDecodeError)) ∧
  (∀ l, fs (env st) !! data_file (self st) = Some (FJson (JList l)) →
        _load_data st =
          (st, inl (if existsb (is_str "comparisons") l then TypeError
                    else AttributeError))).
Proof.
  intros Hplan.
  unfold _load_data, read_json, next_io, bind, get_self, get_env, ret, raise, lift.
  simpl. rewrite Hplan. split_and!.
  - by intros ->.
  - by intros ->.
  - intros l ->. simpl. by destruct (existsb (is_str "comparisons") l).
Qed.

End loading_more.

Lemma load_data_direct_format_witness :
  ∃ st', _load_data (first_run direct_format) = (st', inr tt) ∧
         transitions (self st') = JList
           [JObj [("transition_id", JStr "a")];
            JObj [("prediction", JObj [("error", JStr "timeout")])]] ∧
         metadata (self st') = JObj [] ∧
         stdout (env st') =
           (stdout (env (first_run direct_format))
            ++ ["Loaded " +:+ pretty 2%nat +:+ " transitions for validation"])%list.
Proof.
  apply (load_data_direct_format (RT:=example_runtime) (first_run direct_format)
           (first_run direct_format) direct_format).
  - reflexivity.
  - reflexivity.
  - reflexivity.
  - reflexivity.
Defined.

Lemma load_data_rejects_witness :
  _load_data array_dataset = (array_dataset, inl TypeError).
Proof.
  refine (proj2 (proj2 (load_data_rejects array_dataset _)) [JStr "comparisons"] _);
    reflexivity.
Defined.

(** ** Ordering without a seed *)

Section unseeded_order.
Context `{RT : Runtime}.

(** Without a seed the generator is used in the state it is in: the order
    is the shuffle of the task list from that state, a permutation of it;
    the task list itself keeps its order, and one line is printed. *)
Theorem randomize_unseeded (st : state) (T : list json) :
  random_seed (self st) = JNull →
  transitions (self st) = JList T →
  ∃ st' T',
    _randomize_transitions st = (st', inr tt) ∧
    (random_shuffle (JList T) st).2 = inr (JList T') ∧
    current_transitions (self st') = JList T' ∧
    T' ≡ₚ T ∧
    transitions (self st') = JList T ∧
    stdout (env st') =
      (stdout (env st)
       ++ ["Randomized order of " +:+ pretty (length T) +:+ " transitions"])%list.
Proof.
  intros Hseed HT.
  set (st0 := State (with_current_transitions (JList T) (self st)) (env st)).
  destruct (random_shuffle_list T st0) as (T' & Hrun & Hperm).
  destruct (random_shuffle_frame (JList T) st0) as [g' Hframe].
  assert ((random_shuffle (JList T) st).2 = inr (JList T')) as Hrun'.
  { rewrite <- Hrun. by apply random_shuffle_rng. }
  cut (∃ st' (u : unit), _randomize_transitions st = (st', inr u) ∧
         current_transitions (self st') = JList T' ∧
         transitions (self st') = JList T ∧
         stdout (env st') =
           (stdout (env st)
            ++ ["Randomized order of " +:+ pretty (length T) +:+ " transitions"])%list).
  { intros (st' & [] & ? & ? & ? & ?). exists st', T'. by split_and!. }
  apply post_success. unfold _randomize_transitions.
  apply post_bind, post_get_self, post_bind. rewrite Hseed. simpl is_none. cbv iota.
  apply post_ret, post_bind. rewrite HT. simpl py_copy. apply post_ret.
  apply post_bind, post_set_self, post_bind. fold st0.
  eapply post_of_run; [apply surjective_pairing|]. rewrite Hrun, Hframe.
  apply post_bind, post_set_self, post_bind. simpl py_len. apply post_ret.
  unfold print. apply post_set_env. exists tt.
  cbn [self env stdout with_stdout with_rng current_transitions transitions
       with_current_transitions].
  rewrite (Permutation_length Hperm). by split_and!.
Qed.

End unseeded_order.

Lemma randomize_unseeded_witness :
  ∃ st' T',
    _randomize_transitions unseeded = (st', inr tt) ∧
    (random_shuffle (JList three_tasks) unseeded).2 = inr (JList T') ∧
    current_transitions (self st') = JList T' ∧
    T' ≡ₚ three_tasks ∧
    transitions (self st') = JList three_tasks ∧
    stdout (env st') =
      (stdout (env unseeded)
       ++ ["Randomized order of " +:+ pretty (length three_tasks) +:+ " transitions"])%list.
Proof.
  apply (randomize_unseeded (RT:=example_runtime) unseeded three_tasks); reflexivity.
Defined.

(** ** Judging a task again *)

Section rejudging.
Context `{RT : Runtime}.

(** A judgment of a task that is already completed is recorded beside the
    earlier one, and the completed set and the progress stay as they
    were. *)
Theorem rejudging_keeps_progress
    (tid ip ec ce cm cf td : json) (k : pykey) (st st' : state) :
  py_key tid = inr k →
  k ∈ completed_transitions (self st) →
  save_validation tid ip ec ce cm cf td st = (st', inr tt) →
  completed_transitions (self st') = completed_transitions (self st) ∧
  get_progress (self st') = get_progress (self st) ∧
  ∃ l rec, session_validations (self st) = JList l ∧
           session_validations (self st') = JList (l ++ [rec])%list ∧
           py_getitem rec "transition_id" = inr tid.
Proof.
  intros Hk Hin Hrun.
  destruct (post_elim _ _ _ _ _ (save_validation_post tid ip ec ce cm cf td st) Hrun)
    as (Hframe & _ & _ & _ & Hok & _).
  destruct (Hok eq_refl) as (k' & rec & sd & Hk' & Hset & Happ & Hid & _).
  rewrite Hk in Hk'. injection Hk' as <-.
  assert (completed_transitions (self st') = completed_transitions (self st)) as Hsame.
  { rewrite Hset. apply leibniz_equiv. apply subseteq_union_1.
    by apply singleton_subseteq_l. }
  split_and!; [done| |].
  - unfold get_progress. rewrite Hsame.
    pose proof (f_equal current_transitions Hframe) as Hcur. simpl in Hcur.
    by rewrite Hcur.
  - apply py_append_inr in Happ as (l & Hl & Hl'). exists l, rec. by split_and!.
Qed.

End rejudging.

Lemma rejudging_keeps_progress_witness :
  completed_transitions (self (judge "a" serving_abc_state).1)
    = completed_transitions (self serving_abc_state) ∧
  get_progress (self (judge "a" serving_abc_state).1)
    = get_progress (self serving_abc_state).
Proof.
  destruct (rejudging_keeps_progress (JStr "a") (JBool true) (JList []) (JStr "")
              (JStr "") JNull JNull (KStr "a") serving_abc_state
              (judge "a" serving_abc_state).1)
    as (Hc & Hp & _).
  - reflexivity.
  - change (KStr "a" ∈ ({[KStr "a"]} : gset pykey)). by apply elem_of_singleton_2.
  - unfold serving_abc_state, judge.
    apply (run_ok (save_validation (JStr "a") (JBool true) (JList []) (JStr "")
                     (JStr "") JNull JNull)
             (State serving_abc
                (example_world [("s.json", FJson (JObj [("validations", JList [])]))] []))
             tt).
    vm_compute. reflexivity.
  - split; [exact Hc|exact Hp].
Defined.

(** ** Tasks that cannot be served as they are *)

Section serving_edges.
Context `{RT : Runtime}.

(** A task without [transition_id] that is reached, every task before it
    being completed, makes [get_next_transition] raise [KeyError]: the
    tasks after it are not served. *)
Theorem next_transition_missing_id
    (m : ValidationManager) (before rest : list json) (d : dict) :
  current_transitions m = JList (before ++ JObj d :: rest) →
  Forall (is_completed m) before →
  dict_lookup "transition_id" d = None →
  get_next_transition m = inl KeyError.
Proof.
  intros Hcur Hall Hnone. unfold get_next_transition. rewrite Hcur. simpl.
  clear Hcur. induction Hall as [|x before (k & Hk & Hin) _ IH]; simpl.
  - by rewrite Hnone.
  - unfold task_key in Hk.
    destruct (py_getitem x "transition_id") as [?|tid]; simpl in *; [done|].
    destruct (py_key tid) as [?|k']; simpl in *; [done|].
    injection Hk as ->. by rewrite decide_True.
Qed.

(** A task without an action, or whose action has no parameters, is served
    as it is stored.  An action that is a string is searched for the text
    [parameters]: the task is served as it is when the text is absent and
    serving it raises [TypeError] when it is present. *)
Theorem enhance_without_parameters (m : ValidationManager) (d : dict) :
  (dict_lookup "action" d = None →
   _enhance_transition_with_names m (JObj d) = inr (JObj d)) ∧
  (∀ a, dict_lookup "action" d = Some (JObj a) →
        dict_lookup "parameters" a = None →
        _enhance_transition_with_names m (JObj d) = inr (JObj d)) ∧
  (∀ s, dict_lookup "action" d = Some (JStr s) →
        _enhance_transition_with_names m (JObj d)
        = if is_substring "parameters" s then inl TypeError else inr (JObj d)).
Proof.
  unfold _enhance_transition_with_names. simpl. split_and!.
  - by intros ->.
  - intros a -> Hnone. simpl. by rewrite Hnone.
  - intros s ->. simpl. by destruct (is_substring "parameters" s).
Qed.

End serving_edges.

Lemma next_transition_missing_id_witness :
  get_next_transition blocked_session = inl KeyError.
Proof.
  apply (next_transition_missing_id blocked_session
           [JObj [("transition_id", JStr "a")]] [JObj [("transition_id", JStr "c")]]
           [("action", JStr "mix")]).
  - reflexivity.
  - constructor; [|constructor]. exists (KStr "a"). split; [reflexivity|].
    change (KStr "a" ∈ ({[KStr "a"]} : gset pykey)). by apply elem_of_singleton_2.
  - reflexivity.
Defined.

(** ** The task that is enhanced and the task that is kept *)

Section store_frame.
Import store.

Definition hpost {A} (m : H A) (h : heap) (Q : heap → result A → Prop) : Prop :=
  Q (m h).1 (m h).2.

Lemma hpost_bind {A B} (m : H A) (k : A → H B) h (Q : heap → result B → Prop) :
  hpost m h (λ h1 r, match r with
                     | inr a => hpost (k a) h1 Q
                     | inl e => Q h1 (inl e)
                     end) →
  hpost (m ≫= k) h Q.
Proof.
  unfold hpost, mbind, heap_bind. by destruct (m h) as [h1 [e|a]].
Qed.

Lemma hpost_mono {A} (m : H A) h (Q Q' : heap → result A → Prop) :
  hpost m h Q → (∀ h' r, Q h' r → Q' h' r) → hpost m h Q'.
Proof. unfold hpost. auto. Qed.

(** What a statement leaves alone when it assigns only into objects made
    after the store had [n] objects. *)
Definition above (n : nat) (h h' : heap) : Prop :=
  (length h ≤ length h')%nat ∧ ∀ l, (l < n)%nat → h' !! l = h !! l.

Lemma above_refl n h : above n h h.
Proof. by split. Qed.

Lemma above_trans n h1 h2 h3 : above n h1 h2 → above n h2 h3 → above n h1 h3.
Proof.
  intros [Hl1 H1] [Hl2 H2]. split; [lia|]. intros l Hl. by rewrite H2, H1.
Qed.

Lemma above_le n n' h h' : (n ≤ n')%nat → above n' h h' → above n h h'.
Proof. intros Hn [Hl Hs]. split; [done|]. intros l Hlt. apply Hs. lia. Qed.

Lemma above_app n h o : (n ≤ length h)%nat → above n h (h ++ [o])%list.
Proof.
  intros Hn. split; [rewrite length_app; lia|].
  intros l Hl. rewrite lookup_app_l; [done|lia].
Qed.

Lemma above_insert n h l o : (n ≤ l)%nat → above n h (<[l := o]> h).
Proof.
  intros Hn. split; [by rewrite length_insert|].
  intros l' Hl'. rewrite list_lookup_insert_ne; [done|lia].
Qed.

Lemma above_prefix h h' : above (length h) h h' → h `prefix_of` h'.
Proof.
  intros [Hlen Hsame]. exists (drop (length h) h').
  rewrite <- (take_drop (length h) h') at 1. f_equal.
  apply list_eq. intros l. destruct (decide (l < length h)%nat) as [Hl|Hl].
  - rewrite lookup_take_lt by done. by rewrite Hsame.
  - rewrite lookup_take_ge by lia. rewrite lookup_ge_None_2; [done|lia].
Qed.


Lemma bind_run {A B} (m : H A) (k : A → H B) h :
  (m ≫= k) h = match m h with
               | (h', inr a) => k a h'
               | (h', inl e) => (h', inl e)
               end.
Proof. done. Qed.

Lemma deref_run l h :
  deref l h = (h, match h !! l with Some o => inr o | None => inl ModelLimit end).
Proof. unfold deref. by destruct (h !! l). Qed.

Lemma py_in_heap k v h : (py_in k v h).1 = h.
Proof.
  destruct v as [| | | | |l]; simpl; try done.
  rewrite bind_run, deref_run. by destruct (h !! l) as [[]|].
Qed.

Lemma py_getitem_heap v k h : (py_getitem v k h).1 = h.
Proof.
  destruct v as [| | | | |l]; simpl; try done.
  rewrite bind_run, deref_run. destruct (h !! l) as [[|d]|]; try done.
  by destruct (lookup_key k d).
Qed.

Lemma py_items_heap v h : (py_items v h).1 = h.
Proof.
  destruct v as [| | | | |l]; simpl; try done.
  rewrite bind_run, deref_run. by destruct (h !! l) as [[]|].
Qed.

Lemma py_getitem_ref l k h d :
  h !! l = Some (ODict d) →
  py_getitem (VRef l) k h
  = (h, match lookup_key k d with Some x => inr x | None => inl KeyError end).
Proof.
  intros Hl. simpl. rewrite bind_run, deref_run, Hl. by destruct (lookup_key k d).
Qed.

Lemma py_setitem_above n v k x h :
  (∀ l, v = VRef l → (n ≤ l)%nat) → above n h (py_setitem v k x h).1.
Proof.
  intros Hv. destruct v as [| | | | |l]; simpl; try apply above_refl.
  rewrite bind_run, deref_run. destruct (h !! l) as [[|d]|]; try apply above_refl.
  simpl. apply above_insert. by apply Hv.
Qed.

Lemma py_setitem_ref l k x h d :
  h !! l = Some (ODict d) →
  py_setitem (VRef l) k x h = (<[l := ODict (set_key k x d)]> h, inr tt).
Proof. intros Hl. simpl. by rewrite bind_run, deref_run, Hl. Qed.

Lemma lookup_key_set_eq k v d : lookup_key k (set_key k v d) = Some v.
Proof.
  induction d as [|[k' v'] d IH]; simpl.
  - by rewrite decide_True.
  - case_decide; simpl; [by rewrite decide_True|by rewrite decide_False].
Qed.

Lemma lookup_key_set_ne k k' v d :
  k ≠ k' → lookup_key k (set_key k' v d) = lookup_key k d.
Proof.
  intros Hne. induction d as [|[k2 v2] d IH]; simpl.
  - by rewrite decide_False.
  - destruct (decide (k' = k2)) as [->|]; simpl.
    + by rewrite !decide_False.
    + by case_decide.
Qed.

Lemma mapM_above {A B} (f : A → H B) (l : list A) h :
  (∀ x h, above (length h) h (f x h).1) →
  above (length h) h (mapM f l h).1.
Proof.
  intros Hf. revert h. induction l as [|x l IH]; intros h; simpl.
  { apply above_refl. }
  rewrite bind_run. specialize (Hf x h).
  destruct (f x h) as [h1 [e|y]]; simpl in *; [done|].
  rewrite bind_run. specialize (IH h1).
  destruct (mapM f l h1) as [h2 [e|ys]]; simpl in *.
  - eapply above_trans; [done|]. eapply above_le; [|done]. apply Hf.
  - eapply above_trans; [done|]. eapply above_le; [|done]. apply Hf.
Qed.

(** Resolving only makes new objects. *)
Lemma resolve_above fuel names v h :
  above (length h) h (_resolve_barcode_to_name fuel names v h).1.
Proof.
  revert v h. induction fuel as [|fuel IH]; intros v h; simpl.
  { apply above_refl. }
  destruct v as [| | | | |l]; simpl; try apply above_refl.
  rewrite bind_run, deref_run.
  destruct (h !! l) as [[items|d]|]; simpl; [| |apply above_refl].
  - rewrite bind_run.
    pose proof (mapM_above (_resolve_barcode_to_name fuel names) items h IH) as Hm.
    destruct (mapM (M:=H) _ items h) as [h1 [e|items']]; simpl in *; [done|].
    eapply above_trans; [done|]. eapply above_le; [apply Hm|]. by apply above_app.
  - rewrite bind_run.
    pose proof (mapM_above
                  (λ kv, x ← _resolve_barcode_to_name fuel names kv.2; mret (kv.1, x))
                  d h) as Hm.
    destruct (mapM (M:=H) _ d h) as [h1 [e|d']]; simpl in *.
    + apply Hm. intros kv h'. rewrite bind_run. specialize (IH kv.2 h').
      by destruct (_resolve_barcode_to_name fuel names kv.2 h') as [? [|]].
    + eapply above_trans.
      * apply Hm. intros kv h'. rewrite bind_run. specialize (IH kv.2 h').
        by destruct (_resolve_barcode_to_name fuel names kv.2 h') as [? [|]].
      * eapply above_le; [|by apply above_app].
        assert (above (length h) h h1) as [? _]; [|done].
        apply Hm. intros kv h'. rewrite bind_run. specialize (IH kv.2 h').
        by destruct (_resolve_barcode_to_name fuel names kv.2 h') as [? [|]].
Qed.

(** The loop that fills [enhanced_params], the object at [n], changes that
    object and makes new ones. *)
Lemma fill_above fuel names n (items : list (string * value)) h :
  (n ≤ length h)%nat →
  above n h
    (for_each items (λ kv, x ← _resolve_barcode_to_name fuel names kv.2;
                           py_setitem (VRef n) kv.1 x) h).1.
Proof.
  revert h. induction items as [|kv items IH]; intros h Hn.
  { apply above_refl. }
  cbn [for_each]. rewrite bind_run, bind_run.
  pose proof (resolve_above fuel names kv.2 h) as Hr.
  destruct (_resolve_barcode_to_name fuel names kv.2 h) as [h1 [e|x]];
    cbn [fst snd] in *.
  { by eapply above_le. }
  pose proof (py_setitem_above n (VRef n) kv.1 x h1) as Hs.
  destruct (py_setitem (VRef n) kv.1 x h1) as [h2 [e|[]]]; cbn [fst snd] in *.
  - eapply above_trans; [by eapply above_le|]. apply Hs. by intros ? [= <-].
  - assert (above n h h2) as Hh2.
    { eapply above_trans; [by eapply above_le|]. apply Hs. by intros ? [= <-]. }
    eapply above_trans; [done|]. apply IH. destruct Hh2. lia.
Qed.


Lemma py_copy_run v h :
  py_copy v h = match v with
                | VRef l =>
                    match h !! l with
                    | Some o => ((h ++ [o])%list, inr (VRef (length h)))
                    | None => (h, inl ModelLimit)
                    end
                | _ => (h, inl AttributeError)
                end.
Proof.
  destruct v as [| | | | |l]; try done.
  simpl. rewrite bind_run, deref_run. by destruct (h !! l).
Qed.

(** The statements after the loop, on the store [h3] in which the copy of
    the task is the dict [d] at [n0]. *)
Lemma enhance_tail (n0 ep : nat) d h3 :
  h3 !! n0 = Some (ODict d) →
  let m : H value :=
    action ← py_getitem (VRef n0) "action";
    action ← py_copy action;
    _ ← py_setitem (VRef n0) "action" action;
    action ← py_getitem (VRef n0) "action";
    _ ← py_setitem action "parameters" (VRef ep);
    action ← py_getitem (VRef n0) "action";
    _ ← py_setitem action "parameters_display" (VRef ep);
    mret (VRef n0) in
  above n0 h3 (m h3).1 ∧
  ∀ e, (m h3).2 = inr e →
       e = VRef n0 ∧
       (m h3).1 !! n0 = Some (ODict (set_key "action" (VRef (length h3)) d)).
Proof.
  intros Hn0 m.
  assert (n0 < length h3)%nat as Hlt by (by eapply lookup_lt_Some).
  destruct (m h3) as [h' r] eqn:Hrun. subst m. cbn [fst snd].
  rewrite bind_run, (py_getitem_ref _ _ _ _ Hn0) in Hrun.
  destruct (lookup_key "action" d) as [a|];
    [|injection Hrun as <- <-; split; [apply above_refl|done]].
  rewrite bind_run, py_copy_run in Hrun.
  destruct a as [| | | | |la];
    try (injection Hrun as <- <-; split; [apply above_refl|done]).
  destruct (h3 !! la) as [oa|] eqn:Hla;
    [|injection Hrun as <- <-; split; [apply above_refl|done]].
  set (h4 := (h3 ++ [oa])%list) in Hrun.
  assert (above n0 h3 h4) as H34 by (apply above_app; lia).
  assert (h4 !! n0 = Some (ODict d)) as Hn4.
  { unfold h4. by rewrite lookup_app_l. }
  rewrite bind_run, (py_setitem_ref _ _ _ _ _ Hn4) in Hrun.
  set (h5 := <[n0 := ODict (set_key "action" (VRef (length h3)) d)]> h4) in Hrun.
  assert (above n0 h4 h5) as H45 by (by apply above_insert).
  assert (h5 !! n0 = Some (ODict (set_key "action" (VRef (length h3)) d))) as Hn5.
  { unfold h5. apply list_lookup_insert_eq. unfold h4. rewrite length_app. lia. }
  assert (h5 !! length h3 = Some oa) as Ha5.
  { unfold h5. rewrite list_lookup_insert_ne by lia. unfold h4.
    rewrite lookup_app_r by done. by rewrite Nat.sub_diag. }
  rewrite bind_run, (py_getitem_ref _ _ _ _ Hn5), lookup_key_set_eq in Hrun.
  rewrite bind_run in Hrun.
  destruct oa as [items|da].
  { simpl py_setitem in Hrun. rewrite bind_run, deref_run, Ha5 in Hrun.
    injection Hrun as <- <-. split; [by eapply above_trans|done]. }
  rewrite (py_setitem_ref _ _ _ _ _ Ha5) in Hrun.
  set (h6 := <[length h3 := ODict (set_key "parameters" (VRef ep) da)]> h5) in Hrun.
  assert (above n0 h5 h6) as H56 by (apply above_insert; lia).
  assert (h6 !! n0 = Some (ODict (set_key "action" (VRef (length h3)) d))) as Hn6.
  { unfold h6. by rewrite list_lookup_insert_ne by lia. }
  assert (h6 !! length h3 = Some (ODict (set_key "parameters" (VRef ep) da))) as Ha6.
  { unfold h6. apply list_lookup_insert_eq. by eapply lookup_lt_Some. }
  rewrite bind_run, (py_getitem_ref _ _ _ _ Hn6), lookup_key_set_eq in Hrun.
  rewrite bind_run, (py_setitem_ref _ _ _ _ _ Ha6) in Hrun.
  injection Hrun as <- <-. split.
  - eapply above_trans; [exact H34|]. eapply above_trans; [exact H45|].
    eapply above_trans; [exact H56|]. apply above_insert. lia.
  - intros e [= <-]. split; [done|].
    by rewrite list_lookup_insert_ne by lia.
Qed.


Lemma enhance_above fuel names transition h h' r :
  _enhance_transition_with_names fuel names transition h = (h', r) →
  above (length h) h h' ∧
  ∀ e, r = inr e →
       e = VRef (length h) ∧
       ∃ l o o', transition = VRef l ∧ h !! l = Some o ∧
                 h' !! length h = Some o' ∧ enhanced_from (length h) o o'.
Proof.
  intros Hrun. unfold _enhance_transition_with_names in Hrun.
  rewrite bind_run, py_copy_run in Hrun.
  destruct transition as [| | | | |l];
    try (injection Hrun as <- <-; split; [apply above_refl|done]).
  destruct (h !! l) as [o|] eqn:Hl;
    [|injection Hrun as <- <-; split; [apply above_refl|done]].
  set (h1 := (h ++ [o])%list) in Hrun.
  assert (above (length h) h h1) as H01 by (by apply above_app).
  assert (h1 !! length h = Some o) as Hn1.
  { unfold h1. rewrite lookup_app_r by done. by rewrite Nat.sub_diag. }
  assert (∀ e, (inr (VRef (length h)) : result value) = inr e →
               e = VRef (length h) ∧
               ∃ l0 o0 o', VRef l = VRef l0 ∧ h !! l0 = Some o0 ∧
                           h1 !! length h = Some o' ∧ enhanced_from (length h) o0 o')
    as Hsame.
  { intros e [= <-]. split; [done|]. exists l, o, o. split_and!; try done.
    destruct o; simpl; [done|]. split; [done|by left]. }
  rewrite bind_run in Hrun.
  destruct o as [items|d].
  - simpl py_in in Hrun. rewrite bind_run, deref_run, Hn1 in Hrun.
    cbn [mret heap_ret] in Hrun.
    destruct (existsb (is_str "action") items).
    + rewrite bind_run, bind_run in Hrun. simpl py_getitem in Hrun.
      rewrite bind_run, deref_run, Hn1 in Hrun. injection Hrun as <- <-. by split.
    + rewrite bind_run in Hrun. injection Hrun as <- <-. by split.
  - simpl py_in in Hrun. rewrite bind_run, deref_run, Hn1 in Hrun.
    cbn [mret heap_ret] in Hrun.
    destruct (lookup_key "action" d) as [a|] eqn:Ha.
    2:{ rewrite bool_decide_eq_false_2 in Hrun by (by intros [? ?]).
        rewrite bind_run in Hrun. injection Hrun as <- <-. by split. }
    rewrite bool_decide_eq_true_2 in Hrun by eauto.
    rewrite bind_run, bind_run, (py_getitem_ref _ _ _ _ Hn1), Ha in Hrun.
    pose proof (py_in_heap "parameters" a h1) as Hin.
    destruct (py_in "parameters" a h1) as [hx [e|[]]]; simpl in Hin; subst hx.
    + injection Hrun as <- <-. by split.
    + (* the action has parameters *)
      rewrite bind_run in Hrun. unfold alloc at 1 in Hrun.
      set (h2 := (h1 ++ [ODict []])%list) in Hrun.
      assert (above (length h) h1 h2) as H12.
      { apply above_app. destruct H01. lia. }
      assert (h2 !! length h = Some (ODict d)) as Hn2.
      { destruct H12 as [_ H12]. rewrite <- Hn1. unfold h2.
        apply lookup_app_l. by eapply lookup_lt_Some. }
      rewrite bind_run, (py_getitem_ref _ _ _ _ Hn2), Ha in Hrun.
      rewrite bind_run in Hrun.
      pose proof (py_getitem_heap a "parameters" h2) as Hget.
      destruct (py_getitem a "parameters" h2) as [hy [e|ps]]; simpl in Hget; subst hy.
      { injection Hrun as <- <-. split; [by eapply above_trans|done]. }
      rewrite bind_run in Hrun.
      pose proof (py_items_heap ps h2) as Hitems.
      destruct (py_items ps h2) as [hz [e|its]]; simpl in Hitems; subst hz.
      { injection Hrun as <- <-. split; [by eapply above_trans|done]. }
      rewrite bind_run in Hrun.
      pose proof (fill_above fuel names (length h1) its h2) as Hfill.
      destruct (for_each its _ h2) as [h3 [e|[]]] eqn:Hloop; simpl in Hfill.
      { injection Hrun as <- <-. split; [|done].
        eapply above_trans; [exact H01|]. eapply above_trans; [exact H12|].
        eapply above_le; [|apply Hfill].
        - unfold h1. rewrite length_app. lia.
        - unfold h2. rewrite length_app. lia. }
      assert (above (length h1) h2 h3) as H23.
      { apply Hfill. unfold h2. rewrite length_app. lia. }
      assert (length h1 = S (length h)) as Hlen1.
      { unfold h1. rewrite length_app. simpl. lia. }
      assert (h3 !! length h = Some (ODict d)) as Hn3.
      { destruct H23 as [_ H23]. rewrite H23 by lia. done. }
      pose proof (enhance_tail (length h) (length h1) d h3 Hn3) as Htail.
      cbv zeta in Htail. rewrite Hrun in Htail. cbn [fst snd] in Htail.
      destruct Htail as [H3' Hok]. split.
      * eapply above_trans; [exact H01|]. eapply above_trans; [exact H12|].
        eapply above_trans; [|exact H3']. eapply above_le; [|exact H23]. lia.
      * intros e He. destruct (Hok e He) as [-> Hn']. split; [done|].
        exists l, (ODict d), (ODict (set_key "action" (VRef (length h3)) d)).
        split_and!; try done. simpl. split.
        -- intros k Hk. by rewrite lookup_key_set_ne.
        -- right. exists (length h3). rewrite lookup_key_set_eq. split; [done|].
           by eapply lookup_lt_Some.
    + injection Hrun as <- <-. by split.
Qed.


(** In a store of objects [_enhance_transition_with_names] assigns only
    into objects it has made: whether it returns or raises, every object
    that was in the store before the call, the task it is given, the action
    and the parameters of that task among them, is in its place as it was.
    The task it returns is a new object with the entries of the given one,
    where the entry [action] is the one given or a new object. *)
Theorem enhance_keeps_stored_objects
    (fuel : nat) (names : gmap pykey value) (transition : value) (h : heap) :
  h `prefix_of` (_enhance_transition_with_names fuel names transition h).1 ∧
  ∀ e, (_enhance_transition_with_names fuel names transition h).2 = inr e →
       e = VRef (length h) ∧
       ∃ l o o',
         transition = VRef l ∧ h !! l = Some o ∧
         (_enhance_transition_with_names fuel names transition h).1 !! length h
           = Some o' ∧
         enhanced_from (length h) o o'.
Proof.
  destruct (_enhance_transition_with_names fuel names transition h) as [h' r] eqn:Hrun.
  destruct (enhance_above _ _ _ _ _ _ Hrun) as [Habove Hok].
  split; [by apply above_prefix|]. exact Hok.
Qed.

End store_frame.

(** On the task g1_1 in the store the call returns a new task at place 5,
    with a new action at 7 and the resolved parameters at 6, after the five
    objects that were there.  Read as values, the new task is what
    [_enhance_transition_with_names] of the model of values returns for the
    given task, and the given task reads as before. *)
Example enhance_plate_store :
  store._enhance_transition_with_names 3 store.plate_names (store.VRef 3)
    store.plate_store
  = ((store.plate_store ++
      [store.ODict [("transition_id", store.VStr "g1_1"); ("action", store.VRef 7);
                    ("input_materials", store.VRef 4)];
       store.ODict [("plate", store.VStr "Plate A")];
       store.ODict [("parameters", store.VRef 6);
                    ("parameters_display", store.VRef 6)]])%list,
     inr (store.VRef 5)) ∧
  (∃ stored returned,
     store.reify 4 store.plate_store (store.VRef 3) = Some stored ∧
     store.reify 4
       (store._enhance_transition_with_names 3 store.plate_names (store.VRef 3)
          store.plate_store).1 (store.VRef 5) = Some returned ∧
     store.reify 4
       (store._enhance_transition_with_names 3 store.plate_names (store.VRef 3)
          store.plate_store).1 (store.VRef 3) = Some stored ∧
     _enhance_transition_with_names names_bc1 stored = inr returned).
Proof.
  split; [vm_compute; reflexivity|].
  eexists _, _. split_and!; vm_compute; reflexivity.
Qed.

(** A copy of the task shares the action with the task: an assignment into
    the action of the copy, without the copy of the action that
    [_enhance_transition_with_names] makes first, changes the action of the
    task in the store. *)
Example shallow_copy_shares_action :
  ((enhanced ← store.py_copy (store.VRef 3);
    action ← store.py_getitem enhanced "action";
    store.py_setitem action "parameters" (store.VStr "x")) store.plate_store).1 !! 1%nat
  = Some (store.ODict [("parameters", store.VStr "x")]).
Proof. reflexivity. Qed.
